(** * crop-predict-buddy: the inference aggregation engine

    A shallow embedding of [ml_training/model_predictor.py]
    (class [AgriculturalPredictor]) together with the feature schema of
    [ml_training/model_trainer.py], and the properties the specification
    states about them.

    Conventions of the embedding:

    - Python numbers (int and float alike) are exact rationals [Q]; [bool] is
      kept apart and coerces to 0/1 in arithmetic as in Python.  The float
      format's NaN and infinities are not represented: a regressor either
      answers a finite number or raises.  Every float is smaller in
      magnitude than [double_limit], so a number at or beyond it is an int:
      converting it to a float, or dividing it into a quotient that large,
      raises OverflowError, and the arithmetic below does so too.
    - A Python dict is an association list (first binding wins).
    - A computation is a function from the [world] (the position in the
      random stream and the log of artifact files read) to a [result] and
      the world it leaves behind; a raised exception keeps the effects that
      happened before it.
    - The exception type covers the [Exception] hierarchy, which is what the
      predictors' [except Exception] clauses catch.
    - Console output ([print]) is not recorded; the expressions a [print]
      evaluates are. *)

From Stdlib Require Import ZArith QArith Qround Qabs Qminmax.
From Stdlib Require Import List String Bool Lia Lqa.
Import ListNotations.

Local Open Scope Z_scope.
Local Open Scope Q_scope.
Local Open Scope string_scope.

(* ------------------------------------------------------------------ *)
(** ** Python values and exceptions *)

(** What [request.get_json()] or a caller can hand to the engine. *)
#[warnings="-register-all"]
Inductive value : Type :=
| VNone
| VBool (b : bool)
| VNum (q : Q)
| VStr (s : string)
| VList (l : list value)
| VDict (d : list (string * value)).

Inductive exn : Type :=
| KeyError (key : string)
| TypeError
| ValueError
| AttributeError
| OverflowError
| FileNotFoundError (path : string)
| OtherError (msg : string).

Inductive result (A : Type) : Type :=
| Ok (a : A)
| Raise (e : exn).

Arguments Ok {A} a.
Arguments Raise {A} e.

(** The world threaded through every call: how many draws the global numpy
    generator has handed out, and which artifact files [joblib.load] has
    read so far (most recent first). *)
Record world : Type := mkWorld {
  draws : nat;
  reads : list string
}.

Definition M (A : Type) : Type := world -> result A * world.

Definition ret {A} (a : A) : M A := fun w => (Ok a, w).

Definition raise {A} (e : exn) : M A := fun w => (Raise e, w).

Definition bind {A B} (m : M A) (k : A -> M B) : M B :=
  fun w =>
    match m w with
    | (Ok a, w') => k a w'
    | (Raise e, w') => (Raise e, w')
    end.

Definition lift {A} (r : result A) : M A := fun w => (r, w).

(** [try: body / except Exception as e: handler e]. *)
Definition try_except {A} (body : M A) (handler : exn -> M A) : M A :=
  fun w =>
    match body w with
    | (Ok a, w') => (Ok a, w')
    | (Raise e, w') => handler e w'
    end.

Declare Scope py_scope.
Delimit Scope py_scope with py.
Notation "x <- m ;; k" := (bind m (fun x => k))
  (at level 61, m at next level, right associativity) : py_scope.
Local Open Scope py_scope.

(* ------------------------------------------------------------------ *)
(** ** Primitive operations of the language *)

Fixpoint dict_get (d : list (string * value)) (k : string) : option value :=
  match d with
  | [] => None
  | (k', v) :: d' => if String.eqb k' k then Some v else dict_get d' k
  end.

(** [obj[key]] with a string key: only a dict can be subscripted that way. *)
Definition getitem (obj : value) (key : string) : result value :=
  match obj with
  | VDict d =>
      match dict_get d key with
      | Some v => Ok v
      | None => Raise (KeyError key)
      end
  | _ => Raise TypeError
  end.

(** The numeric reading of a value in arithmetic and ordering. *)
Definition as_num (v : value) : option Q :=
  match v with
  | VNum q => Some q
  | VBool true => Some 1
  | VBool false => Some 0
  | _ => None
  end.

Definition num (v : value) : result Q :=
  match as_num v with
  | Some q => Ok q
  | None => Raise TypeError
  end.

Definition Qltb (a b : Q) : bool := negb (Qle_bool b a).

(** [max(a, b)]: the first argument unless the second is strictly larger. *)
Definition py_max (a b : Q) : Q := if Qltb a b then b else a.

(** [min(a, b)]: the first argument unless the second is strictly smaller. *)
Definition py_min (a b : Q) : Q := if Qltb b a then b else a.

(** [round(x)]: to the nearest integer, ties to the even one. *)
Definition py_round (x : Q) : Z :=
  let n := Qfloor x in
  let twice := 2 * (x - inject_Z n) in
  if Qltb twice 1 then n
  else if Qltb 1 twice then (n + 1)%Z
  else if Z.even n then n else (n + 1)%Z.

(** [round(x, 1)]. *)
Definition py_round1 (x : Q) : Q := inject_Z (py_round (x * 10)) / 10.

(** The double format rounds to an infinity from [2^1024 - 2^970] on. *)
Definition double_limit : Q := inject_Z (2 ^ 1024 - 2 ^ 970).

Definition fits_double (x : Q) : bool := Qltb (Qabs x) double_limit.

(** The operand [x] of [x - c] with [c] a float: an int is converted to a
    float first, which fails beyond the double range. *)
Definition to_float (x : Q) : result Q :=
  if fits_double x then Ok x else Raise OverflowError.

(** [x / d] with [d] an int: the quotient of two ints has to fit a float;
    with [x] a float it always does. *)
Definition true_div (x d : Q) : result Q :=
  if fits_double (x / d) then Ok (x / d) else Raise OverflowError.

(** [item in xs] and [xs.index(item)] for a list of strings; a value that
    is not a string equals none of them. *)
Definition str_in (v : value) (xs : list string) : bool :=
  match v with
  | VStr s => existsb (String.eqb s) xs
  | _ => false
  end.

Fixpoint index_of (s : string) (xs : list string) : nat :=
  match xs with
  | [] => 0
  | x :: xs' => if String.eqb x s then 0 else S (index_of s xs')
  end.

Definition list_index (v : value) (xs : list string) : result Z :=
  match v with
  | VStr s =>
      if existsb (String.eqb s) xs then Ok (Z.of_nat (index_of s xs))
      else Raise ValueError
  | _ => Raise ValueError
  end.

(* ------------------------------------------------------------------ *)
(** ** The surroundings: artifacts on disk and the random generator *)

(** A one-row numpy array.  When every component is a number the array
    holds these numbers, a boolean as 1 or 0.  Otherwise numpy coerces the
    components to one common type, text if text is the only other kind
    and objects if not: the array is given by the components it was built
    from. *)
Inductive ndarray : Type :=
| NumberArray (cells : list Q)
| MixedArray (components : list value).

(** A loaded pickle.  [predict x] stands for [model.predict(x)[0]] and
    [transform x] for [scaler.transform(x)]; an object lacking the method
    answers [Raise AttributeError]. *)
Record artifact : Type := mkArtifact {
  predict : ndarray -> result Q;
  transform : ndarray -> result ndarray
}.

(** The persisted [model_metadata.json], as far as the predictor reads it.
    The file is taken to be, whenever it parses, of the shape
    [save_model_metadata] writes: a JSON object whose [label_encoders],
    if present, is an object, and whose [label_encoders.crop_type], if
    present, is a list of strings ([None] below when it is absent).  A
    file that parses to anything else is not among the surroundings
    described here. *)
Record metadata_record : Type := mkMetadata {
  md_feature_columns : list string;
  md_crop_type : option (list string)
}.

(** [pickles path] is [None] when no such file exists, [Some (Raise e)]
    when the file exists and unpickling it fails; likewise [jsons].
    [std_normal k] and [uniform k] are what the generator hands out at its
    k-th draw. *)
Record environment : Type := mkEnv {
  pickles : string -> option (result artifact);
  jsons : string -> option (result metadata_record);
  std_normal : nat -> Q;
  uniform : nat -> nat
}.

Definition os_path_exists (env : environment) (path : string) : bool :=
  match pickles env path with Some _ => true | None => false end.

Definition joblib_load (env : environment) (path : string) : M artifact :=
  fun w =>
    match pickles env path with
    | None => (Raise (FileNotFoundError path), w)
    | Some r => (r, mkWorld (draws w) (path :: reads w))
    end.

Definition next_draw : M nat :=
  fun w => (Ok (draws w), mkWorld (S (draws w)) (reads w)).

(** [np.random.normal(loc, scale)]. *)
Definition np_random_normal (env : environment) (loc scale : Q) : M Q :=
  k <- next_draw ;; ret (loc + scale * std_normal env k).

(** [np.random.randint(low, high)]: an integer of [low, high). *)
Definition np_random_randint (env : environment) (low high : Z) : M Z :=
  if (low <? high)%Z then
    k <- next_draw ;;
    ret (low + Z.of_nat (uniform env k) mod (high - low))%Z
  else raise ValueError.

(** [np.random.choice(xs)]. *)
Definition np_random_choice (env : environment) (xs : list string) : M string :=
  match xs with
  | [] => raise ValueError
  | x :: _ =>
      k <- next_draw ;;
      ret (nth (uniform env k mod List.length xs) xs x)
  end.

(* ------------------------------------------------------------------ *)
(** ** model_trainer.py: the training-time schema *)

(** [AgriculturalModelTrainer.feature_columns], as assigned in
    [load_and_preprocess_data]. *)
Definition feature_columns : list string :=
  [ "soil_ph"; "nitrogen_ppm"; "phosphorus_ppm"; "potassium_ppm";
    "organic_matter_pct";
    "temperature_c"; "rainfall_mm"; "humidity_pct"; "sunlight_hours";
    "wind_speed_kmh"; "pressure_hpa";
    "growing_days"; "planting_month"; "crop_type_encoded";
    "ph_stress"; "nutrient_balance"; "weather_stress" ].

(* ------------------------------------------------------------------ *)
(** ** model_predictor.py: class AgriculturalPredictor *)

Record AgriculturalPredictor : Type := mkPredictor {
  models_dir : string;
  fallback_mode : bool;
  metadata : metadata_record;
  models : list (string * artifact);
  scalers : list (string * artifact);
  label_encoders_crop_type : list string
}.

Definition default_crop_types : list string :=
  [ "rice"; "wheat"; "maize"; "cotton"; "sugarcane"; "tomato"; "potato";
    "soybean"; "barley"; "sorghum"; "groundnut"; "mustard" ].

(** [_load_metadata]: the parsed record, or the defaults with
    [fallback_mode] switched on.  The second component is the flag. *)
Definition _load_metadata (env : environment) (dir : string)
  : metadata_record * bool :=
  match jsons env (dir ++ "/model_metadata.json") with
  | Some (Ok md) => (md, false)
  | _ => (mkMetadata [] (Some default_crop_types), true)
  end.

Definition scaler_targets : list string :=
  [ "irrigation"; "nitrogen_fertilizer"; "phosphorus_fertilizer";
    "potassium_fertilizer"; "yield"; "yield_increase" ].

Fixpoint assoc_get {A} (d : list (string * A)) (k : string) : option A :=
  match d with
  | [] => None
  | (k', v) :: d' => if String.eqb k' k then Some v else assoc_get d' k
  end.

Fixpoint assoc_set {A} (d : list (string * A)) (k : string) (v : A)
  : list (string * A) :=
  match d with
  | [] => [(k, v)]
  | (k', v') :: d' =>
      if String.eqb k' k then (k, v) :: d' else (k', v') :: assoc_set d' k v
  end.

(** One turn of the scaler loop of [_load_models]: the scaler is stored
    when its file exists and unpickles; a failure is reported and skipped. *)
Definition load_scaler (env : environment) (dir : string)
    (acc : list (string * artifact)) (target : string)
  : M (list (string * artifact)) :=
  try_except
    (let path := dir ++ "/scaler_" ++ target ++ ".pkl" in
     if os_path_exists env path then
       s <- joblib_load env path ;; ret (assoc_set acc target s)
     else ret acc)
    (fun _ => ret acc).

Fixpoint load_scalers (env : environment) (dir : string)
    (targets : list string) (acc : list (string * artifact))
  : M (list (string * artifact)) :=
  match targets with
  | [] => ret acc
  | t :: ts => acc' <- load_scaler env dir acc t ;; load_scalers env dir ts acc'
  end.

(** [_load_models]: the scalers found on disk are stored in [scalers],
    the crop list is taken from the metadata or defaulted; [models] is not
    touched.  The two [.get] calls of line 71 stand outside every [try];
    on metadata of the shape assumed above they return. *)
Definition _load_models (env : environment) (self : AgriculturalPredictor)
  : M AgriculturalPredictor :=
  sc <- load_scalers env (models_dir self) scaler_targets (scalers self) ;;
  ret (mkPredictor (models_dir self) (fallback_mode self) (metadata self)
         (models self) sc
         (match md_crop_type (metadata self) with
          | Some crops => crops
          | None => default_crop_types
          end)).

(** [AgriculturalPredictor(models_dir)], with [dir] the directory already
    resolved against the module's own location. *)
Definition __init__ (env : environment) (dir : string)
  : M AgriculturalPredictor :=
  let '(md, fb) := _load_metadata env dir in
  _load_models env (mkPredictor dir fb md [] [] []).

(** [input_data[section][key]]. *)
Definition field (input : value) (section key : string) : M value :=
  s <- lift (getitem input section) ;; lift (getitem s key).

(** The same read used as an operand of arithmetic or of an ordering. *)
Definition num_field (input : value) (section key : string) : M Q :=
  v <- field input section key ;; lift (num v).

Definition is_sequence (v : value) : bool :=
  match v with
  | VList _ => true
  | _ => false
  end.

(** The components read as numbers, when all of them are. *)
Fixpoint numbers (vs : list value) : option (list Q) :=
  match vs with
  | [] => Some []
  | v :: vs' =>
      match as_num v, numbers vs' with
      | Some q, Some qs => Some (q :: qs)
      | _, _ => None
      end
  end.

(** [np.array(features).reshape(1, -1)].  The list mixes floats with
    what was read from the input: a component that is itself a list makes
    the shape inhomogeneous, which numpy rejects with ValueError. *)
Definition np_array_row (features : list value) : result ndarray :=
  if existsb is_sequence features then Raise ValueError
  else
    match numbers features with
    | Some cells => Ok (NumberArray cells)
    | None => Ok (MixedArray features)
    end.

Definition _prepare_features (env : environment) (self : AgriculturalPredictor)
    (input_data : value) : M ndarray :=
  (* Soil parameters *)
  ph <- field input_data "soil" "ph" ;;
  nitrogen <- field input_data "soil" "nitrogen" ;;
  phosphorus <- field input_data "soil" "phosphorus" ;;
  potassium <- field input_data "soil" "potassium" ;;
  organic <- field input_data "soil" "organicMatter" ;;
  let features := [ph; nitrogen; phosphorus; potassium; organic] in
  (* Weather parameters *)
  temperature <- field input_data "weather" "temperature" ;;
  rainfall <- field input_data "weather" "rainfall" ;;
  humidity <- field input_data "weather" "humidity" ;;
  sunlight <- field input_data "weather" "sunlightHours" ;;
  let features := (features ++ [temperature; rainfall; humidity; sunlight])%list in
  (* Additional weather features (simulated) *)
  wind <- np_random_normal env 15 5 ;;
  pressure <- np_random_normal env 1013 20 ;;
  let features := (features ++ [VNum wind; VNum pressure])%list in
  (* Growing parameters (simulated) *)
  month <- np_random_randint env 1 13 ;;
  let features := (features ++ [VNum 120; VNum (inject_Z month)])%list in
  (* Crop type encoding *)
  crop_type <- lift (getitem input_data "cropType") ;;
  crop_encoded <-
    (if str_in crop_type (label_encoders_crop_type self)
     then lift (list_index crop_type (label_encoders_crop_type self))
     else ret 0%Z) ;;
  let features := (features ++ [VNum (inject_Z crop_encoded)])%list in
  (* Derived features *)
  ph' <- num_field input_data "soil" "ph" ;;
  ph' <- lift (to_float ph') ;;
  let ph_stress := Qabs (ph' - 6.5) / 6.5 in
  n' <- num_field input_data "soil" "nitrogen" ;;
  n' <- lift (true_div n' 25) ;;
  p' <- num_field input_data "soil" "phosphorus" ;;
  p' <- lift (true_div p' 18) ;;
  k' <- num_field input_data "soil" "potassium" ;;
  k' <- lift (true_div k' 30) ;;
  let nutrient_balance := (n' + p' + k') / 3 in
  t' <- num_field input_data "weather" "temperature" ;;
  weather_stress <- lift (true_div (Qabs (t' - 25)) 25) ;;
  let features :=
    (features ++ [VNum ph_stress; VNum nutrient_balance; VNum weather_stress])%list in
  lift (np_array_row features).

Record irrigation_result : Type := mkIrrigation {
  litersPerAcre : Z;
  frequency : string;
  method : string;
  irrigation_efficiency : Z;
  criticalPeriods : list string
}.

Record fertilizer_result : Type := mkFertilizer {
  nitrogen : Z;
  phosphorus : Z;
  potassium : Z;
  applicationSchedule : list string;
  fertilizer_efficiency : Z
}.

Record yield_result : Type := mkYield {
  expectedYield : Q;
  yieldIncrease : Z;
  limitingFactors : list string;
  confidence : Z
}.

(** [scaler.transform(features) if scaler is not None else features]. *)
Definition scale (scaler : option artifact) (features : ndarray)
  : M ndarray :=
  match scaler with
  | Some s => lift (transform s features)
  | None => ret features
  end.

(** Lines 148-165: the record built from the raw prediction. *)
Definition irrigation_record (irrigation_liters : Q) : irrigation_result :=
  let '(method, frequency) :=
    if Qltb 2000 irrigation_liters then ("Sprinkler System", "Daily")
    else if Qltb 1000 irrigation_liters then ("Drip Irrigation", "Every 2-3 days")
    else ("Drip Irrigation", "Weekly") in
  mkIrrigation
    (Z.max 100 (py_round irrigation_liters))
    frequency
    method
    (if String.eqb method "Drip Irrigation" then 90 else 75)%Z
    ["Flowering stage"; "Early grain filling"].

(** The [try] block of [predict_irrigation]. *)
Definition predict_irrigation_body (env : environment)
    (self : AgriculturalPredictor) (input_data : value) : M irrigation_result :=
  features <- _prepare_features env self input_data ;;
  model <- joblib_load env (models_dir self ++ "/rf_irrigation_model.pkl") ;;
  let scaler := assoc_get (scalers self) "irrigation" in
  features_scaled <- scale scaler features ;;
  irrigation_liters <- lift (predict model features_scaled) ;;
  ret (irrigation_record irrigation_liters).

Definition irrigation_fallback : irrigation_result :=
  mkIrrigation 1000 "Every 2-3 days" "Drip Irrigation" 85 ["Flowering stage"].

Definition predict_irrigation (env : environment)
    (self : AgriculturalPredictor) (input_data : value) : M irrigation_result :=
  try_except (predict_irrigation_body env self input_data)
             (fun _ => ret irrigation_fallback).

(** The [try] block of [predict_fertilizer]. *)
Definition predict_fertilizer_body (env : environment)
    (self : AgriculturalPredictor) (input_data : value) : M fertilizer_result :=
  features <- _prepare_features env self input_data ;;
  n_model <- joblib_load env
    (models_dir self ++ "/rf_nitrogen_fertilizer_model.pkl") ;;
  p_model <- joblib_load env
    (models_dir self ++ "/rf_phosphorus_fertilizer_model.pkl") ;;
  k_model <- joblib_load env
    (models_dir self ++ "/rf_potassium_fertilizer_model.pkl") ;;
  let scaler := assoc_get (scalers self) "nitrogen_fertilizer" in
  features_scaled <- scale scaler features ;;
  n <- lift (predict n_model features_scaled) ;;
  let nitrogen := Z.max 0 (py_round n) in
  p <- lift (predict p_model features_scaled) ;;
  let phosphorus := Z.max 0 (py_round p) in
  k <- lift (predict k_model features_scaled) ;;
  let potassium := Z.max 0 (py_round k) in
  ret (mkFertilizer nitrogen phosphorus potassium
         ["25% at planting"; "50% at vegetative stage"; "25% at flowering"]
         85).

Definition fertilizer_fallback : fertilizer_result :=
  mkFertilizer 100 50 60 ["Split application recommended"] 80.

Definition predict_fertilizer (env : environment)
    (self : AgriculturalPredictor) (input_data : value) : M fertilizer_result :=
  try_except (predict_fertilizer_body env self input_data)
             (fun _ => ret fertilizer_fallback).

(** [a or b] on conditions that read the input: [b] is evaluated only
    when [a] is false. *)
Definition or_else (a b : M bool) : M bool :=
  x <- a ;; if x then ret true else b.

(** [xs.append(item)] under a condition. *)
Definition append_if (c : bool) (item : string) (xs : list string)
  : list string :=
  if c then (xs ++ [item])%list else xs.

(** The [try] block of [predict_yield]. *)
Definition predict_yield_body (env : environment)
    (self : AgriculturalPredictor) (input_data : value) : M yield_result :=
  features <- _prepare_features env self input_data ;;
  yield_model <- joblib_load env (models_dir self ++ "/rf_yield_model.pkl") ;;
  increase_model <- joblib_load env
    (models_dir self ++ "/rf_yield_increase_model.pkl") ;;
  let scaler := assoc_get (scalers self) "yield" in
  features_scaled <- scale scaler features ;;
  y <- lift (predict yield_model features_scaled) ;;
  let expected_yield := py_max 0 y in
  x <- lift (predict increase_model features_scaled) ;;
  let yield_increase := py_max 0 (py_min 50 x) in
  (* Calculate confidence based on input quality *)
  let confidence := 85%Z in
  ph <- num_field input_data "soil" "ph" ;;
  ph <- lift (to_float ph) ;;
  let confidence :=
    if Qltb (Qabs (ph - 6.5)) 0.5 then (confidence + 5)%Z else confidence in
  om <- num_field input_data "soil" "organicMatter" ;;
  let confidence := if Qltb 3 om then (confidence + 3)%Z else confidence in
  rain <- num_field input_data "weather" "rainfall" ;;
  let confidence :=
    if Qle_bool 50 rain && Qle_bool rain 200
    then (confidence + 4)%Z else confidence in
  (* Identify limiting factors *)
  let limiting_factors := [] in
  c1 <- or_else (v <- num_field input_data "soil" "ph" ;; ret (Qltb v 5.5))
                (v <- num_field input_data "soil" "ph" ;; ret (Qltb 8.0 v)) ;;
  let limiting_factors := append_if c1 "Soil pH imbalance" limiting_factors in
  om' <- num_field input_data "soil" "organicMatter" ;;
  let limiting_factors :=
    append_if (Qltb om' 2) "Low organic matter" limiting_factors in
  c3 <- or_else
          (v <- num_field input_data "weather" "temperature" ;; ret (Qltb v 10))
          (v <- num_field input_data "weather" "temperature" ;; ret (Qltb 35 v)) ;;
  let limiting_factors := append_if c3 "Temperature stress" limiting_factors in
  rain' <- num_field input_data "weather" "rainfall" ;;
  let limiting_factors :=
    append_if (Qltb rain' 50) "Water stress" limiting_factors in
  ret (mkYield
         (py_round1 expected_yield)
         (py_round yield_increase)
         (match limiting_factors with
          | [] => ["No major limiting factors detected"]
          | _ :: _ => limiting_factors
          end)
         (Z.min 98 confidence)).

Definition yield_fallback : yield_result :=
  mkYield 3.5 15 ["Model prediction unavailable"] 70.

Definition predict_yield (env : environment)
    (self : AgriculturalPredictor) (input_data : value) : M yield_result :=
  try_except (predict_yield_body env self input_data)
             (fun _ => ret yield_fallback).

Record risk_assessment : Type := mkRisk {
  waterStress : Q;
  nutrientDeficiency : Q;
  climateRisk : Q;
  overallRisk : string
}.

Record economic_impact : Type := mkEconomic {
  costReduction : Z;
  profitIncrease : Q
}.

Record aggregate_result : Type := mkAggregate {
  irrigation : irrigation_result;
  fertilizer : fertilizer_result;
  yieldPrediction : yield_result;
  riskAssessment : risk_assessment;
  sustainabilityTip : string;
  economicImpact : economic_impact
}.

Definition sustainability_tips : list string :=
  [ "Use drip irrigation to save up to 60% water compared to flood irrigation.";
    "Implement crop rotation with legumes to naturally fix nitrogen.";
    "Apply organic compost to improve soil structure and water retention.";
    "Use precision agriculture techniques with IoT sensors for optimal resource usage.";
    "Consider companion planting to naturally control pests and improve soil nutrients.";
    "Implement rainwater harvesting systems to reduce groundwater dependency.";
    "Use cover crops during off-seasons to prevent soil erosion.";
    "Apply fertilizers during optimal weather conditions to maximize uptake." ].

(** Lines 278-284: the triggers, appended in this order. *)
Definition risk_factors (irrigation : irrigation_result)
    (fertilizer : fertilizer_result) (yield_pred : yield_result) : list string :=
  let risk_factors := [] in
  let risk_factors :=
    append_if (2000 <? litersPerAcre irrigation)%Z
              "High water requirement" risk_factors in
  let risk_factors :=
    append_if (150 <? nitrogen fertilizer)%Z
              "High nitrogen need" risk_factors in
  append_if (confidence yield_pred <? 80)%Z
            "Low prediction confidence" risk_factors.

(** Lines 286-290. *)
Definition overall_risk (risk_factors : list string) : string :=
  if (2 <? List.length risk_factors)%nat then "High"
  else if (0 <? List.length risk_factors)%nat then "Medium"
  else "Low".

(** Lines 292-297, given the temperature read from the input. *)
Definition assess_risk (irrigation : irrigation_result)
    (fertilizer : fertilizer_result) (yield_pred : yield_result)
    (temperature : Q) : risk_assessment :=
  mkRisk
    (py_min 100 (py_max 0 ((inject_Z (litersPerAcre irrigation) - 1000) / 20)))
    (py_min 100
       (py_max 0
          ((inject_Z (nitrogen fertilizer + phosphorus fertilizer
                      + potassium fertilizer) - 200) / 5)))
    (py_min 100 (py_max 0 (Qabs (temperature - 25) * 2)))
    (overall_risk (risk_factors irrigation fertilizer yield_pred)).

(** Lines 313-320. *)
Definition economic (irrigation : irrigation_result)
    (fertilizer : fertilizer_result) (yield_pred : yield_result)
  : economic_impact :=
  let water_saving :=
    (if String.eqb (method irrigation) "Drip Irrigation" then 20 else 5)%Z in
  let fertilizer_saving :=
    (if nitrogen fertilizer + phosphorus fertilizer + potassium fertilizer <? 200
     then 15 else 5)%Z in
  mkEconomic (water_saving + fertilizer_saving)
             (py_max 0 (inject_Z (yieldIncrease yield_pred) * 0.8)).

Definition predict_all (env : environment) (self : AgriculturalPredictor)
    (input_data : value) : M aggregate_result :=
  (* the f-string of the opening print *)
  _ <- lift (getitem input_data "cropType") ;;
  (* Get all predictions *)
  irrigation <- predict_irrigation env self input_data ;;
  fertilizer <- predict_fertilizer env self input_data ;;
  yield_pred <- predict_yield env self input_data ;;
  (* Risk assessment *)
  temperature <- num_field input_data "weather" "temperature" ;;
  let risk := assess_risk irrigation fertilizer yield_pred temperature in
  (* Sustainability tip *)
  sustainability_tip <- np_random_choice env sustainability_tips ;;
  (* Economic impact *)
  ret (mkAggregate irrigation fertilizer yield_pred risk sustainability_tip
         (economic irrigation fertilizer yield_pred)).

(* ------------------------------------------------------------------ *)
(** ** Well-formed inputs *)

(** The pure content of [field]: reading the input changes nothing. *)
Definition read (input : value) (section key : string) : result value :=
  match getitem input section with
  | Ok s => getitem s key
  | Raise e => Raise e
  end.

Definition read_num (input : value) (section key : string) : result Q :=
  match read input section key with
  | Ok v => num v
  | Raise e => Raise e
  end.

(** An [AgronomicInput]: the nine measurements and the crop type. *)
Record agronomic_input : Type := mkInput {
  in_ph : Q;
  in_nitrogen : Q;
  in_phosphorus : Q;
  in_potassium : Q;
  in_organicMatter : Q;
  in_temperature : Q;
  in_rainfall : Q;
  in_humidity : Q;
  in_sunlightHours : Q;
  in_cropType : value
}.

Definition number (r : result value) : option Q :=
  match r with
  | Ok (VNum q) => Some q
  | _ => None
  end.

Definition present (r : result value) : option value :=
  match r with
  | Ok v => Some v
  | Raise _ => None
  end.

Notation "'let?' x := m 'in' k" :=
  (match m with Some x => k | None => None end)
  (at level 10, x name, m at level 100, k at level 200, only parsing).

(** The reading of a dict as an [AgronomicInput]: every soil and weather
    field is there and is a number, and [cropType] is there.  Extra keys
    and the order of keys do not matter. *)
Definition parse (input : value) : option agronomic_input :=
  let? ph := number (read input "soil" "ph") in
  let? n := number (read input "soil" "nitrogen") in
  let? p := number (read input "soil" "phosphorus") in
  let? k := number (read input "soil" "potassium") in
  let? om := number (read input "soil" "organicMatter") in
  let? t := number (read input "weather" "temperature") in
  let? rain := number (read input "weather" "rainfall") in
  let? hum := number (read input "weather" "humidity") in
  let? sun := number (read input "weather" "sunlightHours") in
  let? crop := present (getitem input "cropType") in
  Some (mkInput ph n p k om t rain hum sun crop).

Definition well_formed (input : value) : Prop :=
  exists a, parse input = Some a.

(** The dict a caller builds from the measurements, in the layout of the
    sample input at the end of the module. *)
Definition to_dict (a : agronomic_input) : value :=
  VDict
    [ ("soil", VDict [ ("ph", VNum (in_ph a));
                       ("nitrogen", VNum (in_nitrogen a));
                       ("phosphorus", VNum (in_phosphorus a));
                       ("potassium", VNum (in_potassium a));
                       ("organicMatter", VNum (in_organicMatter a)) ]);
      ("weather", VDict [ ("temperature", VNum (in_temperature a));
                          ("rainfall", VNum (in_rainfall a));
                          ("humidity", VNum (in_humidity a));
                          ("sunlightHours", VNum (in_sunlightHours a)) ]);
      ("cropType", in_cropType a) ].

(** The sample input of the module's [__main__] block. *)
Definition sample : agronomic_input :=
  mkInput 6.5 20 15 25 3.0 25 100 65 8 (VStr "rice").

Definition sample_input : value := to_dict sample.


(** The sample input asking for maize, third in the default crop list. *)
Definition maize_input : value :=
  to_dict (mkInput 6.5 20 15 25 3.0 25 100 65 8 (VStr "maize")).

(** The same input without its [cropType], without its [weather] and with
    a [weather] that lacks [temperature]. *)
Definition sample_without_cropType : value :=
  VDict
    [ ("soil", VDict [ ("ph", VNum 6.5); ("nitrogen", VNum 20);
                       ("phosphorus", VNum 15); ("potassium", VNum 25);
                       ("organicMatter", VNum 3.0) ]);
      ("weather", VDict [ ("temperature", VNum 25); ("rainfall", VNum 100);
                          ("humidity", VNum 65); ("sunlightHours", VNum 8) ]) ].

Definition sample_without_weather : value :=
  VDict
    [ ("soil", VDict [ ("ph", VNum 6.5); ("nitrogen", VNum 20);
                       ("phosphorus", VNum 15); ("potassium", VNum 25);
                       ("organicMatter", VNum 3.0) ]);
      ("cropType", VStr "rice") ].

Definition sample_without_temperature : value :=
  VDict
    [ ("soil", VDict [ ("ph", VNum 6.5); ("nitrogen", VNum 20);
                       ("phosphorus", VNum 15); ("potassium", VNum 25);
                       ("organicMatter", VNum 3.0) ]);
      ("weather", VDict [ ("rainfall", VNum 100);
                          ("humidity", VNum 65); ("sunlightHours", VNum 8) ]);
      ("cropType", VStr "rice") ].

(* ------------------------------------------------------------------ *)
(** ** Concrete surroundings used in the examples *)

(** A regressor that answers [q] whatever the row; it has no [transform]. *)
Definition constant_model (q : Q) : artifact :=
  mkArtifact (fun _ => Ok q) (fun _ => Raise AttributeError).

(** A scaler that leaves the row as it is; it has no [predict]. *)
Definition identity_scaler : artifact :=
  mkArtifact (fun _ => Raise AttributeError) (fun x => Ok x).

(** An empty artifact directory. *)
Definition no_artifacts : environment :=
  mkEnv (fun _ => None) (fun _ => None) (fun _ => 0) (fun k => k).

(** A directory [models] holding the irrigation regressor (answering
    [liters]) and its scaler, and nothing else. *)
Definition irrigation_only (liters : Q) : environment :=
  mkEnv
    (fun path =>
       if String.eqb path "models/rf_irrigation_model.pkl"
       then Some (Ok (constant_model liters))
       else if String.eqb path "models/scaler_irrigation.pkl"
       then Some (Ok identity_scaler)
       else None)
    (fun _ => None) (fun _ => 0) (fun k => k).


(** The predictor [AgriculturalPredictor()] builds over an empty directory. *)
Definition fallback_predictor : AgriculturalPredictor :=
  mkPredictor "models" true (mkMetadata [] (Some default_crop_types))
              [] [] default_crop_types.

Definition fresh : world := mkWorld 0 [].

(** A directory [models] holding the two yield regressors (answering
    [q]) and nothing else. *)
Definition yield_only (q : Q) : environment :=
  mkEnv
    (fun path =>
       if existsb (String.eqb path)
            [ "models/rf_yield_model.pkl"; "models/rf_yield_increase_model.pkl" ]
       then Some (Ok (constant_model q))
       else None)
    (fun _ => None) (fun _ => 0) (fun k => k).

(** The predictor [AgriculturalPredictor()] builds over [irrigation_only q]:
    the irrigation scaler is cached, [models] is empty. *)
Definition irrigation_predictor : AgriculturalPredictor :=
  mkPredictor "models" true (mkMetadata [] (Some default_crop_types))
              [] [("irrigation", identity_scaler)] default_crop_types.

(* ------------------------------------------------------------------ *)
(** ** Closed forms used in the statements *)

(** The code [_prepare_features] gives a crop: its first position in the
    known-crop list, or 0 when it is not a string of that list. *)
Definition crop_code (crops : list string) (crop : value) : Z :=
  match crop with
  | VStr s =>
      if existsb (String.eqb s) crops then Z.of_nat (index_of s crops) else 0%Z
  | _ => 0%Z
  end.

(** The cells of the row [_prepare_features] builds from a well-formed
    input, given the two normal deviates and the month the generator hands
    out. *)
Definition feature_row (a : agronomic_input) (wind pressure : Q)
    (month code : Z) : list Q :=
  [ in_ph a; in_nitrogen a; in_phosphorus a; in_potassium a;
    in_organicMatter a;
    in_temperature a; in_rainfall a; in_humidity a; in_sunlightHours a;
    wind; pressure;
    120; inject_Z month;
    inject_Z code;
    Qabs (in_ph a - 6.5) / 6.5;
    (in_nitrogen a / 25 + in_phosphorus a / 18 + in_potassium a / 30) / 3;
    Qabs (in_temperature a - 25) / 25 ].

(** The five readings [_prepare_features] does arithmetic on lie within
    the range of a float. *)
Definition representable (a : agronomic_input) : Prop :=
  fits_double (in_ph a) = true
  /\ fits_double (in_nitrogen a) = true
  /\ fits_double (in_phosphorus a) = true
  /\ fits_double (in_potassium a) = true
  /\ fits_double (in_temperature a) = true.

(** The derived features of lines 121-127 can be computed: none of the
    five operations overflows. *)
Definition derivable (ph n p k t : Q) : bool :=
  fits_double ph
  && fits_double (n / 25)
  && fits_double (p / 18)
  && fits_double (k / 30)
  && fits_double (Qabs (t - 25) / 25).

(** The sample input with a temperature of [10^400] degrees, an int no
    float can hold, and the same for a pH asked of an unknown crop. *)
Definition sample_with_huge_temperature : value :=
  to_dict (mkInput 6.5 20 15 25 3.0 (inject_Z (10 ^ 400)) 100 65 8
             (VStr "rice")).


Definition drawn_wind (env : environment) (w : world) : Q :=
  15 + 5 * std_normal env (draws w).

Definition drawn_pressure (env : environment) (w : world) : Q :=
  1013 + 20 * std_normal env (S (draws w)).

Definition drawn_month (env : environment) (w : world) : Z :=
  (1 + Z.of_nat (uniform env (S (S (draws w)))) mod (13 - 1))%Z.

Definition after_features (w : world) : world :=
  mkWorld (S (S (S (draws w)))) (reads w).

(** The confidence of lines 234-240 on the three readings it looks at. *)
Definition yield_confidence (ph om rain : Q) : Z :=
  let confidence := 85%Z in
  let confidence :=
    if Qltb (Qabs (ph - 6.5)) 0.5 then (confidence + 5)%Z else confidence in
  let confidence := if Qltb 3 om then (confidence + 3)%Z else confidence in
  if Qle_bool 50 rain && Qle_bool rain 200
  then (confidence + 4)%Z else confidence.

(** The tip drawn when the generator stands at [w]. *)
Definition drawn_tip (env : environment) (w : world) : string :=
  nth (uniform env (draws w) mod 8) sustainability_tips
      "Use drip irrigation to save up to 60% water compared to flood irrigation.".

(** No string or list of the result is empty, and the tip is one of the
    catalogue's. *)
Definition populated (r : aggregate_result) : Prop :=
  frequency (irrigation r) <> ""
  /\ method (irrigation r) <> ""
  /\ criticalPeriods (irrigation r) <> []
  /\ applicationSchedule (fertilizer r) <> []
  /\ limitingFactors (yieldPrediction r) <> []
  /\ overallRisk (riskAssessment r) <> ""
  /\ In (sustainabilityTip r) sustainability_tips.

(** [clamp(lo, hi, x)] as the specification writes it. *)
Definition clamp (lo hi x : Q) : Q :=
  if Qltb x lo then lo else if Qltb hi x then hi else x.

(** How many of the three risk triggers hold. *)
Definition trigger_count (liters n conf : Z) : nat :=
  (Nat.b2n (2000 <? liters)%Z + Nat.b2n (150 <? n)%Z
   + Nat.b2n (conf <? 80)%Z)%nat.

(** The decision table of the irrigation predictor with the middle band
    read as the closed interval from 1000 to 2000. *)
Definition irrigation_bands_as_stated : Prop :=
  forall liters : Q,
    let r := irrigation_record liters in
    (2000 < liters -> method r = "Sprinkler System" /\ frequency r = "Daily")
    /\ (1000 <= liters <= 2000 ->
        method r = "Drip Irrigation" /\ frequency r = "Every 2-3 days")
    /\ (liters < 1000 ->
        method r = "Drip Irrigation" /\ frequency r = "Weekly")
    /\ (method r = "Drip Irrigation" -> irrigation_efficiency r = 90%Z)
    /\ (method r <> "Drip Irrigation" -> irrigation_efficiency r = 75%Z).

(* ------------------------------------------------------------------ *)
(** ** flask_api.py: the HTTP layer around the predictor *)

(** [needle in hay] on two strings. *)
Fixpoint is_substring (needle hay : string) : bool :=
  String.prefix needle hay
  || match hay with
     | EmptyString => false
     | String _ rest => is_substring needle rest
     end.

(** [key in container] for a string key: a key of a dict, an element of a
    list, a substring of a string; anything else is not iterable. *)
Definition contains (container : value) (key : string) : result bool :=
  match container with
  | VDict d => Ok (match dict_get d key with Some _ => true | None => false end)
  | VList l =>
      Ok (existsb (fun v => match v with
                            | VStr s => String.eqb s key
                            | _ => false
                            end) l)
  | VStr s => Ok (is_substring key s)
  | _ => Raise TypeError
  end.

(** [for field in fields: if field not in container: return ...]: the first
    field found missing, if any.  The container expression is evaluated
    anew at every turn. *)
Fixpoint first_missing (container : result value) (fields : list string)
  : result (option string) :=
  match fields with
  | [] => Ok None
  | f :: fs =>
      match container with
      | Raise e => Raise e
      | Ok c =>
          match contains c f with
          | Raise e => Raise e
          | Ok false => Ok (Some f)
          | Ok true => first_missing container fs
          end
      end
  end.

Definition required_fields : list string := ["soil"; "weather"; "cropType"].

Definition soil_fields : list string :=
  ["ph"; "nitrogen"; "phosphorus"; "potassium"; "organicMatter"].

Definition weather_fields : list string :=
  ["temperature"; "rainfall"; "humidity"; "sunlightHours"].

(** The [error] text of a response: a literal, or a literal followed by
    [str(e)] of the exception caught. *)
Inductive error_text : Type :=
| Text (s : string)
| TextWithExn (prefix : string) (e : exn).

(** The JSON body of [/api/predict]: the success body carries the
    predictions (and a constant [model_info]); [jsonify] is taken to
    serialise whatever it is given. *)
Inductive predict_body : Type :=
| PredictSuccess (predictions : aggregate_result)
| PredictError (error : error_text).

(** The [try] block of [predict_agriculture]; the result is the body and
    the status code. *)
Definition predict_agriculture_body (env : environment)
    (predictor : AgriculturalPredictor) (data : value)
  : M (predict_body * Z) :=
  (* Validate required fields *)
  missing <- lift (first_missing (Ok data) required_fields) ;;
  match missing with
  | Some f =>
      ret (PredictError (Text ("Missing required field: " ++ f)), 400%Z)
  | None =>
      (* Validate soil data *)
      missing <- lift (first_missing (getitem data "soil") soil_fields) ;;
      match missing with
      | Some f =>
          ret (PredictError (Text ("Missing soil field: " ++ f)), 400%Z)
      | None =>
          (* Validate weather data *)
          missing <-
            lift (first_missing (getitem data "weather") weather_fields) ;;
          match missing with
          | Some f =>
              ret (PredictError (Text ("Missing weather field: " ++ f)), 400%Z)
          | None =>
              (* Generate predictions *)
              predictions <- predict_all env predictor data ;;
              ret (PredictSuccess predictions, 200%Z)
          end
      end
  end.

Definition predict_agriculture (env : environment)
    (predictor : AgriculturalPredictor) (data : value)
  : M (predict_body * Z) :=
  try_except (predict_agriculture_body env predictor data)
    (fun e => ret (PredictError (TextWithExn "Prediction failed: " e), 500%Z)).

(** One element of the [predictions] array of [/api/batch-predict]. *)
Inductive batch_entry : Type :=
| EntrySuccess (input : value) (predictions : aggregate_result)
| EntryError (input : value) (error : exn).

Definition entry_input (e : batch_entry) : value :=
  match e with
  | EntrySuccess input _ => input
  | EntryError input _ => input
  end.

Definition entry_succeeded (e : batch_entry) : bool :=
  match e with
  | EntrySuccess _ _ => true
  | EntryError _ _ => false
  end.

Inductive batch_body : Type :=
| BatchSuccess (predictions : list batch_entry) (total_processed : nat)
| BatchError (error : error_text).

(** The body of the [for] loop of [batch_predict]. *)
Definition batch_step (env : environment) (predictor : AgriculturalPredictor)
    (input_data : value) : M batch_entry :=
  try_except
    (pred <- predict_all env predictor input_data ;;
     ret (EntrySuccess input_data pred))
    (fun e => ret (EntryError input_data e)).

Fixpoint batch_loop (env : environment) (predictor : AgriculturalPredictor)
    (inputs : list value) (predictions : list batch_entry)
  : M (list batch_entry) :=
  match inputs with
  | [] => ret predictions
  | input_data :: rest =>
      entry <- batch_step env predictor input_data ;;
      batch_loop env predictor rest (predictions ++ [entry])%list
  end.

(** The [try] block of [batch_predict]. *)
Definition batch_predict_body (env : environment)
    (predictor : AgriculturalPredictor) (data : value)
  : M (batch_body * Z) :=
  has_inputs <- lift (contains data "inputs") ;;
  if negb has_inputs then
    ret (BatchError (Text "Missing or invalid inputs array"), 400%Z)
  else
    inputs <- lift (getitem data "inputs") ;;
    match inputs with
    | VList l =>
        predictions <- batch_loop env predictor l [] ;;
        ret (BatchSuccess predictions (List.length predictions), 200%Z)
    | _ => ret (BatchError (Text "Missing or invalid inputs array"), 400%Z)
    end.

Definition batch_predict (env : environment)
    (predictor : AgriculturalPredictor) (data : value)
  : M (batch_body * Z) :=
  try_except (batch_predict_body env predictor data)
    (fun e =>
       ret (BatchError (TextWithExn "Batch prediction failed: " e), 500%Z)).

(** The [models_loaded] flag of [/api/health]. *)
Definition health_check_models_loaded (predictor : AgriculturalPredictor)
  : bool :=
  (0 <? List.length (models predictor))%nat.

(** Whether a dict lacks a key. *)
Definition lacks (d : list (string * value)) (key : string) : bool :=
  match dict_get d key with
  | Some _ => false
  | None => true
  end.

(** The three presence checks of [predict_agriculture] all pass. *)
Definition validated (data : value) : Prop :=
  first_missing (Ok data) required_fields = Ok None
  /\ first_missing (getitem data "soil") soil_fields = Ok None
  /\ first_missing (getitem data "weather") weather_fields = Ok None.

(** The inputs on which [predict_all] returns: [cropType] can be read and
    the temperature can be read as a number. *)
Definition predictable (input : value) : Prop :=
  exists crop t,
    getitem input "cropType" = Ok crop
    /\ read_num input "weather" "temperature" = Ok t.

(** The sample input with the temperature given as text. *)
Definition sample_with_text_temperature : value :=
  VDict
    [ ("soil", VDict [ ("ph", VNum 6.5); ("nitrogen", VNum 20);
                       ("phosphorus", VNum 15); ("potassium", VNum 25);
                       ("organicMatter", VNum 3.0) ]);
      ("weather", VDict [ ("temperature", VStr "hot"); ("rainfall", VNum 100);
                          ("humidity", VNum 65); ("sunlightHours", VNum 8) ]);
      ("cropType", VStr "rice") ].

(** The file [_load_models] looks for the scaler of a target in. *)
Definition scaler_path (dir target : string) : string :=
  dir ++ "/scaler_" ++ target ++ ".pkl".

(** The bodies [/api/batch-predict] cannot iterate over. *)
Definition not_iterable (data : value) : Prop :=
  match data with
  | VNone | VBool _ | VNum _ => True
  | _ => False
  end.

(** What [_prepare_features] needs of its input: [cropType] is there;
    the five readings it does arithmetic on (pH, N, P, K, temperature) are
    there, are numbers and let the derived features be computed; the four
    it only copies (organic matter, rainfall, humidity, sunlight hours)
    are there and none of them is a list. *)
Definition featurable (input : value) : Prop :=
  (exists crop, getitem input "cropType" = Ok crop)
  /\ (exists ph n p k t,
        read_num input "soil" "ph" = Ok ph
        /\ read_num input "soil" "nitrogen" = Ok n
        /\ read_num input "soil" "phosphorus" = Ok p
        /\ read_num input "soil" "potassium" = Ok k
        /\ read_num input "weather" "temperature" = Ok t
        /\ derivable ph n p k t = true)
  /\ (exists om rain hum sun,
        read input "soil" "organicMatter" = Ok om
        /\ read input "weather" "rainfall" = Ok rain
        /\ read input "weather" "humidity" = Ok hum
        /\ read input "weather" "sunlightHours" = Ok sun
        /\ existsb is_sequence [om; rain; hum; sun] = false).

(** The number of columns of a row. *)
Definition columns (x : ndarray) : nat :=
  match x with
  | NumberArray cells => List.length cells
  | MixedArray components => List.length components
  end.

(** The sample input with the humidity given as a list. *)
Definition sample_with_list_humidity : value :=
  VDict
    [ ("soil", VDict [ ("ph", VNum 6.5); ("nitrogen", VNum 20);
                       ("phosphorus", VNum 15); ("potassium", VNum 25);
                       ("organicMatter", VNum 3.0) ]);
      ("weather", VDict [ ("temperature", VNum 25); ("rainfall", VNum 100);
                          ("humidity", VList [VNum 65]);
                          ("sunlightHours", VNum 8) ]);
      ("cropType", VStr "rice") ].

(** The sample input with the humidity given as text. *)
Definition sample_with_text_humidity : value :=
  VDict
    [ ("soil", VDict [ ("ph", VNum 6.5); ("nitrogen", VNum 20);
                       ("phosphorus", VNum 15); ("potassium", VNum 25);
                       ("organicMatter", VNum 3.0) ]);
      ("weather", VDict [ ("temperature", VNum 25); ("rainfall", VNum 100);
                          ("humidity", VStr "damp"); ("sunlightHours", VNum 8) ]);
      ("cropType", VStr "rice") ].

(** Lines 243-256 on the four readings they look at. *)
Definition limiting_factors_of (ph om t rain : Q) : list string :=
  let limiting_factors :=
    append_if (Qltb rain 50) "Water stress"
      (append_if (Qltb t 10 || Qltb 35 t) "Temperature stress"
         (append_if (Qltb om 2) "Low organic matter"
            (append_if (Qltb ph 5.5 || Qltb 8.0 ph) "Soil pH imbalance" []))) in
  match limiting_factors with
  | [] => ["No major limiting factors detected"]
  | _ :: _ => limiting_factors
  end.

(** The sample input on acid soil in a dry month. *)
Definition acid_dry_input : value :=
  to_dict (mkInput 4.0 20 15 25 3.0 25 20 65 8 (VStr "rice")).

(** The six regressor files the predictors load, in the order
    [predict_all] asks for them. *)
Definition regressor_paths (dir : string) : list string :=
  [ dir ++ "/rf_irrigation_model.pkl";
    dir ++ "/rf_nitrogen_fertilizer_model.pkl";
    dir ++ "/rf_phosphorus_fertilizer_model.pkl";
    dir ++ "/rf_potassium_fertilizer_model.pkl";
    dir ++ "/rf_yield_model.pkl";
    dir ++ "/rf_yield_increase_model.pkl" ].

(** A directory [models] holding the six regressors, all answering [q],
    and no scaler. *)
Definition all_regressors (q : Q) : environment :=
  mkEnv
    (fun path =>
       if existsb (String.eqb path) (regressor_paths "models")
       then Some (Ok (constant_model q))
       else None)
    (fun _ => None) (fun _ => 0) (fun k => k).

(** A computation that leaves the world as it found it. *)
Definition preserves_world {A} (m : M A) : Prop :=
  forall w, snd (m w) = w.

(* ------------------------------------------------------------------ *)
(** ** dataset_fetcher.py: the synthetic training targets, row by row *)

(** [np.maximum], [np.minimum] and [clip(lower, upper)] on one element. *)
Definition np_maximum (a b : Q) : Q := if Qltb a b then b else a.

Definition np_minimum (a b : Q) : Q := if Qltb b a then b else a.

Definition clip (x lower upper : Q) : Q :=
  np_minimum (np_maximum x lower) upper.

Record crop_requirement : Type := mkRequirement {
  water_base : Q;
  n_base : Q;
  p_base : Q;
  k_base : Q;
  yield_base : Q
}.

Definition crop_requirements : list (string * crop_requirement) :=
  [ ("rice", mkRequirement 1200 120 60 40 4.5);
    ("wheat", mkRequirement 450 100 50 30 3.2);
    ("maize", mkRequirement 500 150 70 80 5.8);
    ("cotton", mkRequirement 700 80 40 60 1.8);
    ("sugarcane", mkRequirement 1200 200 80 120 70);
    ("tomato", mkRequirement 400 140 60 180 45);
    ("potato", mkRequirement 350 110 80 140 25);
    ("soybean", mkRequirement 450 60 40 50 2.8);
    ("barley", mkRequirement 400 90 45 35 3.0);
    ("sorghum", mkRequirement 350 90 35 60 3.5) ].

(** The columns of one row of the crop dataset that the targets depend on. *)
Record crop_row : Type := mkRow {
  crop_type : string;
  soil_ph : Q;
  nitrogen_ppm : Q;
  phosphorus_ppm : Q;
  potassium_ppm : Q;
  temperature_c : Q;
  rainfall_mm : Q;
  humidity_pct : Q
}.

Record target_row : Type := mkTargets {
  irrigation_liters_per_acre : Q;
  nitrogen_fertilizer_kg : Q;
  phosphorus_fertilizer_kg : Q;
  potassium_fertilizer_kg : Q;
  expected_yield_tons_per_hectare : Q;
  yield_increase_percent : Q
}.

(** The yield factor of a row: water, nutrient and temperature stress
    multiplied, the irrigation being the clipped one. *)
Definition yield_factor (req : crop_requirement) (row : crop_row)
    (irrigation : Q) : Q :=
  let water_stress := np_minimum 1.0 (irrigation / water_base req) in
  let nutrient_stress :=
    np_minimum 1.0
      ((nitrogen_ppm row / n_base req + phosphorus_ppm row / p_base req
        + potassium_ppm row / k_base req) / 3) in
  let temp_stress :=
    if Qle_bool 15 (temperature_c row) && Qle_bool (temperature_c row) 35
    then 1.0 else 0.7 in
  water_stress * nutrient_stress * temp_stress.

(** [_generate_realistic_targets] on one row: the six target columns
    start at 0.0 and are assigned in the turn of the loop whose crop is
    the row's; a row of a crop the table does not list keeps the zeros. *)
Definition _generate_realistic_targets (row : crop_row) : target_row :=
  match assoc_get crop_requirements (crop_type row) with
  | None => mkTargets 0.0 0.0 0.0 0.0 0.0 0.0
  | Some req =>
      (* Calculate irrigation needs based on weather and soil *)
      let base_water := water_base req in
      let temp_factor := 1 + (temperature_c row - 25) * 0.02 in
      let rainfall_factor := np_maximum 0.3 (1 - rainfall_mm row / 200) in
      let humidity_factor := 1 + (70 - humidity_pct row) * 0.005 in
      let irrigation :=
        clip (base_water * temp_factor * rainfall_factor * humidity_factor)
             100 3000 in
      (* Calculate fertilizer needs based on soil nutrients and pH *)
      let ph_factor :=
        if Qle_bool 6.0 (soil_ph row) && Qle_bool (soil_ph row) 7.5
        then 1.0
        else 1.5 - Qabs (soil_ph row - 6.5) * 0.1 in
      let n_deficit := np_maximum 0 (n_base req - nitrogen_ppm row) in
      let p_deficit := np_maximum 0 (p_base req - phosphorus_ppm row) in
      let k_deficit := np_maximum 0 (k_base req - potassium_ppm row) in
      (* Calculate expected yield and yield increase potential *)
      let factor := yield_factor req row irrigation in
      mkTargets
        irrigation
        (clip (n_deficit * ph_factor) 0 200)
        (clip (p_deficit * ph_factor) 0 100)
        (clip (k_deficit * ph_factor) 0 150)
        (yield_base req * factor)
        (clip ((factor - 0.7) * 100) 0 50)
  end.

(** The derived columns [create_combined_dataset] adds to a row. *)
Definition combined_ph_stress (soil_ph : Q) : Q := Qabs (soil_ph - 6.5) / 6.5.

Definition combined_nutrient_balance (nitrogen_ppm phosphorus_ppm
    potassium_ppm : Q) : Q :=
  (nitrogen_ppm / 25 + phosphorus_ppm / 18 + potassium_ppm / 30) / 3.

Definition combined_weather_stress (temperature_c : Q) : Q :=
  Qabs (temperature_c - 25) / 25.

(** A wheat row in a cold month. *)
Definition cold_wheat_row : crop_row := mkRow "wheat" 6.5 25 18 30 8 120 65.

(* ------------------------------------------------------------------ *)
(** ** model_trainer.py: choosing the best model of a target *)

(** A mean squared error: a number, or [float('inf')] for a family whose
    evaluation raised. *)
Inductive score : Type :=
| Finite (q : Q)
| Inf.

Definition score_lt (a b : score) : bool :=
  match a, b with
  | Finite x, Finite y => Qltb x y
  | Finite _, Inf => true
  | Inf, _ => false
  end.

Record metrics : Type := mkMetrics {
  mse : score;
  r2 : Q;
  mae : score
}.

(** What [evaluate_models] records for a family: the metrics computed in
    the [try], or the failure record of the bare [except]. *)
Definition family_metrics (evaluated : option metrics) : metrics :=
  match evaluated with
  | Some m => m
  | None => mkMetrics Inf 0 Inf
  end.

(** The [results] dict of one target, in insertion order. *)
Definition evaluation_of (rf xgb nn : option metrics)
  : list (string * metrics) :=
  [ ("random_forest", family_metrics rf);
    ("xgboost", family_metrics xgb);
    ("neural_network", family_metrics nn) ].

(** [min(results.keys(), key=lambda x: results[x]['mse'])]: the running
    minimum is replaced only by a strictly smaller key. *)
Fixpoint min_by_mse (best : string * metrics) (rest : list (string * metrics))
  : string * metrics :=
  match rest with
  | [] => best
  | x :: rest' =>
      if score_lt (mse (snd x)) (mse (snd best))
      then min_by_mse x rest'
      else min_by_mse best rest'
  end.

Definition best_model (results : list (string * metrics)) : result string :=
  match results with
  | [] => Raise ValueError
  | x :: rest => Ok (fst (min_by_mse x rest))
  end.

(* ------------------------------------------------------------------ *)
(** ** Reasoning about computations *)

Lemma bind_Ok_inv {A B} (m : M A) (k : A -> M B) w b w' :
  bind m k w = (Ok b, w') ->
  exists a w1, m w = (Ok a, w1) /\ k a w1 = (Ok b, w').
Proof.
  unfold bind. destruct (m w) as [[a | e] w1]; intros H.
  - exists a, w1. split; [reflexivity | exact H].
  - discriminate H.
Qed.

Lemma bind_run {A B} (m : M A) (k : A -> M B) w a w1 :
  m w = (Ok a, w1) -> bind m k w = k a w1.
Proof. intros H. unfold bind. rewrite H. reflexivity. Qed.

Lemma bind_run_raise {A B} (m : M A) (k : A -> M B) w e w1 :
  m w = (Raise e, w1) -> bind m k w = (Raise e, w1).
Proof. intros H. unfold bind. rewrite H. reflexivity. Qed.

Lemma lift_Ok_inv {A} (r : result A) w a w' :
  lift r w = (Ok a, w') -> r = Ok a /\ w' = w.
Proof. unfold lift. intros H. inversion H. split; reflexivity. Qed.

Lemma ret_Ok_inv {A} (x : A) w a w' :
  ret x w = (Ok a, w') -> a = x /\ w' = w.
Proof. unfold ret. intros H. inversion H. split; reflexivity. Qed.

(** A [try] whose handler returns a constant never raises. *)
Lemma try_except_const {A} (body : M A) (fallback : A) w :
  exists r w',
    try_except body (fun _ => ret fallback) w = (Ok r, w')
    /\ (body w = (Ok r, w') \/ (r = fallback /\ exists e, body w = (Raise e, w'))).
Proof.
  unfold try_except. destruct (body w) as [[a | e] w1] eqn:E.
  - exists a, w1. split; [reflexivity | left; reflexivity].
  - exists fallback, w1. split; [reflexivity | right].
    split; [reflexivity | exists e; reflexivity].
Qed.

Lemma field_run input section key w :
  field input section key w = (read input section key, w).
Proof.
  unfold field, read, bind, lift. destruct (getitem input section); reflexivity.
Qed.

Lemma num_field_run input section key w :
  num_field input section key w = (read_num input section key, w).
Proof.
  unfold num_field, read_num, bind. rewrite field_run.
  destruct (read input section key); reflexivity.
Qed.

Lemma num_field_Ok_inv input section key w q w' :
  num_field input section key w = (Ok q, w') ->
  read_num input section key = Ok q /\ w' = w.
Proof.
  rewrite num_field_run. intros H. inversion H. split; reflexivity.
Qed.

Lemma number_inv r q : number r = Some q -> r = Ok (VNum q).
Proof.
  destruct r as [[ | b | q' | s | l | d] | e]; simpl; intros H;
    try discriminate H.
  inversion H. reflexivity.
Qed.

Lemma present_inv r v : present r = Some v -> r = Ok v.
Proof.
  destruct r as [v' | e]; simpl; intros H; [inversion H; reflexivity | discriminate H].
Qed.

(** What a successful [parse] says about the individual reads. *)
Lemma parse_reads input a :
  parse input = Some a ->
  read input "soil" "ph" = Ok (VNum (in_ph a))
  /\ read input "soil" "nitrogen" = Ok (VNum (in_nitrogen a))
  /\ read input "soil" "phosphorus" = Ok (VNum (in_phosphorus a))
  /\ read input "soil" "potassium" = Ok (VNum (in_potassium a))
  /\ read input "soil" "organicMatter" = Ok (VNum (in_organicMatter a))
  /\ read input "weather" "temperature" = Ok (VNum (in_temperature a))
  /\ read input "weather" "rainfall" = Ok (VNum (in_rainfall a))
  /\ read input "weather" "humidity" = Ok (VNum (in_humidity a))
  /\ read input "weather" "sunlightHours" = Ok (VNum (in_sunlightHours a))
  /\ getitem input "cropType" = Ok (in_cropType a).
Proof.
  unfold parse. intros H.
  repeat match type of H with
         | match number ?r with _ => _ end = Some _ =>
             let E := fresh "E" in
             destruct (number r) eqn:E; [apply number_inv in E | discriminate H]
         | match present ?r with _ => _ end = Some _ =>
             let E := fresh "E" in
             destruct (present r) eqn:E; [apply present_inv in E | discriminate H]
         end.
  inversion H; subst a; simpl. repeat split; assumption.
Qed.


Lemma read_num_of_read input section key q :
  read input section key = Ok (VNum q) -> read_num input section key = Ok q.
Proof. unfold read_num. intros ->. reflexivity. Qed.

Lemma Qltb_lt a b : Qltb a b = true <-> a < b.
Proof.
  unfold Qltb. rewrite negb_true_iff. split; intros H.
  - apply Qnot_le_lt. intros Hle. apply Qle_bool_iff in Hle. congruence.
  - destruct (Qle_bool b a) eqn:E; [| reflexivity].
    apply Qle_bool_iff in E. exfalso. apply (Qlt_not_le _ _ H E).
Qed.

Lemma Qltb_ge a b : Qltb a b = false <-> b <= a.
Proof.
  unfold Qltb. rewrite negb_false_iff. apply Qle_bool_iff.
Qed.

(** Running one statement: the equations used to step through a body. *)
Lemma bind_lift {A B} (r : result A) (k : A -> M B) w :
  bind (lift r) k w
  = match r with Ok a => k a w | Raise e => (Raise e, w) end.
Proof. unfold bind, lift. destruct r; reflexivity. Qed.

Lemma bind_field {B} input section key (k : value -> M B) w :
  bind (field input section key) k w
  = match read input section key with
    | Ok v => k v w
    | Raise e => (Raise e, w)
    end.
Proof. unfold bind. rewrite field_run. destruct (read _ _ _); reflexivity. Qed.

Lemma bind_num_field {B} input section key (k : Q -> M B) w :
  bind (num_field input section key) k w
  = match read_num input section key with
    | Ok q => k q w
    | Raise e => (Raise e, w)
    end.
Proof.
  unfold bind. rewrite num_field_run. destruct (read_num _ _ _); reflexivity.
Qed.

Lemma bind_normal {B} env loc scale (k : Q -> M B) w :
  bind (np_random_normal env loc scale) k w
  = k (loc + scale * std_normal env (draws w))
      (mkWorld (S (draws w)) (reads w)).
Proof. reflexivity. Qed.

Lemma bind_randint {B} env low high (k : Z -> M B) w :
  (low < high)%Z ->
  bind (np_random_randint env low high) k w
  = k (low + Z.of_nat (uniform env (draws w)) mod (high - low))%Z
      (mkWorld (S (draws w)) (reads w)).
Proof.
  intros H. unfold np_random_randint.
  apply Z.ltb_lt in H. rewrite H. reflexivity.
Qed.

(* ------------------------------------------------------------------ *)
(** ** The feature vector *)

Lemma crop_code_run crops crop w :
  (if str_in crop crops then lift (list_index crop crops) else ret 0%Z) w
  = (Ok (crop_code crops crop), w).
Proof.
  destruct crop; simpl; try reflexivity.
  destruct (existsb (String.eqb s) crops); reflexivity.
Qed.

Lemma to_float_Ok_inv x y :
  to_float x = Ok y -> y = x /\ fits_double x = true.
Proof.
  unfold to_float. destruct (fits_double x); intros H;
    [inversion H; split; reflexivity | discriminate H].
Qed.

Lemma true_div_Ok_inv x d y :
  true_div x d = Ok y -> y = x / d /\ fits_double (x / d) = true.
Proof.
  unfold true_div. destruct (fits_double (x / d)); intros H;
    [inversion H; split; reflexivity | discriminate H].
Qed.

Lemma bind_to_float {B} x (k : Q -> M B) w :
  bind (lift (to_float x)) k w
  = if fits_double x then k x w else (Raise OverflowError, w).
Proof.
  rewrite bind_lift. unfold to_float. destruct (fits_double x); reflexivity.
Qed.

Lemma bind_true_div {B} x d (k : Q -> M B) w :
  bind (lift (true_div x d)) k w
  = if fits_double (x / d) then k (x / d) w else (Raise OverflowError, w).
Proof.
  rewrite bind_lift. unfold true_div. destruct (fits_double (x / d));
    reflexivity.
Qed.

(** On a well-formed input the outcome is decided by the derived
    features: the row when they can be computed, OverflowError when not;
    the three draws are made either way. *)
Lemma prepare_features_run env self input a w :
  parse input = Some a ->
  _prepare_features env self input w
  = (if derivable (in_ph a) (in_nitrogen a) (in_phosphorus a)
          (in_potassium a) (in_temperature a)
     then Ok (NumberArray
                (feature_row a (drawn_wind env w) (drawn_pressure env w)
                   (drawn_month env w)
                   (crop_code (label_encoders_crop_type self) (in_cropType a))))
     else Raise OverflowError,
     after_features w).
Proof.
  intros Hp.
  destruct (parse_reads _ _ Hp)
    as (Hph & Hn & Hpp & Hk & Hom & Ht & Hrain & Hhum & Hsun & Hcrop).
  unfold _prepare_features.
  rewrite bind_field, Hph. rewrite bind_field, Hn. rewrite bind_field, Hpp.
  rewrite bind_field, Hk. rewrite bind_field, Hom.
  rewrite bind_field, Ht. rewrite bind_field, Hrain.
  rewrite bind_field, Hhum. rewrite bind_field, Hsun.
  rewrite bind_normal. rewrite bind_normal.
  rewrite bind_randint by reflexivity.
  rewrite bind_lift, Hcrop.
  unfold bind at 1. rewrite crop_code_run.
  unfold derivable.
  rewrite bind_num_field, (read_num_of_read _ _ _ _ Hph), bind_to_float.
  destruct (fits_double (in_ph a)); [| reflexivity].
  rewrite bind_num_field, (read_num_of_read _ _ _ _ Hn), bind_true_div.
  destruct (fits_double (in_nitrogen a / 25)); [| reflexivity].
  rewrite bind_num_field, (read_num_of_read _ _ _ _ Hpp), bind_true_div.
  destruct (fits_double (in_phosphorus a / 18)); [| reflexivity].
  rewrite bind_num_field, (read_num_of_read _ _ _ _ Hk), bind_true_div.
  destruct (fits_double (in_potassium a / 30)); [| reflexivity].
  rewrite bind_num_field, (read_num_of_read _ _ _ _ Ht), bind_true_div.
  destruct (fits_double (Qabs (in_temperature a - 25) / 25)); reflexivity.
Qed.

Lemma double_limit_large : 1000 < double_limit.
Proof. vm_compute. reflexivity. Qed.

(** Dividing by a constant of at least 1 keeps a number in the range. *)
Lemma fits_double_div x d :
  1 <= d -> fits_double x = true -> fits_double (x / d) = true.
Proof.
  unfold fits_double. intros Hd H. apply Qltb_lt in H. apply Qltb_lt.
  assert (H0 : 0 < d) by lra.
  unfold Qdiv. rewrite Qabs_Qmult.
  assert (Hinv : 0 <= Qabs (/ d) <= 1).
  { rewrite (Qabs_pos (/ d)); [| apply Qlt_le_weak, Qinv_lt_0_compat, H0].
    split; [apply Qlt_le_weak, Qinv_lt_0_compat, H0 |].
    apply Qle_shift_inv_r; lra. }
  pose proof (Qabs_nonneg x) as Hx.
  assert (Hprod : 0 <= Qabs x * (1 - Qabs (/ d))).
  { apply Qmult_le_0_compat; lra. }
  lra.
Qed.

Lemma fits_double_weather t :
  fits_double t = true -> fits_double (Qabs (t - 25) / 25) = true.
Proof.
  unfold fits_double. intros H. apply Qltb_lt in H. apply Qltb_lt.
  pose proof double_limit_large as Hl.
  pose proof (Qabs_nonneg (t - 25)) as H0.
  pose proof (Qabs_triangle t (- (25))) as Htri.
  change (Qabs (- (25))) with 25 in Htri.
  assert (Heq : Qabs (t - 25) == Qabs (t + - (25))) by reflexivity.
  rewrite (Qabs_pos (Qabs (t - 25) / 25)).
  - apply Qlt_shift_div_r; [reflexivity |]. rewrite Heq. lra.
  - apply Qle_shift_div_l; lra.
Qed.

Lemma representable_derivable a :
  representable a ->
  derivable (in_ph a) (in_nitrogen a) (in_phosphorus a) (in_potassium a)
    (in_temperature a) = true.
Proof.
  intros (Hph & Hn & Hp & Hk & Ht). unfold derivable.
  rewrite Hph, (fits_double_div _ 25), (fits_double_div _ 18),
    (fits_double_div _ 30), (fits_double_weather _ Ht);
    try assumption; try reflexivity; discriminate.
Qed.

(** On a well-formed input whose readings are within the float range the
    row is returned. *)
Lemma prepare_features_returns env self input a w :
  parse input = Some a -> representable a ->
  _prepare_features env self input w
  = (Ok (NumberArray
           (feature_row a (drawn_wind env w) (drawn_pressure env w)
              (drawn_month env w)
              (crop_code (label_encoders_crop_type self) (in_cropType a)))),
     after_features w).
Proof.
  intros Hp Hr. rewrite (prepare_features_run env self input a w Hp).
  rewrite (representable_derivable a Hr). reflexivity.
Qed.

(* ------------------------------------------------------------------ *)
(** ** What a predictor's [try] block returns when it returns *)

Ltac bind_inv H a w1 H1 :=
  apply bind_Ok_inv in H; destruct H as (a & w1 & H1 & H).

Lemma joblib_load_Ok_inv env path w model w' :
  joblib_load env path w = (Ok model, w') ->
  pickles env path = Some (Ok model)
  /\ w' = mkWorld (draws w) (path :: reads w).
Proof.
  unfold joblib_load. destruct (pickles env path) as [r |]; intros H.
  - inversion H. split; reflexivity.
  - discriminate H.
Qed.

Lemma scale_Ok_inv scaler features w x w' :
  scale scaler features w = (Ok x, w') -> w' = w.
Proof.
  unfold scale. destruct scaler as [s |]; intros H.
  - apply lift_Ok_inv in H. apply H.
  - apply ret_Ok_inv in H. apply H.
Qed.

Lemma predict_irrigation_body_inv env self input w r w' :
  predict_irrigation_body env self input w = (Ok r, w') ->
  exists features w1 model x liters,
    _prepare_features env self input w = (Ok features, w1)
    /\ pickles env (models_dir self ++ "/rf_irrigation_model.pkl")
       = Some (Ok model)
    /\ predict model x = Ok liters
    /\ r = irrigation_record liters
    /\ w' = mkWorld (draws w1)
              ((models_dir self ++ "/rf_irrigation_model.pkl") :: reads w1).
Proof.
  unfold predict_irrigation_body. intros H.
  bind_inv H features w1 Hf.
  bind_inv H model w2 Hm. apply joblib_load_Ok_inv in Hm. destruct Hm as [Hm ->].
  bind_inv H x w3 Hs. apply scale_Ok_inv in Hs. subst w3.
  bind_inv H liters w4 Hl. apply lift_Ok_inv in Hl. destruct Hl as [Hl ->].
  apply ret_Ok_inv in H. destruct H as [-> ->].
  exists features, w1, model, x, liters. repeat split; assumption.
Qed.

Lemma predict_fertilizer_body_inv env self input w r w' :
  predict_fertilizer_body env self input w = (Ok r, w') ->
  exists n p k,
    r = mkFertilizer (Z.max 0 (py_round n)) (Z.max 0 (py_round p))
          (Z.max 0 (py_round k))
          ["25% at planting"; "50% at vegetative stage"; "25% at flowering"]
          85.
Proof.
  unfold predict_fertilizer_body. intros H.
  bind_inv H features w1 Hf.
  bind_inv H n_model w2 Hn.
  bind_inv H p_model w3 Hp.
  bind_inv H k_model w4 Hk.
  bind_inv H x w5 Hs.
  bind_inv H n w6 Hpn.
  bind_inv H p w7 Hpp.
  bind_inv H k w8 Hpk.
  apply ret_Ok_inv in H. destruct H as [-> _].
  exists n, p, k. reflexivity.
Qed.

Lemma predict_yield_body_inv env self input w r w' :
  predict_yield_body env self input w = (Ok r, w') ->
  exists y x ph om rain,
    read_num input "soil" "ph" = Ok ph
    /\ read_num input "soil" "organicMatter" = Ok om
    /\ read_num input "weather" "rainfall" = Ok rain
    /\ expectedYield r = py_round1 (py_max 0 y)
    /\ yieldIncrease r = py_round (py_max 0 (py_min 50 x))
    /\ limitingFactors r <> []
    /\ confidence r = Z.min 98 (yield_confidence ph om rain).
Proof.
  unfold predict_yield_body. intros H.
  bind_inv H features w1 Hf.
  bind_inv H yield_model w2 Hy.
  bind_inv H increase_model w3 Hi.
  bind_inv H xs w4 Hs.
  bind_inv H y w5 Hpy.
  bind_inv H x w6 Hpx.
  bind_inv H ph w7 Hph. apply num_field_Ok_inv in Hph. destruct Hph as [Hph ->].
  bind_inv H ph' w7 Hph'. apply lift_Ok_inv in Hph'. destruct Hph' as [Hph' ->].
  apply to_float_Ok_inv in Hph'. destruct Hph' as [-> _].
  bind_inv H om w8 Hom. apply num_field_Ok_inv in Hom. destruct Hom as [Hom ->].
  bind_inv H rain w9 Hrain.
  apply num_field_Ok_inv in Hrain. destruct Hrain as [Hrain ->].
  bind_inv H c1 w10 Hc1.
  bind_inv H om' w11 Hom'.
  bind_inv H c3 w12 Hc3.
  bind_inv H rain' w13 Hrain'.
  apply ret_Ok_inv in H. destruct H as [-> _].
  exists y, x, ph, om, rain. simpl. repeat split; try assumption.
  destruct (append_if (Qltb rain' 50) "Water stress"
              (append_if c3 "Temperature stress"
                 (append_if (Qltb om' 2) "Low organic matter"
                    (append_if c1 "Soil pH imbalance" []))));
    discriminate.
Qed.

(* ------------------------------------------------------------------ *)
(** ** Rounding and clamping *)

Lemma py_round_cases x :
  py_round x = Qfloor x
  \/ (py_round x = (Qfloor x + 1)%Z /\ inject_Z (Qfloor x) < x).
Proof.
  unfold py_round.
  destruct (Qltb (2 * (x - inject_Z (Qfloor x))) 1) eqn:E1; [left; reflexivity |].
  apply Qltb_ge in E1.
  assert (Hlt : inject_Z (Qfloor x) < x) by lra.
  destruct (Qltb 1 (2 * (x - inject_Z (Qfloor x)))); [right; split; trivial |].
  destruct (Z.even (Qfloor x)); [left; reflexivity | right; split; trivial].
Qed.

(** Rounding stays between integer bounds of its argument. *)
Lemma py_round_between (a b : Z) (x : Q) :
  inject_Z a <= x -> x <= inject_Z b -> (a <= py_round x <= b)%Z.
Proof.
  intros Ha Hb.
  pose proof (Qfloor_le x) as Hfl.
  pose proof (Qlt_floor x) as Hfu.
  assert (Han : (a <= Qfloor x)%Z).
  { assert (H : inject_Z a < inject_Z (Qfloor x + 1)) by lra.
    rewrite <- Zlt_Qlt in H. lia. }
  destruct (py_round_cases x) as [-> | [-> Hlt]].
  - split; [exact Han |].
    assert (H : inject_Z (Qfloor x) <= inject_Z b) by lra.
    rewrite <- Zle_Qle in H. exact H.
  - split; [lia |].
    assert (H : inject_Z (Qfloor x) < inject_Z b) by lra.
    rewrite <- Zlt_Qlt in H. lia.
Qed.

Lemma py_max_lower a b : a <= py_max a b.
Proof.
  unfold py_max. destruct (Qltb a b) eqn:E.
  - apply Qltb_lt in E. lra.
  - lra.
Qed.

Lemma py_max_upper a b c : a <= c -> b <= c -> py_max a b <= c.
Proof. unfold py_max. destruct (Qltb a b); trivial. Qed.

Lemma py_min_upper a b : py_min a b <= a.
Proof.
  unfold py_min. destruct (Qltb b a) eqn:E.
  - apply Qltb_lt in E. lra.
  - lra.
Qed.

Lemma yield_increase_range x :
  (0 <= py_round (py_max 0 (py_min 50 x)) <= 50)%Z.
Proof.
  apply py_round_between.
  - apply (py_max_lower 0).
  - apply py_max_upper; [discriminate | apply (py_min_upper 50)].
Qed.

Lemma yield_confidence_range ph om rain :
  (85 <= yield_confidence ph om rain <= 97)%Z.
Proof.
  unfold yield_confidence.
  destruct (Qltb (Qabs (ph - 6.5)) 0.5), (Qltb 3 om),
    (Qle_bool 50 rain && Qle_bool rain 200); lia.
Qed.

(* ------------------------------------------------------------------ *)
(** ** The predictors never raise *)

Lemma predict_irrigation_total env self input w :
  exists r w',
    predict_irrigation env self input w = (Ok r, w')
    /\ (r = irrigation_fallback \/ exists liters, r = irrigation_record liters).
Proof.
  unfold predict_irrigation.
  destruct (try_except_const (predict_irrigation_body env self input)
              irrigation_fallback w) as (r & w' & Hrun & [Hb | [Hf _]]).
  - exists r, w'. split; [exact Hrun | right].
    apply predict_irrigation_body_inv in Hb.
    destruct Hb as (_ & _ & _ & _ & liters & _ & _ & _ & Hr & _).
    exists liters. exact Hr.
  - exists r, w'. split; [exact Hrun | left; exact Hf].
Qed.

Lemma predict_fertilizer_total env self input w :
  exists r w',
    predict_fertilizer env self input w = (Ok r, w')
    /\ (r = fertilizer_fallback
        \/ exists n p k,
             r = mkFertilizer (Z.max 0 (py_round n)) (Z.max 0 (py_round p))
                   (Z.max 0 (py_round k))
                   ["25% at planting"; "50% at vegetative stage";
                    "25% at flowering"]
                   85).
Proof.
  unfold predict_fertilizer.
  destruct (try_except_const (predict_fertilizer_body env self input)
              fertilizer_fallback w) as (r & w' & Hrun & [Hb | [Hf _]]).
  - exists r, w'. split; [exact Hrun | right].
    apply predict_fertilizer_body_inv in Hb. exact Hb.
  - exists r, w'. split; [exact Hrun | left; exact Hf].
Qed.

Lemma predict_yield_total env self input w :
  exists r w',
    predict_yield env self input w = (Ok r, w')
    /\ (r = yield_fallback
        \/ exists x ph om rain,
             yieldIncrease r = py_round (py_max 0 (py_min 50 x))
             /\ limitingFactors r <> []
             /\ confidence r = Z.min 98 (yield_confidence ph om rain)).
Proof.
  unfold predict_yield.
  destruct (try_except_const (predict_yield_body env self input)
              yield_fallback w) as (r & w' & Hrun & [Hb | [Hf _]]).
  - exists r, w'. split; [exact Hrun | right].
    apply predict_yield_body_inv in Hb.
    destruct Hb as (_ & x & ph & om & rain & _ & _ & _ & _ & Hi & Hl & Hc).
    exists x, ph, om, rain. repeat split; assumption.
  - exists r, w'. split; [exact Hrun | left; exact Hf].
Qed.

Lemma drawn_tip_in env w : In (drawn_tip env w) sustainability_tips.
Proof.
  unfold drawn_tip. apply nth_In.
  change (List.length sustainability_tips) with 8%nat.
  apply Nat.mod_upper_bound. discriminate.
Qed.

(** [predict_all] step by step: once [cropType] is read, the three
    predictors run one after the other and return; what is left to fail is
    the read of the temperature. *)
Lemma predict_all_run env self input w crop :
  getitem input "cropType" = Ok crop ->
  exists i w1 f w2 y w3,
    predict_irrigation env self input w = (Ok i, w1)
    /\ predict_fertilizer env self input w1 = (Ok f, w2)
    /\ predict_yield env self input w2 = (Ok y, w3)
    /\ predict_all env self input w
       = match read_num input "weather" "temperature" with
         | Ok t =>
             (Ok (mkAggregate i f y (assess_risk i f y t) (drawn_tip env w3)
                    (economic i f y)),
              mkWorld (S (draws w3)) (reads w3))
         | Raise e => (Raise e, w3)
         end.
Proof.
  intros Hc.
  destruct (predict_irrigation_total env self input w) as (i & w1 & Hi & _).
  destruct (predict_fertilizer_total env self input w1) as (f & w2 & Hf & _).
  destruct (predict_yield_total env self input w2) as (y & w3 & Hy & _).
  exists i, w1, f, w2, y, w3. repeat split; try assumption.
  unfold predict_all. rewrite bind_lift, Hc.
  rewrite (bind_run _ _ _ _ _ Hi), (bind_run _ _ _ _ _ Hf),
    (bind_run _ _ _ _ _ Hy).
  rewrite bind_num_field.
  destruct (read_num input "weather" "temperature"); reflexivity.
Qed.

(* ------------------------------------------------------------------ *)
(** ** Missing artifacts *)

Lemma joblib_load_missing env path w :
  pickles env path = None ->
  joblib_load env path w = (Raise (FileNotFoundError path), w).
Proof. intros H. unfold joblib_load. rewrite H. reflexivity. Qed.

Lemma predict_irrigation_missing env self input a w :
  parse input = Some a ->
  pickles env (models_dir self ++ "/rf_irrigation_model.pkl") = None ->
  predict_irrigation env self input w
  = (Ok irrigation_fallback, after_features w).
Proof.
  intros Hp Hm. unfold predict_irrigation, try_except, predict_irrigation_body.
  unfold bind at 1. rewrite (prepare_features_run env self input a w Hp).
  destruct (derivable _ _ _ _ _); [| reflexivity].
  rewrite (bind_run_raise _ _ _ _ _ (joblib_load_missing _ _ _ Hm)).
  reflexivity.
Qed.

Lemma predict_fertilizer_missing env self input a w :
  parse input = Some a ->
  pickles env (models_dir self ++ "/rf_nitrogen_fertilizer_model.pkl") = None ->
  predict_fertilizer env self input w
  = (Ok fertilizer_fallback, after_features w).
Proof.
  intros Hp Hm. unfold predict_fertilizer, try_except, predict_fertilizer_body.
  unfold bind at 1. rewrite (prepare_features_run env self input a w Hp).
  destruct (derivable _ _ _ _ _); [| reflexivity].
  rewrite (bind_run_raise _ _ _ _ _ (joblib_load_missing _ _ _ Hm)).
  reflexivity.
Qed.

Lemma predict_yield_missing env self input a w :
  parse input = Some a ->
  pickles env (models_dir self ++ "/rf_yield_model.pkl") = None ->
  predict_yield env self input w = (Ok yield_fallback, after_features w).
Proof.
  intros Hp Hm. unfold predict_yield, try_except, predict_yield_body.
  unfold bind at 1. rewrite (prepare_features_run env self input a w Hp).
  destruct (derivable _ _ _ _ _); [| reflexivity].
  rewrite (bind_run_raise _ _ _ _ _ (joblib_load_missing _ _ _ Hm)).
  reflexivity.
Qed.

Lemma irrigation_record_populated liters :
  frequency (irrigation_record liters) <> ""
  /\ method (irrigation_record liters) <> ""
  /\ criticalPeriods (irrigation_record liters) <> [].
Proof.
  unfold irrigation_record.
  destruct (Qltb 2000 liters); [| destruct (Qltb 1000 liters)];
    simpl; repeat split; discriminate.
Qed.

Lemma overall_risk_populated factors : overall_risk factors <> "".
Proof.
  unfold overall_risk.
  destruct (2 <? List.length factors)%nat; [discriminate |].
  destruct (0 <? List.length factors)%nat; discriminate.
Qed.

(* ------------------------------------------------------------------ *)
(** ** The module's example run *)

(** Over an empty directory the constructor yields the fallback predictor
    and reads nothing. *)
Example init_without_artifacts :
  __init__ no_artifacts "models" fresh = (Ok fallback_predictor, fresh).
Proof. reflexivity. Qed.

(** [predict_all(sample_input)] with no artifact present: the three
    fallback records, one trigger (low confidence), hence Medium. *)
Example sample_prediction_without_artifacts :
  exists w',
    predict_all no_artifacts fallback_predictor sample_input fresh
    = (Ok (mkAggregate
             irrigation_fallback fertilizer_fallback yield_fallback
             (mkRisk 0 (10 # 5) 0 "Medium")
             "Implement crop rotation with legumes to naturally fix nitrogen."
             (mkEconomic 25 12.0)),
       w').
Proof. eexists. vm_compute. reflexivity. Qed.

(* ------------------------------------------------------------------ *)
(** ** The properties of the specification *)

(** C1.  For every well-formed input, whatever the artifact directory
    holds, [predict_all] returns (it does not raise) an aggregate whose six
    parts are all filled in; when the directory holds no artifact at all,
    the three per-target parts are the fallback records. *)
Theorem predict_all_complete env self input w :
  well_formed input ->
  exists r w',
    predict_all env self input w = (Ok r, w')
    /\ populated r
    /\ ((forall path, pickles env path = None) ->
        irrigation r = irrigation_fallback
        /\ fertilizer r = fertilizer_fallback
        /\ yieldPrediction r = yield_fallback).
Proof.
  intros [a Hp].
  destruct (parse_reads _ _ Hp) as (_ & _ & _ & _ & _ & Ht & _ & _ & _ & Hc).
  destruct (predict_all_run env self input w _ Hc)
    as (i & w1 & f & w2 & y & w3 & Hi & Hf & Hy & Hall).
  rewrite (read_num_of_read _ _ _ _ Ht) in Hall.
  eexists. eexists. split; [exact Hall |]. split.
  - unfold populated; simpl.
    destruct (predict_irrigation_total env self input w)
      as (i' & w1' & Hi' & Hicase).
    rewrite Hi in Hi'. inversion Hi'; subst i' w1'.
    destruct (predict_fertilizer_total env self input w1)
      as (f' & w2' & Hf' & Hfcase).
    rewrite Hf in Hf'. inversion Hf'; subst f' w2'.
    destruct (predict_yield_total env self input w2)
      as (y' & w3' & Hy' & Hycase).
    rewrite Hy in Hy'. inversion Hy'; subst y' w3'.
    assert (Hirr : frequency i <> "" /\ method i <> "" /\ criticalPeriods i <> []).
    { destruct Hicase as [-> | [liters ->]].
      - simpl. repeat split; discriminate.
      - apply irrigation_record_populated. }
    destruct Hirr as (H1 & H2 & H3).
    repeat split; try assumption.
    + destruct Hfcase as [-> | (n & p & k & ->)]; simpl; discriminate.
    + destruct Hycase as [-> | (x & ph & om & rain & _ & Hl & _)];
        [simpl; discriminate | exact Hl].
    + apply overall_risk_populated.
    + apply drawn_tip_in.
  - intros Hnone. simpl.
    rewrite (predict_irrigation_missing env self input a w Hp (Hnone _)) in Hi.
    rewrite (predict_fertilizer_missing env self input a w1 Hp (Hnone _)) in Hf.
    rewrite (predict_yield_missing env self input a w2 Hp (Hnone _)) in Hy.
    inversion Hi. inversion Hf. inversion Hy. repeat split; reflexivity.
Qed.

Lemma predict_all_complete_witness :
  well_formed sample_input
  /\ exists r w',
       predict_all no_artifacts fallback_predictor sample_input fresh = (Ok r, w')
       /\ populated r
       /\ ((forall path, pickles no_artifacts path = None) ->
           irrigation r = irrigation_fallback
           /\ fertilizer r = fertilizer_fallback
           /\ yieldPrediction r = yield_fallback).
Proof.
  assert (H : well_formed sample_input) by (exists sample; reflexivity).
  split; [exact H |].
  exact (predict_all_complete no_artifacts fallback_predictor sample_input
           fresh H).
Defined.





Lemma existsb_eqb_In (s : string) (xs : list string) :
  existsb (String.eqb s) xs = true <-> In s xs.
Proof.
  rewrite existsb_exists. split.
  - intros (x & Hin & Heq). apply String.eqb_eq in Heq. subst x. exact Hin.
  - intros Hin. exists s. split; [exact Hin | apply String.eqb_refl].
Qed.





Lemma predict_all_Ok_inv env self input w r w' :
  predict_all env self input w = (Ok r, w') ->
  exists crop i w1 f w2 y w3 t,
    getitem input "cropType" = Ok crop
    /\ predict_irrigation env self input w = (Ok i, w1)
    /\ predict_fertilizer env self input w1 = (Ok f, w2)
    /\ predict_yield env self input w2 = (Ok y, w3)
    /\ read_num input "weather" "temperature" = Ok t
    /\ r = mkAggregate i f y (assess_risk i f y t) (drawn_tip env w3)
             (economic i f y).
Proof.
  intros H.
  destruct (getitem input "cropType") as [crop | e] eqn:Hc.
  - destruct (predict_all_run env self input w crop Hc)
      as (i & w1 & f & w2 & y & w3 & Hi & Hf & Hy & Hall).
    rewrite H in Hall.
    destruct (read_num input "weather" "temperature") as [t | e] eqn:Ht;
      [| discriminate Hall].
    inversion Hall. exists crop, i, w1, f, w2, y, w3, t.
    repeat split; assumption.
  - unfold predict_all in H. rewrite bind_lift, Hc in H. discriminate H.
Qed.





(** C6.  For every input, on the model path and on the fallback path
    alike, each predictor returns and its numbers are in range: the litres
    per acre are an integer of at least 100, the three fertilizer amounts
    are integers of at least 0, and the yield increase is an integer
    between 0 and 50. *)
Theorem numeric_outputs_in_range env self input w :
  (exists r w',
      predict_irrigation env self input w = (Ok r, w')
      /\ (100 <= litersPerAcre r)%Z)
  /\ (exists r w',
      predict_fertilizer env self input w = (Ok r, w')
      /\ (0 <= nitrogen r)%Z /\ (0 <= phosphorus r)%Z /\ (0 <= potassium r)%Z)
  /\ (exists r w',
      predict_yield env self input w = (Ok r, w')
      /\ (0 <= yieldIncrease r <= 50)%Z).
Proof.
  split; [| split].
  - destruct (predict_irrigation_total env self input w)
      as (r & w' & Hrun & [-> | [liters ->]]);
      eexists; eexists; (split; [exact Hrun |]).
    + simpl. lia.
    + unfold irrigation_record.
      destruct (Qltb 2000 liters); [| destruct (Qltb 1000 liters)];
        simpl; apply Z.le_max_l.
  - destruct (predict_fertilizer_total env self input w)
      as (r & w' & Hrun & [-> | (n & p & k & ->)]);
      eexists; eexists; (split; [exact Hrun |]).
    + simpl. lia.
    + simpl. repeat split; apply Z.le_max_l.
  - destruct (predict_yield_total env self input w)
      as (r & w' & Hrun & [-> | (x & ph & om & rain & Hi & _ & _)]);
      eexists; eexists; (split; [exact Hrun |]).
    + simpl. lia.
    + rewrite Hi. apply yield_increase_range.
Qed.

(** C7.  For every input the yield predictor returns a confidence between
    70 and 98; when its [try] block returns, the confidence is
    min(98, 85 + (5 if |pH - 6.5| < 0.5) + (3 if organic matter > 3)
    + (4 if 50 <= rainfall <= 200)) on the readings of the input; when the
    block raises, it is 70. *)
Theorem yield_confidence_formula env self input w :
  exists r w',
    predict_yield env self input w = (Ok r, w')
    /\ (70 <= confidence r <= 98)%Z
    /\ (forall r0 w0,
          predict_yield_body env self input w = (Ok r0, w0) ->
          r = r0
          /\ exists ph om rain,
               read_num input "soil" "ph" = Ok ph
               /\ read_num input "soil" "organicMatter" = Ok om
               /\ read_num input "weather" "rainfall" = Ok rain
               /\ confidence r
                  = Z.min 98
                      (85
                       + (if Qltb (Qabs (ph - 6.5)) 0.5 then 5 else 0)
                       + (if Qltb 3 om then 3 else 0)
                       + (if Qle_bool 50 rain && Qle_bool rain 200
                          then 4 else 0))%Z)
    /\ (forall e w0,
          predict_yield_body env self input w = (Raise e, w0) ->
          r = yield_fallback /\ confidence r = 70%Z).
Proof.
  unfold predict_yield, try_except.
  destruct (predict_yield_body env self input w) as [[r | e] w1] eqn:Hb.
  - exists r, w1. split; [reflexivity |].
    destruct (predict_yield_body_inv _ _ _ _ _ _ Hb)
      as (y & x & ph & om & rain & Hph & Hom & Hrain & _ & _ & _ & Hc).
    split; [| split].
    + rewrite Hc. pose proof (yield_confidence_range ph om rain). lia.
    + intros r0 w0 H0. inversion H0; subst r0 w0. split; [reflexivity |].
      exists ph, om, rain. repeat split; try assumption.
      rewrite Hc. unfold yield_confidence. f_equal.
      destruct (Qltb (Qabs (ph - 6.5)) 0.5), (Qltb 3 om),
        (Qle_bool 50 rain && Qle_bool rain 200); reflexivity.
    + intros e w0 H0. discriminate H0.
  - exists yield_fallback, w1. split; [reflexivity |]. split; [| split].
    + simpl. lia.
    + intros r0 w0 H0. discriminate H0.
    + intros e0 w0 _. split; reflexivity.
Qed.

Lemma yield_confidence_formula_witness :
  (exists r w',
      predict_yield (yield_only 4) fallback_predictor sample_input fresh
      = (Ok r, w')
      /\ confidence r = 94%Z)
  /\ (exists r w',
      predict_yield no_artifacts fallback_predictor sample_input fresh
      = (Ok r, w')
      /\ confidence r = 70%Z).
Proof.
  split.
  - destruct (yield_confidence_formula (yield_only 4) fallback_predictor
                sample_input fresh) as (r & w' & Hrun & _ & Hok & _).
    exists r, w'. split; [exact Hrun |].
    destruct (Hok _ _ eq_refl) as (_ & ph & om & rain & Hph & Hom & Hrain & Hc).
    inversion Hph; subst ph. inversion Hom; subst om.
    inversion Hrain; subst rain. exact Hc.
  - destruct (yield_confidence_formula no_artifacts fallback_predictor
                sample_input fresh) as (r & w' & Hrun & _ & _ & Hfb).
    exists r, w'. split; [exact Hrun |].
    apply (Hfb (FileNotFoundError "models/rf_yield_model.pkl") (mkWorld 3 [])).
    reflexivity.
Defined.

Lemma py_min_max_clamp lo hi x :
  lo <= hi -> py_min hi (py_max lo x) == clamp lo hi x.
Proof.
  intros Hle. unfold py_min, py_max, clamp.
  destruct (Qltb lo x) eqn:E1.
  - apply Qltb_lt in E1.
    destruct (Qltb x hi) eqn:E2.
    + apply Qltb_lt in E2.
      destruct (Qltb x lo) eqn:E3; [apply Qltb_lt in E3; lra |].
      destruct (Qltb hi x) eqn:E4; [apply Qltb_lt in E4; lra | reflexivity].
    + apply Qltb_ge in E2.
      destruct (Qltb x lo) eqn:E3; [apply Qltb_lt in E3; lra |].
      destruct (Qltb hi x) eqn:E4; [reflexivity | apply Qltb_ge in E4; lra].
  - apply Qltb_ge in E1.
    destruct (Qltb lo hi) eqn:E2.
    + destruct (Qltb x lo) eqn:E3; [reflexivity |].
      apply Qltb_ge in E3.
      destruct (Qltb hi x) eqn:E4; [apply Qltb_lt in E4; lra | lra].
    + apply Qltb_ge in E2.
      destruct (Qltb x lo) eqn:E3; [lra |].
      apply Qltb_ge in E3.
      destruct (Qltb hi x) eqn:E4; [reflexivity | lra].
Qed.

Lemma overall_risk_by_count i f y :
  overall_risk (risk_factors i f y)
  = match trigger_count (litersPerAcre i) (nitrogen f) (confidence y) with
    | 0%nat => "Low"
    | 1%nat | 2%nat => "Medium"
    | _ => "High"
    end.
Proof.
  unfold risk_factors, trigger_count, append_if.
  destruct (2000 <? litersPerAcre i)%Z, (150 <? nitrogen f)%Z,
    (confidence y <? 80)%Z; reflexivity.
Qed.

(** C8.  Whenever [predict_all] returns, its risk assessment is
    waterStress = clamp(0,100,(litersPerAcre-1000)/20),
    nutrientDeficiency = clamp(0,100,(N+P+K-200)/5),
    climateRisk = clamp(0,100,|temperature-25|*2), and overallRisk is Low
    when none of the triggers litersPerAcre > 2000, nitrogen > 150,
    confidence < 80 holds, Medium when one or two hold, High when all
    three hold. *)
Theorem risk_assessment_formulas env self input w r w' :
  predict_all env self input w = (Ok r, w') ->
  exists t,
    read_num input "weather" "temperature" = Ok t
    /\ waterStress (riskAssessment r)
       == clamp 0 100 ((inject_Z (litersPerAcre (irrigation r)) - 1000) / 20)
    /\ nutrientDeficiency (riskAssessment r)
       == clamp 0 100
            ((inject_Z (nitrogen (fertilizer r) + phosphorus (fertilizer r)
                        + potassium (fertilizer r)) - 200) / 5)
    /\ climateRisk (riskAssessment r) == clamp 0 100 (Qabs (t - 25) * 2)
    /\ overallRisk (riskAssessment r)
       = match trigger_count (litersPerAcre (irrigation r))
                 (nitrogen (fertilizer r)) (confidence (yieldPrediction r))
         with
         | 0%nat => "Low"
         | 1%nat | 2%nat => "Medium"
         | _ => "High"
         end.
Proof.
  intros H. apply predict_all_Ok_inv in H.
  destruct H as (crop & i & w1 & f & w2 & y & w3 & t & _ & _ & _ & _ & Ht & ->).
  exists t. split; [exact Ht |]. simpl.
  repeat split; try (apply py_min_max_clamp; discriminate).
  apply overall_risk_by_count.
Qed.

Lemma risk_assessment_formulas_witness :
  exists r w',
    predict_all (irrigation_only 2500) fallback_predictor sample_input fresh
    = (Ok r, w')
    /\ waterStress (riskAssessment r) == 75
    /\ nutrientDeficiency (riskAssessment r) == 2
    /\ climateRisk (riskAssessment r) == 0
    /\ overallRisk (riskAssessment r) = "Medium".
Proof.
  eexists. eexists. split; [vm_compute; reflexivity |].
  destruct (risk_assessment_formulas (irrigation_only 2500) fallback_predictor
              sample_input fresh _ _ eq_refl) as (t & Ht & H1 & H2 & H3 & H4).
  inversion Ht; subst t.
  split; [rewrite H1; reflexivity |].
  split; [rewrite H2; reflexivity |].
  split; [rewrite H3; reflexivity | exact H4].
Defined.

(** C10.  [predict_all] reads [cropType] and the temperature outside
    every [try]: an input without [cropType] raises KeyError at once, an
    input without [weather] or without [weather.temperature] raises
    KeyError after the three predictors have fallen back; and in general
    [predict_all] returns exactly when these two reads succeed. *)
Theorem predict_all_raises_on_missing_fields env self w :
  predict_all env self sample_without_cropType w
  = (Raise (KeyError "cropType"), w)
  /\ (exists w',
        predict_all env self sample_without_weather w
        = (Raise (KeyError "weather"), w'))
  /\ (exists w',
        predict_all env self sample_without_temperature w
        = (Raise (KeyError "temperature"), w'))
  /\ (forall input,
        (exists r w', predict_all env self input w = (Ok r, w'))
        <-> (exists crop t,
               getitem input "cropType" = Ok crop
               /\ read_num input "weather" "temperature" = Ok t)).
Proof.
  split; [reflexivity |]. split; [| split].
  - destruct (predict_all_run env self sample_without_weather w (VStr "rice")
                eq_refl) as (i & w1 & f & w2 & y & w3 & _ & _ & _ & Hall).
    exists w3. exact Hall.
  - destruct (predict_all_run env self sample_without_temperature w
                (VStr "rice") eq_refl)
      as (i & w1 & f & w2 & y & w3 & _ & _ & _ & Hall).
    exists w3. exact Hall.
  - intros input. split.
    + intros (r & w' & H). apply predict_all_Ok_inv in H.
      destruct H as (crop & i & w1 & f & w2 & y & w3 & t & Hc & _ & _ & _ & Ht & _).
      exists crop, t. split; assumption.
    + intros (crop & t & Hc & Ht).
      destruct (predict_all_run env self input w crop Hc)
        as (i & w1 & f & w2 & y & w3 & _ & _ & _ & Hall).
      rewrite Ht in Hall. eexists. eexists. exact Hall.
Qed.

Lemma predict_all_raises_on_missing_fields_witness :
  predict_all no_artifacts fallback_predictor sample_without_cropType fresh
  = (Raise (KeyError "cropType"), fresh)
  /\ (exists w',
        predict_all no_artifacts fallback_predictor sample_without_weather
          fresh
        = (Raise (KeyError "weather"), w'))
  /\ (exists w',
        predict_all no_artifacts fallback_predictor
          sample_without_temperature fresh
        = (Raise (KeyError "temperature"), w'))
  /\ exists r w',
       predict_all no_artifacts fallback_predictor sample_input fresh
       = (Ok r, w').
Proof.
  destruct (predict_all_raises_on_missing_fields no_artifacts
              fallback_predictor fresh) as (H1 & H2 & H3 & H4).
  split; [exact H1 |]. split; [exact H2 |]. split; [exact H3 |].
  apply (H4 sample_input). exists (VStr "rice"), 25. split; reflexivity.
Defined.

(** C5, as stated, fails at the lower edge of the middle band: a raw
    prediction of exactly 1000 litres is answered on the model path with
    frequency Weekly, not Every 2-3 days. *)
Lemma irrigation_band_edge_1000 :
  predict_irrigation (irrigation_only 1000) irrigation_predictor sample_input
    fresh
  = (Ok (mkIrrigation 1000 "Weekly" "Drip Irrigation" 90
           ["Flowering stage"; "Early grain filling"]),
     mkWorld 3 ["models/rf_irrigation_model.pkl"])
  /\ ~ irrigation_bands_as_stated.
Proof.
  split; [reflexivity |].
  intros H. destruct (H 1000) as (_ & Hmid & _).
  destruct Hmid as [_ Hfreq]; [split; discriminate |].
  discriminate Hfreq.
Qed.

(** C5, amended.  When the [try] block of [predict_irrigation] returns,
    its record is built from the raw prediction [liters] of the loaded
    regressor: above 2000 the method is Sprinkler System and the frequency
    Daily; above 1000 and up to 2000, Drip Irrigation and Every 2-3 days;
    at 1000 and below, Drip Irrigation and Weekly; the efficiency is 90
    when the method is Drip Irrigation and 75 otherwise. *)
Theorem irrigation_decision_table env self input w r w' :
  predict_irrigation_body env self input w = (Ok r, w') ->
  exists model x liters,
    pickles env (models_dir self ++ "/rf_irrigation_model.pkl")
    = Some (Ok model)
    /\ predict model x = Ok liters
    /\ (2000 < liters ->
        method r = "Sprinkler System" /\ frequency r = "Daily")
    /\ (1000 < liters <= 2000 ->
        method r = "Drip Irrigation" /\ frequency r = "Every 2-3 days")
    /\ (liters <= 1000 ->
        method r = "Drip Irrigation" /\ frequency r = "Weekly")
    /\ (method r = "Drip Irrigation" -> irrigation_efficiency r = 90%Z)
    /\ (method r <> "Drip Irrigation" -> irrigation_efficiency r = 75%Z).
Proof.
  intros H. apply predict_irrigation_body_inv in H.
  destruct H as (features & w1 & model & x & liters & _ & Hm & Hl & -> & _).
  exists model, x, liters. split; [exact Hm |]. split; [exact Hl |].
  unfold irrigation_record.
  destruct (Qltb 2000 liters) eqn:E1.
  - apply Qltb_lt in E1. simpl.
    repeat split; try reflexivity; try (intros; lra); try discriminate.
  - apply Qltb_ge in E1. destruct (Qltb 1000 liters) eqn:E2.
    + apply Qltb_lt in E2. simpl.
      repeat split; try reflexivity; try (intros; lra).
      intros Hneq. exfalso. apply Hneq. reflexivity.
    + apply Qltb_ge in E2. simpl.
      repeat split; try reflexivity; try (intros; lra).
      intros Hneq. exfalso. apply Hneq. reflexivity.
Qed.

Lemma irrigation_decision_table_witness :
  exists r w',
    predict_irrigation_body (irrigation_only 1500) irrigation_predictor
      sample_input fresh = (Ok r, w')
    /\ method r = "Drip Irrigation"
    /\ frequency r = "Every 2-3 days"
    /\ irrigation_efficiency r = 90%Z.
Proof.
  eexists. eexists. split; [vm_compute; reflexivity |].
  destruct (irrigation_decision_table (irrigation_only 1500) irrigation_predictor
              sample_input fresh _ _ eq_refl)
    as (model & x & liters & Hm & Hl & _ & Hmid & _ & Heff & _).
  inversion Hm; subst model. inversion Hl; subst liters.
  destruct Hmid as [H1 H2]; [split; [reflexivity | discriminate] |].
  split; [exact H1 |]. split; [exact H2 |]. apply Heff. exact H1.
Defined.

(** Every call of [predict_irrigation] on a well-formed input whose
    readings are within the float range opens the regressor's file again
    when the file exists: nothing is kept from one call to the next. *)
Lemma predict_irrigation_reads env self input a w r :
  parse input = Some a ->
  representable a ->
  pickles env (models_dir self ++ "/rf_irrigation_model.pkl") = Some r ->
  reads (snd (predict_irrigation env self input w))
  = (models_dir self ++ "/rf_irrigation_model.pkl") :: reads w.
Proof.
  intros Hp Hr Hm.
  unfold predict_irrigation, try_except, predict_irrigation_body.
  rewrite (bind_run _ _ _ _ _
             (prepare_features_returns env self input a w Hp Hr)).
  unfold bind at 1. unfold joblib_load. rewrite Hm.
  destruct r as [model | e]; [| reflexivity].
  unfold bind at 1.
  destruct (scale _ _ _) as [[x | e] w1] eqn:Hs.
  - apply scale_Ok_inv in Hs. subst w1.
    rewrite bind_lift. destruct (predict model x); reflexivity.
  - unfold scale in Hs. destruct (assoc_get (scalers self) "irrigation");
      [| discriminate Hs].
    unfold lift in Hs. inversion Hs. reflexivity.
Qed.

(** C4 (the code reads the regressor's file on every call).  Over a
    directory holding the irrigation regressor and its scaler, the
    constructor reads the scaler once and leaves [models] empty; two
    calls of [predict_irrigation] on the sample input are both answered
    from the regressor, and each of them reads the regressor's file: two
    reads of the same file in one process. *)
Theorem model_file_read_on_every_call :
  exists self w0 w1 w2,
    __init__ (irrigation_only 1500) "models" fresh = (Ok self, w0)
    /\ models self = []
    /\ assoc_get (scalers self) "irrigation" = Some identity_scaler
    /\ predict_irrigation (irrigation_only 1500) self sample_input w0
       = (Ok (irrigation_record 1500), w1)
    /\ predict_irrigation (irrigation_only 1500) self sample_input w1
       = (Ok (irrigation_record 1500), w2)
    /\ count_occ string_dec (reads w0) "models/rf_irrigation_model.pkl" = 0%nat
    /\ count_occ string_dec (reads w1) "models/rf_irrigation_model.pkl" = 1%nat
    /\ count_occ string_dec (reads w2) "models/rf_irrigation_model.pkl" = 2%nat
    /\ count_occ string_dec (reads w2) "models/scaler_irrigation.pkl" = 1%nat.
Proof.
  exists irrigation_predictor,
    (mkWorld 0 ["models/scaler_irrigation.pkl"]),
    (mkWorld 3 ["models/rf_irrigation_model.pkl";
                "models/scaler_irrigation.pkl"]),
    (mkWorld 6 ["models/rf_irrigation_model.pkl";
                "models/rf_irrigation_model.pkl";
                "models/scaler_irrigation.pkl"]).
  repeat split.
Qed.

(* ------------------------------------------------------------------ *)
(** ** The HTTP layer *)

Lemma first_missing_dict d fields :
  first_missing (Ok (VDict d)) fields = Ok (find (lacks d) fields).
Proof.
  induction fields as [| f fs IH]; [reflexivity |].
  simpl. unfold lacks at 1. destruct (dict_get d f); [exact IH | reflexivity].
Qed.

(** X1.  A JSON object that lacks a required key is answered 400 with the
    first missing key named, in the order soil, weather, cropType, then
    the soil keys, then the weather keys; the predictor is not invoked:
    no random draw, no file read. *)
Theorem predict_agriculture_rejects_missing env predictor d w :
  (forall f,
      find (lacks d) required_fields = Some f ->
      predict_agriculture env predictor (VDict d) w
      = (Ok (PredictError (Text ("Missing required field: " ++ f)), 400%Z), w))
  /\ (forall ds f,
      find (lacks d) required_fields = None ->
      dict_get d "soil" = Some (VDict ds) ->
      find (lacks ds) soil_fields = Some f ->
      predict_agriculture env predictor (VDict d) w
      = (Ok (PredictError (Text ("Missing soil field: " ++ f)), 400%Z), w))
  /\ (forall ds dw f,
      find (lacks d) required_fields = None ->
      dict_get d "soil" = Some (VDict ds) ->
      find (lacks ds) soil_fields = None ->
      dict_get d "weather" = Some (VDict dw) ->
      find (lacks dw) weather_fields = Some f ->
      predict_agriculture env predictor (VDict d) w
      = (Ok (PredictError (Text ("Missing weather field: " ++ f)), 400%Z), w)).
Proof.
  split; [| split].
  - intros f Hf. unfold predict_agriculture, try_except, predict_agriculture_body.
    rewrite bind_lift, first_missing_dict, Hf. reflexivity.
  - intros ds f H0 Hs Hf.
    unfold predict_agriculture, try_except, predict_agriculture_body.
    rewrite bind_lift, first_missing_dict, H0.
    rewrite bind_lift. unfold getitem at 1. rewrite Hs.
    rewrite first_missing_dict, Hf. reflexivity.
  - intros ds dw f H0 Hs Hs0 Hw Hf.
    unfold predict_agriculture, try_except, predict_agriculture_body.
    rewrite bind_lift, first_missing_dict, H0.
    rewrite bind_lift. unfold getitem at 1. rewrite Hs.
    rewrite first_missing_dict, Hs0.
    rewrite bind_lift. unfold getitem at 1. rewrite Hw.
    rewrite first_missing_dict, Hf. reflexivity.
Qed.

Lemma predict_agriculture_rejects_missing_witness :
  predict_agriculture no_artifacts fallback_predictor sample_without_cropType
    fresh
  = (Ok (PredictError (Text "Missing required field: cropType"), 400%Z), fresh)
  /\ predict_agriculture no_artifacts fallback_predictor
       sample_without_temperature fresh
     = (Ok (PredictError (Text "Missing weather field: temperature"), 400%Z),
        fresh).
Proof.
  destruct (predict_agriculture_rejects_missing no_artifacts fallback_predictor
              [ ("soil", VDict [ ("ph", VNum 6.5); ("nitrogen", VNum 20);
                                 ("phosphorus", VNum 15); ("potassium", VNum 25);
                                 ("organicMatter", VNum 3.0) ]);
                ("weather", VDict [ ("temperature", VNum 25);
                                    ("rainfall", VNum 100);
                                    ("humidity", VNum 65);
                                    ("sunlightHours", VNum 8) ]) ]
              fresh) as (H1 & _ & _).
  split; [exact (H1 "cropType" eq_refl) |].
  destruct (predict_agriculture_rejects_missing no_artifacts fallback_predictor
              [ ("soil", VDict [ ("ph", VNum 6.5); ("nitrogen", VNum 20);
                                 ("phosphorus", VNum 15); ("potassium", VNum 25);
                                 ("organicMatter", VNum 3.0) ]);
                ("weather", VDict [ ("rainfall", VNum 100);
                                    ("humidity", VNum 65);
                                    ("sunlightHours", VNum 8) ]);
                ("cropType", VStr "rice") ]
              fresh) as (_ & _ & H3).
  exact (H3 _ _ "temperature" eq_refl eq_refl eq_refl eq_refl eq_refl).
Defined.

Lemma first_missing_evaluates container f fs :
  first_missing container (f :: fs) = Ok None ->
  exists c, container = Ok c /\ contains c f = Ok true.
Proof.
  simpl. destruct container as [c | e]; [| discriminate].
  destruct (contains c f) as [[|] | e] eqn:E; try discriminate.
  intros _. exists c. split; [reflexivity | exact E].
Qed.

Lemma first_missing_dict_present d fields f :
  first_missing (Ok (VDict d)) fields = Ok None ->
  In f fields -> exists v, dict_get d f = Some v.
Proof.
  rewrite first_missing_dict. intros H Hin.
  assert (Hnone : find (lacks d) fields = None) by congruence.
  pose proof (find_none _ _ Hnone f Hin) as Hf. unfold lacks in Hf.
  destruct (dict_get d f) as [v |]; [exists v; reflexivity | discriminate Hf].
Qed.

(** What passing the three presence checks guarantees: the body is an
    object with a [cropType], and reading the temperature as a number
    either succeeds or fails with a TypeError. *)
Lemma validated_shape data :
  validated data ->
  (exists crop, getitem data "cropType" = Ok crop)
  /\ ((exists t, read_num data "weather" "temperature" = Ok t)
      \/ read_num data "weather" "temperature" = Raise TypeError).
Proof.
  intros (Hreq & Hsoil & Hweather).
  apply first_missing_evaluates in Hsoil. destruct Hsoil as (soil & Hs & _).
  destruct data as [ | b | q | s | l | d]; try discriminate Hs.
  split.
  - destruct (first_missing_dict_present d required_fields "cropType" Hreq)
      as [crop Hc]; [simpl; tauto |].
    exists crop. simpl. rewrite Hc. reflexivity.
  - apply first_missing_evaluates in Hweather.
    destruct Hweather as (weather & Hw & Ht).
    unfold read_num, read. rewrite Hw.
    destruct weather as [ | b | q | s | l | dw]; simpl in Ht;
      try discriminate Ht; try (right; reflexivity).
    simpl. destruct (dict_get dw "temperature") as [tv |]; [| discriminate Ht].
    unfold num. destruct (as_num tv) as [t |];
      [left; exists t; reflexivity | right; reflexivity].
Qed.

Lemma predict_agriculture_body_validated env predictor data w :
  validated data ->
  predict_agriculture_body env predictor data w
  = bind (predict_all env predictor data)
         (fun predictions => ret (PredictSuccess predictions, 200%Z)) w.
Proof.
  intros (Hreq & Hsoil & Hweather). unfold predict_agriculture_body.
  rewrite bind_lift, Hreq. rewrite bind_lift, Hsoil.
  rewrite bind_lift, Hweather. reflexivity.
Qed.

Lemma predict_agriculture_body_success env predictor data w r status w' :
  predict_agriculture_body env predictor data w
  = (Ok (PredictSuccess r, status), w') ->
  validated data
  /\ status = 200%Z
  /\ predict_all env predictor data w = (Ok r, w').
Proof.
  unfold predict_agriculture_body. intros H.
  bind_inv H m1 w1 H1. apply lift_Ok_inv in H1. destruct H1 as [H1 ->].
  destruct m1 as [f |]; [apply ret_Ok_inv in H; destruct H; discriminate |].
  bind_inv H m2 w2 H2. apply lift_Ok_inv in H2. destruct H2 as [H2 ->].
  destruct m2 as [f |]; [apply ret_Ok_inv in H; destruct H; discriminate |].
  bind_inv H m3 w3 H3. apply lift_Ok_inv in H3. destruct H3 as [H3 ->].
  destruct m3 as [f |]; [apply ret_Ok_inv in H; destruct H; discriminate |].
  bind_inv H r' w4 Hall. apply ret_Ok_inv in H. destruct H as [H ->].
  inversion H; subst r' status.
  split; [repeat split; assumption | split; [reflexivity | exact Hall]].
Qed.

(** X2.  [/api/predict] answers 200 with predictions exactly when the
    three presence checks pass and the temperature is a number; the
    predictions are then those of [predict_all] on the same body. *)
Theorem predict_agriculture_success_iff env predictor data w :
  (forall r w',
      predict_agriculture env predictor data w
      = (Ok (PredictSuccess r, 200%Z), w') ->
      predict_all env predictor data w = (Ok r, w'))
  /\ ((exists r w',
          predict_agriculture env predictor data w
          = (Ok (PredictSuccess r, 200%Z), w'))
      <-> (validated data
           /\ exists t, read_num data "weather" "temperature" = Ok t)).
Proof.
  assert (Hinv : forall r w',
             predict_agriculture env predictor data w
             = (Ok (PredictSuccess r, 200%Z), w') ->
             validated data /\ predict_all env predictor data w = (Ok r, w')).
  { intros r w' H. unfold predict_agriculture, try_except in H.
    destruct (predict_agriculture_body env predictor data w)
      as [[x | e] w1] eqn:Hb; [| discriminate H].
    inversion H; subst x w1.
    apply predict_agriculture_body_success in Hb.
    destruct Hb as (Hv & _ & Hall). split; assumption. }
  split; [intros r w' H; apply (Hinv r w' H) | split].
  - intros (r & w' & H). destruct (Hinv r w' H) as [Hv Hall].
    split; [exact Hv |].
    apply predict_all_Ok_inv in Hall.
    destruct Hall as (_ & _ & _ & _ & _ & _ & _ & t & _ & _ & _ & _ & Ht & _).
    exists t. exact Ht.
  - intros (Hv & t & Ht).
    destruct (validated_shape data Hv) as [[crop Hc] _].
    destruct (predict_all_run env predictor data w crop Hc)
      as (i & w1 & f & w2 & y & w3 & _ & _ & _ & Hall).
    rewrite Ht in Hall.
    eexists. eexists. unfold predict_agriculture, try_except.
    rewrite (predict_agriculture_body_validated _ _ _ _ Hv).
    rewrite (bind_run _ _ _ _ _ Hall). reflexivity.
Qed.

Lemma well_formed_validated input :
  well_formed input -> validated input.
Proof.
  intros [a Hp].
  destruct (parse_reads _ _ Hp)
    as (Hph & Hn & Hpp & Hk & Hom & Ht & Hrain & Hhum & Hsun & Hcrop).
  assert (Hdict : exists d, input = VDict d).
  { unfold read in Hph. destruct input; simpl in Hph; try discriminate Hph.
    eexists; reflexivity. }
  destruct Hdict as [d ->].
  assert (Hsec : forall section key v,
             read (VDict d) section key = Ok v ->
             exists ds, dict_get d section = Some (VDict ds)
                        /\ dict_get ds key = Some v).
  { intros section key v H. unfold read in H. simpl in H.
    destruct (dict_get d section) as [s |]; [| discriminate H].
    destruct s as [ | b | q | s | l | ds]; simpl in H; try discriminate H.
    exists ds. split; [reflexivity |].
    destruct (dict_get ds key); [inversion H; reflexivity | discriminate H]. }
  destruct (Hsec _ _ _ Hph) as (ds & Hs & Hph').
  destruct (Hsec _ _ _ Hn) as (ds1 & Hs1 & Hn').
  destruct (Hsec _ _ _ Hpp) as (ds2 & Hs2 & Hpp').
  destruct (Hsec _ _ _ Hk) as (ds3 & Hs3 & Hk').
  destruct (Hsec _ _ _ Hom) as (ds4 & Hs4 & Hom').
  rewrite Hs in Hs1, Hs2, Hs3, Hs4.
  inversion Hs1; subst ds1. inversion Hs2; subst ds2.
  inversion Hs3; subst ds3. inversion Hs4; subst ds4.
  destruct (Hsec _ _ _ Ht) as (dw & Hw & Ht').
  destruct (Hsec _ _ _ Hrain) as (dw1 & Hw1 & Hrain').
  destruct (Hsec _ _ _ Hhum) as (dw2 & Hw2 & Hhum').
  destruct (Hsec _ _ _ Hsun) as (dw3 & Hw3 & Hsun').
  rewrite Hw in Hw1, Hw2, Hw3.
  inversion Hw1; subst dw1. inversion Hw2; subst dw2. inversion Hw3; subst dw3.
  simpl in Hcrop.
  destruct (dict_get d "cropType") as [c |] eqn:Hc; [| discriminate Hcrop].
  repeat split.
  - rewrite first_missing_dict. simpl. unfold lacks. rewrite Hs, Hw, Hc.
    reflexivity.
  - simpl getitem. rewrite Hs. rewrite first_missing_dict. simpl. unfold lacks.
    rewrite Hph', Hn', Hpp', Hk', Hom'. reflexivity.
  - simpl getitem. rewrite Hw. rewrite first_missing_dict. simpl. unfold lacks.
    rewrite Ht', Hrain', Hhum', Hsun'. reflexivity.
Qed.

Lemma predict_agriculture_success_iff_witness :
  exists r w',
    predict_agriculture no_artifacts fallback_predictor sample_input fresh
    = (Ok (PredictSuccess r, 200%Z), w')
    /\ predict_all no_artifacts fallback_predictor sample_input fresh
       = (Ok r, w').
Proof.
  destruct (predict_agriculture_success_iff no_artifacts fallback_predictor
              sample_input fresh) as [Hpayload [_ Hback]].
  destruct Hback as (r & w' & H).
  - split.
    + apply well_formed_validated. exists sample. reflexivity.
    + exists 25. reflexivity.
  - exists r, w'. split; [exact H | exact (Hpayload r w' H)].
Defined.

(** X3.  The checks of [/api/predict] test presence only: a body that
    passes them with a temperature that is not a number is answered 500
    with the TypeError raised in [predict_all], not 400. *)
Theorem predict_agriculture_presence_only env predictor data w :
  validated data ->
  (forall t, read_num data "weather" "temperature" <> Ok t) ->
  exists w',
    predict_agriculture env predictor data w
    = (Ok (PredictError (TextWithExn "Prediction failed: " TypeError), 500%Z),
       w').
Proof.
  intros Hv Hnot.
  destruct (validated_shape data Hv) as [[crop Hc] [[t Ht] | Ht]];
    [exfalso; apply (Hnot t Ht) |].
  destruct (predict_all_run env predictor data w crop Hc)
    as (i & w1 & f & w2 & y & w3 & _ & _ & _ & Hall).
  rewrite Ht in Hall. exists w3.
  unfold predict_agriculture, try_except.
  rewrite (predict_agriculture_body_validated _ _ _ _ Hv).
  rewrite (bind_run_raise _ _ _ _ _ Hall). reflexivity.
Qed.

Lemma predict_agriculture_presence_only_witness :
  exists w',
    predict_agriculture no_artifacts fallback_predictor
      sample_with_text_temperature fresh
    = (Ok (PredictError (TextWithExn "Prediction failed: " TypeError), 500%Z),
       w').
Proof.
  apply (predict_agriculture_presence_only no_artifacts fallback_predictor
           sample_with_text_temperature fresh).
  - repeat split.
  - intros t H. discriminate H.
Defined.

Lemma predict_all_returns_iff env self input w :
  (exists r w', predict_all env self input w = (Ok r, w'))
  <-> predictable input.
Proof.
  split.
  - intros (r & w' & H). apply predict_all_Ok_inv in H.
    destruct H as (crop & i & w1 & f & w2 & y & w3 & t & Hc & _ & _ & _ & Ht & _).
    exists crop, t. split; assumption.
  - intros (crop & t & Hc & Ht).
    destruct (predict_all_run env self input w crop Hc)
      as (i & w1 & f & w2 & y & w3 & _ & _ & _ & Hall).
    rewrite Ht in Hall. eexists. eexists. exact Hall.
Qed.

Lemma batch_step_returns env predictor input w :
  exists entry w',
    batch_step env predictor input w = (Ok entry, w')
    /\ entry_input entry = input
    /\ (entry_succeeded entry = true <-> predictable input).
Proof.
  unfold batch_step, try_except, bind.
  destruct (predict_all env predictor input w) as [[r | e] w1] eqn:H.
  - exists (EntrySuccess input r), w1. repeat split.
    intros _. apply (predict_all_returns_iff env predictor input w).
    exists r, w1. exact H.
  - exists (EntryError input e), w1. repeat split; [discriminate |].
    intros Hp. apply (predict_all_returns_iff env predictor input w) in Hp.
    destruct Hp as (r & w' & Hr). rewrite H in Hr. discriminate Hr.
Qed.

Lemma batch_loop_returns env predictor inputs :
  forall acc w,
  exists out w',
    batch_loop env predictor inputs acc w = (Ok (acc ++ out)%list, w')
    /\ map entry_input out = inputs
    /\ Forall (fun e => entry_succeeded e = true <-> predictable (entry_input e))
              out.
Proof.
  induction inputs as [| input rest IH]; intros acc w.
  - exists [], w. simpl. rewrite app_nil_r. repeat split. constructor.
  - destruct (batch_step_returns env predictor input w)
      as (entry & w1 & Hstep & Hin & Hok).
    destruct (IH (acc ++ [entry])%list w1) as (out & w' & Hloop & Hmap & Hall).
    exists (entry :: out), w'. split; [| split].
    + simpl. rewrite (bind_run _ _ _ _ _ Hstep), Hloop.
      rewrite <- app_assoc. reflexivity.
    + simpl. rewrite Hin, Hmap. reflexivity.
    + constructor; [rewrite Hin; exact Hok | exact Hall].
Qed.

(** X4.  [/api/batch-predict] on a body whose [inputs] is an array
    answers 200 with one entry per input, in the order given, each
    echoing its input; [total_processed] is the number of inputs; an
    input on which [predict_all] raises gets an error entry and the
    inputs after it are still processed. *)
Theorem batch_predict_isolates_failures env predictor d inputs w :
  dict_get d "inputs" = Some (VList inputs) ->
  exists entries w',
    batch_predict env predictor (VDict d) w
    = (Ok (BatchSuccess entries (List.length inputs), 200%Z), w')
    /\ map entry_input entries = inputs
    /\ Forall (fun e => entry_succeeded e = true <-> predictable (entry_input e))
              entries.
Proof.
  intros Hd.
  destruct (batch_loop_returns env predictor inputs [] w)
    as (out & w' & Hloop & Hmap & Hall).
  exists out, w'. split; [| split; assumption].
  unfold batch_predict, try_except, batch_predict_body.
  rewrite bind_lift. simpl contains. rewrite Hd. cbv beta iota.
  change (negb true) with false. cbv iota.
  rewrite bind_lift. simpl getitem. rewrite Hd. cbv beta iota.
  rewrite (bind_run _ _ _ _ _ Hloop). simpl.
  rewrite <- Hmap, length_map. reflexivity.
Qed.

Lemma batch_predict_isolates_failures_witness :
  exists r1 r3 e2 w',
    batch_predict no_artifacts fallback_predictor
      (VDict [("inputs",
               VList [sample_input; sample_without_cropType; maize_input])])
      fresh
    = (Ok (BatchSuccess
             [ EntrySuccess sample_input r1;
               EntryError sample_without_cropType e2;
               EntrySuccess maize_input r3 ] 3, 200%Z), w').
Proof.
  destruct (batch_predict_isolates_failures no_artifacts fallback_predictor
              [("inputs",
                VList [sample_input; sample_without_cropType; maize_input])]
              [sample_input; sample_without_cropType; maize_input]
              fresh eq_refl) as (entries & w' & Hrun & _ & _).
  eexists. eexists. eexists. exists w'.
  rewrite Hrun. vm_compute in Hrun.
  inversion Hrun. reflexivity.
Defined.

(** X5.  [/api/batch-predict] answers 400 without touching the predictor
    when the body is an object without [inputs] or with an [inputs] that
    is not an array, and 500 when the body is null, a boolean or a
    number. *)
Theorem batch_predict_rejects env predictor w :
  (forall d,
      dict_get d "inputs" = None ->
      batch_predict env predictor (VDict d) w
      = (Ok (BatchError (Text "Missing or invalid inputs array"), 400%Z), w))
  /\ (forall d v,
      dict_get d "inputs" = Some v ->
      (forall l, v <> VList l) ->
      batch_predict env predictor (VDict d) w
      = (Ok (BatchError (Text "Missing or invalid inputs array"), 400%Z), w))
  /\ (forall data,
      not_iterable data ->
      batch_predict env predictor data w
      = (Ok (BatchError (TextWithExn "Batch prediction failed: " TypeError),
             500%Z), w)).
Proof.
  split; [| split].
  - intros d Hd. unfold batch_predict, try_except, batch_predict_body.
    rewrite bind_lift. simpl contains. rewrite Hd. reflexivity.
  - intros d v Hd Hv. unfold batch_predict, try_except, batch_predict_body.
    rewrite bind_lift. simpl contains. rewrite Hd. cbv beta iota.
    change (negb true) with false. cbv iota.
    rewrite bind_lift. simpl getitem. rewrite Hd. cbv beta iota.
    destruct v; try reflexivity. exfalso. apply (Hv l). reflexivity.
  - intros data Hd. destruct data; simpl in Hd; try contradiction; reflexivity.
Qed.

Lemma batch_predict_rejects_witness :
  batch_predict no_artifacts fallback_predictor (VDict []) fresh
  = (Ok (BatchError (Text "Missing or invalid inputs array"), 400%Z), fresh)
  /\ batch_predict no_artifacts fallback_predictor
       (VDict [("inputs", sample_input)]) fresh
     = (Ok (BatchError (Text "Missing or invalid inputs array"), 400%Z), fresh)
  /\ batch_predict no_artifacts fallback_predictor VNone fresh
     = (Ok (BatchError (TextWithExn "Batch prediction failed: " TypeError),
            500%Z), fresh).
Proof.
  destruct (batch_predict_rejects no_artifacts fallback_predictor fresh)
    as (H1 & H2 & H3).
  split; [apply H1; reflexivity |].
  split; [apply (H2 _ sample_input); [reflexivity | discriminate] |].
  apply H3. exact I.
Defined.

(* ------------------------------------------------------------------ *)
(** ** The constructor *)

Lemma assoc_get_set_same {A} (d : list (string * A)) k v :
  assoc_get (assoc_set d k v) k = Some v.
Proof.
  induction d as [| [k' v'] d IH]; simpl.
  - rewrite String.eqb_refl. reflexivity.
  - destruct (String.eqb k' k) eqn:E; simpl.
    + rewrite String.eqb_refl. reflexivity.
    + rewrite E. exact IH.
Qed.

Lemma assoc_get_set_other {A} (d : list (string * A)) k k' v :
  k <> k' -> assoc_get (assoc_set d k v) k' = assoc_get d k'.
Proof.
  intros Hne. induction d as [| [k0 v0] d IH]; simpl.
  - destruct (String.eqb k k') eqn:E; [| reflexivity].
    apply String.eqb_eq in E. contradiction.
  - destruct (String.eqb k0 k) eqn:E; simpl.
    + apply String.eqb_eq in E. subst k0.
      destruct (String.eqb k k') eqn:E'; [| reflexivity].
      apply String.eqb_eq in E'. contradiction.
    + destruct (String.eqb k0 k'); [reflexivity | exact IH].
Qed.

(** One turn of the scaler loop never raises; it stores the scaler when
    the file unpickles and logs a read when the file exists. *)
Lemma load_scaler_run env dir acc target w :
  load_scaler env dir acc target w
  = match pickles env (scaler_path dir target) with
    | None => (Ok acc, w)
    | Some (Ok s) =>
        (Ok (assoc_set acc target s),
         mkWorld (draws w) (scaler_path dir target :: reads w))
    | Some (Raise _) =>
        (Ok acc, mkWorld (draws w) (scaler_path dir target :: reads w))
    end.
Proof.
  unfold load_scaler, try_except, os_path_exists, scaler_path.
  destruct (pickles env (dir ++ "/scaler_" ++ target ++ ".pkl"))
    as [[s | e] |] eqn:E.
  - unfold bind, joblib_load. rewrite E. reflexivity.
  - unfold bind, joblib_load. rewrite E. reflexivity.
  - reflexivity.
Qed.

Lemma load_scalers_run env dir targets :
  forall acc w,
  exists sc,
    load_scalers env dir targets acc w
    = (Ok sc,
       mkWorld (draws w)
         (rev (filter (os_path_exists env) (map (scaler_path dir) targets))
          ++ reads w)%list)
    /\ (NoDup targets ->
        forall t,
          assoc_get sc t
          = if existsb (String.eqb t) targets then
              match pickles env (scaler_path dir t) with
              | Some (Ok s) => Some s
              | _ => assoc_get acc t
              end
            else assoc_get acc t).
Proof.
  induction targets as [| target rest IH]; intros acc w.
  - exists acc. split; [destruct w; reflexivity | intros _ t; reflexivity].
  - simpl load_scalers. unfold bind. rewrite load_scaler_run.
    simpl map. simpl filter. unfold os_path_exists at 1.
    destruct (pickles env (scaler_path dir target)) as [[s | e] |] eqn:E.
    + destruct (IH (assoc_set acc target s)
                  (mkWorld (draws w) (scaler_path dir target :: reads w)))
        as (sc & Hrun & Hget).
      exists sc. split.
      * rewrite Hrun. simpl. rewrite <- app_assoc. reflexivity.
      * intros Hnd t. inversion Hnd as [| x xs Hnotin Hnd']; subst.
        rewrite (Hget Hnd' t). simpl existsb.
        destruct (String.eqb t target) eqn:Et.
        -- apply String.eqb_eq in Et. subst t. simpl.
           assert (Hex : existsb (String.eqb target) rest = false).
           { destruct (existsb (String.eqb target) rest) eqn:Ex; [| reflexivity].
             apply existsb_eqb_In in Ex. contradiction. }
           rewrite Hex, E. apply assoc_get_set_same.
        -- simpl. assert (Hne : target <> t).
           { intros Heq. subst t. rewrite String.eqb_refl in Et. discriminate. }
           rewrite (assoc_get_set_other _ _ _ _ Hne).
           destruct (existsb (String.eqb t) rest); reflexivity.
    + destruct (IH acc (mkWorld (draws w) (scaler_path dir target :: reads w)))
        as (sc & Hrun & Hget).
      exists sc. split.
      * rewrite Hrun. simpl. rewrite <- app_assoc. reflexivity.
      * intros Hnd t. inversion Hnd as [| x xs Hnotin Hnd']; subst.
        rewrite (Hget Hnd' t). simpl existsb.
        destruct (String.eqb t target) eqn:Et.
        -- apply String.eqb_eq in Et. subst t. simpl.
           assert (Hex : existsb (String.eqb target) rest = false).
           { destruct (existsb (String.eqb target) rest) eqn:Ex; [| reflexivity].
             apply existsb_eqb_In in Ex. contradiction. }
           rewrite Hex, E. reflexivity.
        -- simpl. destruct (existsb (String.eqb t) rest); reflexivity.
    + destruct (IH acc w) as (sc & Hrun & Hget).
      exists sc. split.
      * rewrite Hrun. reflexivity.
      * intros Hnd t. inversion Hnd as [| x xs Hnotin Hnd']; subst.
        rewrite (Hget Hnd' t). simpl existsb.
        destruct (String.eqb t target) eqn:Et.
        -- apply String.eqb_eq in Et. subst t. simpl.
           assert (Hex : existsb (String.eqb target) rest = false).
           { destruct (existsb (String.eqb target) rest) eqn:Ex; [| reflexivity].
             apply existsb_eqb_In in Ex. contradiction. }
           rewrite Hex, E. reflexivity.
        -- simpl. destruct (existsb (String.eqb t) rest); reflexivity.
Qed.

Lemma scaler_targets_NoDup : NoDup scaler_targets.
Proof.
  unfold scaler_targets.
  repeat (constructor; [simpl; intuition discriminate |]). constructor.
Qed.

Lemma init_run env dir w :
  exists sc,
    __init__ env dir w
    = (Ok (mkPredictor dir (snd (_load_metadata env dir))
             (fst (_load_metadata env dir)) [] sc
             (match md_crop_type (fst (_load_metadata env dir)) with
              | Some crops => crops
              | None => default_crop_types
              end)),
       mkWorld (draws w)
         (rev (filter (os_path_exists env)
                 (map (scaler_path dir) scaler_targets)) ++ reads w)%list)
    /\ forall t,
         assoc_get sc t
         = if existsb (String.eqb t) scaler_targets then
             match pickles env (scaler_path dir t) with
             | Some (Ok s) => Some s
             | _ => None
             end
           else None.
Proof.
  unfold __init__. destruct (_load_metadata env dir) as [md fb].
  unfold _load_models. simpl models_dir. simpl scalers.
  destruct (load_scalers_run env dir scaler_targets [] w) as (sc & Hrun & Hget).
  exists sc. split.
  - rewrite (bind_run _ _ _ _ _ Hrun). reflexivity.
  - intros t. rewrite (Hget scaler_targets_NoDup t).
    destruct (existsb (String.eqb t) scaler_targets); [| reflexivity].
    destruct (pickles env (scaler_path dir t)) as [[s | e] |]; reflexivity.
Qed.

(** X6.  Over a directory whose metadata file, if it parses, has the
    shape the trainer writes, the constructor returns whatever pickles the
    directory holds, missing or corrupt.  The predictor it builds is in
    fallback mode exactly when the metadata file is missing or unreadable;
    its crop list is the metadata's [label_encoders.crop_type] when the
    metadata has one and the twelve default crops otherwise. *)
Theorem constructor_returns env dir w :
  exists self w',
    __init__ env dir w = (Ok self, w')
    /\ models_dir self = dir
    /\ (fallback_mode self = false
        <-> exists md, jsons env (dir ++ "/model_metadata.json") = Some (Ok md))
    /\ (forall md crops,
          jsons env (dir ++ "/model_metadata.json") = Some (Ok md) ->
          md_crop_type md = Some crops ->
          label_encoders_crop_type self = crops)
    /\ ((forall md crops,
           jsons env (dir ++ "/model_metadata.json") = Some (Ok md) ->
           md_crop_type md <> Some crops) ->
        label_encoders_crop_type self = default_crop_types).
Proof.
  destruct (init_run env dir w) as (sc & Hrun & _).
  eexists. eexists. split; [exact Hrun |]. simpl.
  unfold _load_metadata.
  destruct (jsons env (dir ++ "/model_metadata.json")) as [[md | e] |] eqn:E;
    simpl.
  - repeat split.
    + intros _. exists md. reflexivity.
    + intros md' crops Hmd Hc. inversion Hmd; subst md'. rewrite Hc. reflexivity.
    + intros Hnone. destruct (md_crop_type md) as [crops |] eqn:Hc;
        [| reflexivity].
      exfalso. apply (Hnone md crops eq_refl Hc).
  - repeat split; try discriminate.
    intros [md Hmd]. discriminate Hmd.
  - repeat split; try discriminate.
    intros [md Hmd]. discriminate Hmd.
Qed.

Lemma constructor_returns_witness :
  exists self w',
    __init__ no_artifacts "models" fresh = (Ok self, w')
    /\ fallback_mode self = true
    /\ label_encoders_crop_type self = default_crop_types.
Proof.
  destruct (constructor_returns no_artifacts "models" fresh)
    as (self & w' & Hrun & _ & Hfb & _ & Hdefault).
  exists self, w'. split; [exact Hrun |]. split.
  - destruct (fallback_mode self) eqn:E; [reflexivity |].
    destruct (proj1 Hfb eq_refl) as [md Hmd]. discriminate Hmd.
  - apply Hdefault. intros md crops Hmd. discriminate Hmd.
Defined.

(** X7.  After construction the [scalers] dict holds, for each of the six
    targets, the scaler whose file exists and unpickles, and nothing
    else: a missing or corrupt scaler file leaves no entry. *)
Theorem constructor_caches_scalers env dir w :
  exists self w',
    __init__ env dir w = (Ok self, w')
    /\ forall target s,
         assoc_get (scalers self) target = Some s
         <-> (In target scaler_targets
              /\ pickles env (scaler_path dir target) = Some (Ok s)).
Proof.
  destruct (init_run env dir w) as (sc & Hrun & Hget).
  eexists. eexists. split; [exact Hrun |]. simpl.
  intros target s. rewrite Hget.
  destruct (existsb (String.eqb target) scaler_targets) eqn:E.
  - apply existsb_eqb_In in E. split.
    + intros H. split; [exact E |].
      destruct (pickles env (scaler_path dir target)) as [[s' | e] |];
        try discriminate H.
      inversion H. reflexivity.
    + intros [_ H]. rewrite H. reflexivity.
  - split; [discriminate |]. intros [Hin _].
    apply (proj2 (existsb_eqb_In target scaler_targets)) in Hin.
    rewrite Hin in E. discriminate E.
Qed.

Lemma constructor_caches_scalers_witness :
  exists self w',
    __init__ (irrigation_only 1500) "models" fresh = (Ok self, w')
    /\ assoc_get (scalers self) "irrigation" = Some identity_scaler
    /\ assoc_get (scalers self) "yield" = None.
Proof.
  destruct (constructor_caches_scalers (irrigation_only 1500) "models" fresh)
    as (self & w' & Hrun & Hget).
  exists self, w'. split; [exact Hrun |]. split.
  - apply Hget. split; [simpl; tauto | reflexivity].
  - destruct (assoc_get (scalers self) "yield") as [s |] eqn:E; [| reflexivity].
    apply Hget in E. destruct E as [_ E]. discriminate E.
Defined.

Lemma string_append_cancel (a x y : string) : a ++ x = a ++ y -> x = y.
Proof.
  induction a as [| c a IH]; simpl; intros H; [exact H |].
  inversion H. apply IH. assumption.
Qed.

Lemma NoDup_map_injective {A B} (f : A -> B) (l : list A) :
  (forall x y, f x = f y -> x = y) -> NoDup l -> NoDup (map f l).
Proof.
  intros Hinj Hnd. induction Hnd as [| x l Hnotin Hnd IH]; simpl.
  - constructor.
  - constructor; [| exact IH].
    intros Hin. apply in_map_iff in Hin. destruct Hin as (y & Hy & Hin).
    apply Hinj in Hy. subst y. contradiction.
Qed.

Lemma scaler_paths_NoDup dir : NoDup (map (scaler_path dir) scaler_targets).
Proof.
  change (map (scaler_path dir) scaler_targets)
    with (map (String.append dir)
              (map (fun t => "/scaler_" ++ t ++ ".pkl") scaler_targets)).
  apply NoDup_map_injective.
  - intros x y H. apply (string_append_cancel dir x y H).
  - simpl. repeat (constructor; [simpl; intuition discriminate |]). constructor.
Qed.

(** X8.  The constructor draws no random number and reads from disk the
    scaler files that exist, each exactly once, and no other pickle: in
    particular no regressor file. *)
Theorem constructor_reads_scalers_once env dir w :
  exists self w' new,
    __init__ env dir w = (Ok self, w')
    /\ draws w' = draws w
    /\ reads w' = (new ++ reads w)%list
    /\ NoDup new
    /\ forall path,
         In path new
         <-> exists target,
               In target scaler_targets
               /\ path = scaler_path dir target
               /\ pickles env path <> None.
Proof.
  destruct (init_run env dir w) as (sc & Hrun & _).
  eexists. eexists.
  exists (rev (filter (os_path_exists env)
                 (map (scaler_path dir) scaler_targets))).
  split; [exact Hrun |]. split; [reflexivity |]. split; [reflexivity |].
  split; [| intros path; split].
  - apply NoDup_rev. apply NoDup_filter. apply scaler_paths_NoDup.
  - intros Hin. apply in_rev in Hin. apply filter_In in Hin.
    destruct Hin as [Hin Hex]. apply in_map_iff in Hin.
    destruct Hin as (t & Ht & Hint). exists t. repeat split; auto.
    unfold os_path_exists in Hex.
    destruct (pickles env path); [discriminate | discriminate Hex].
  - intros (t & Hint & -> & Hex). apply -> in_rev. apply filter_In. split.
    + apply in_map. exact Hint.
    + unfold os_path_exists.
      destruct (pickles env (scaler_path dir t)); [reflexivity | contradiction].
Qed.

Lemma constructor_reads_scalers_once_witness :
  exists self w',
    __init__ (irrigation_only 1500) "models" fresh = (Ok self, w')
    /\ reads w' = ["models/scaler_irrigation.pkl"].
Proof.
  destruct (constructor_reads_scalers_once (irrigation_only 1500) "models"
              fresh) as (self & w' & new & Hrun & _ & Hreads & _ & _).
  exists self, w'. split; [exact Hrun |].
  vm_compute in Hrun. inversion Hrun. reflexivity.
Defined.

(** X9.  [/api/health] reports [models_loaded] false for every predictor
    the constructor builds, even over a directory that holds regressor
    files: nothing ever fills [models]. *)
Theorem health_check_never_loaded env dir w self w' :
  __init__ env dir w = (Ok self, w') ->
  models self = [] /\ health_check_models_loaded self = false.
Proof.
  intros H. destruct (init_run env dir w) as (sc & Hrun & _).
  rewrite H in Hrun. inversion Hrun. split; reflexivity.
Qed.

Lemma health_check_never_loaded_witness :
  pickles (irrigation_only 1500) "models/rf_irrigation_model.pkl" <> None
  /\ health_check_models_loaded irrigation_predictor = false.
Proof.
  split; [discriminate |].
  apply (health_check_never_loaded (irrigation_only 1500) "models" fresh
           irrigation_predictor
           (mkWorld 0 ["models/scaler_irrigation.pkl"]) eq_refl).
Defined.

(* ------------------------------------------------------------------ *)
(** ** More on the feature builder and the predictors *)

Lemma read_num_Ok_read input section key q :
  read_num input section key = Ok q ->
  exists v, read input section key = Ok v /\ as_num v = Some q.
Proof.
  unfold read_num, num. destruct (read input section key) as [v | e];
    [| discriminate].
  destruct (as_num v) as [q' |] eqn:E; [| discriminate].
  intros H. inversion H. subst q'. exists v. split; [reflexivity | exact E].
Qed.

Lemma np_random_normal_run env loc scale w :
  np_random_normal env loc scale w
  = (Ok (loc + scale * std_normal env (draws w)),
     mkWorld (S (draws w)) (reads w)).
Proof. reflexivity. Qed.

Lemma field_Ok_inv input section key w v w' :
  field input section key w = (Ok v, w') ->
  read input section key = Ok v /\ w' = w.
Proof. rewrite field_run. intros H. inversion H. split; reflexivity. Qed.

Lemma np_random_normal_Ok_inv env loc scale w q w' :
  np_random_normal env loc scale w = (Ok q, w') ->
  w' = mkWorld (S (draws w)) (reads w).
Proof. rewrite np_random_normal_run. intros H. inversion H. reflexivity. Qed.

Lemma np_random_randint_Ok_inv env low high w z w' :
  np_random_randint env low high w = (Ok z, w') ->
  w' = mkWorld (S (draws w)) (reads w).
Proof.
  unfold np_random_randint. destruct (low <? high)%Z; intros H.
  - inversion H. reflexivity.
  - discriminate H.
Qed.

Lemma crop_code_Ok_inv crops crop w z w' :
  (if str_in crop crops then lift (list_index crop crops) else ret 0%Z) w
  = (Ok z, w') -> w' = w.
Proof. rewrite crop_code_run. intros H. inversion H. reflexivity. Qed.

Lemma as_num_not_sequence v q : as_num v = Some q -> is_sequence v = false.
Proof.
  destruct v as [ | b | q' | s | l | d]; simpl; intros H;
    try discriminate H; reflexivity.
Qed.

Lemma read_num_of_as_num input section key v q :
  read input section key = Ok v -> as_num v = Some q ->
  read_num input section key = Ok q.
Proof. unfold read_num, num. intros -> ->. reflexivity. Qed.

(** [_prepare_features] on an input whose nine readings and crop type can
    be read, the five readings of the derived features being numbers. *)
Lemma prepare_features_general env self input w
    vph vn vp vk om vt rain hum sun crop ph n p k t :
  read input "soil" "ph" = Ok vph ->
  read input "soil" "nitrogen" = Ok vn ->
  read input "soil" "phosphorus" = Ok vp ->
  read input "soil" "potassium" = Ok vk ->
  read input "soil" "organicMatter" = Ok om ->
  read input "weather" "temperature" = Ok vt ->
  read input "weather" "rainfall" = Ok rain ->
  read input "weather" "humidity" = Ok hum ->
  read input "weather" "sunlightHours" = Ok sun ->
  getitem input "cropType" = Ok crop ->
  as_num vph = Some ph -> as_num vn = Some n -> as_num vp = Some p ->
  as_num vk = Some k -> as_num vt = Some t ->
  _prepare_features env self input w
  = (if derivable ph n p k t
     then np_array_row
            [ vph; vn; vp; vk; om; vt; rain; hum; sun;
              VNum (drawn_wind env w); VNum (drawn_pressure env w);
              VNum 120; VNum (inject_Z (drawn_month env w));
              VNum (inject_Z (crop_code (label_encoders_crop_type self) crop));
              VNum (Qabs (ph - 6.5) / 6.5);
              VNum ((n / 25 + p / 18 + k / 30) / 3);
              VNum (Qabs (t - 25) / 25) ]
     else Raise OverflowError,
     after_features w).
Proof.
  intros Hph Hn Hp Hk Hom Ht Hrain Hhum Hsun Hcrop Aph An Ap Ak At.
  unfold _prepare_features.
  rewrite bind_field, Hph. rewrite bind_field, Hn. rewrite bind_field, Hp.
  rewrite bind_field, Hk. rewrite bind_field, Hom.
  rewrite bind_field, Ht. rewrite bind_field, Hrain.
  rewrite bind_field, Hhum. rewrite bind_field, Hsun.
  rewrite bind_normal. rewrite bind_normal.
  rewrite bind_randint by reflexivity.
  rewrite bind_lift, Hcrop.
  unfold bind at 1. rewrite crop_code_run.
  unfold derivable.
  rewrite bind_num_field, (read_num_of_as_num _ _ _ _ _ Hph Aph), bind_to_float.
  destruct (fits_double ph); [| reflexivity].
  rewrite bind_num_field, (read_num_of_as_num _ _ _ _ _ Hn An), bind_true_div.
  destruct (fits_double (n / 25)); [| reflexivity].
  rewrite bind_num_field, (read_num_of_as_num _ _ _ _ _ Hp Ap), bind_true_div.
  destruct (fits_double (p / 18)); [| reflexivity].
  rewrite bind_num_field, (read_num_of_as_num _ _ _ _ _ Hk Ak), bind_true_div.
  destruct (fits_double (k / 30)); [| reflexivity].
  rewrite bind_num_field, (read_num_of_as_num _ _ _ _ _ Ht At), bind_true_div.
  destruct (fits_double (Qabs (t - 25) / 25)); reflexivity.
Qed.

(** What [_prepare_features] has read when it returns. *)
Lemma prepare_features_Ok_reads env self input w v w' :
  _prepare_features env self input w = (Ok v, w') ->
  exists vph vn vp vk om vt rain hum sun crop ph n p k t,
    read input "soil" "ph" = Ok vph
    /\ read input "soil" "nitrogen" = Ok vn
    /\ read input "soil" "phosphorus" = Ok vp
    /\ read input "soil" "potassium" = Ok vk
    /\ read input "soil" "organicMatter" = Ok om
    /\ read input "weather" "temperature" = Ok vt
    /\ read input "weather" "rainfall" = Ok rain
    /\ read input "weather" "humidity" = Ok hum
    /\ read input "weather" "sunlightHours" = Ok sun
    /\ getitem input "cropType" = Ok crop
    /\ as_num vph = Some ph /\ as_num vn = Some n /\ as_num vp = Some p
    /\ as_num vk = Some k /\ as_num vt = Some t.
Proof.
  intros H. unfold _prepare_features in H.
  bind_inv H vph w1 R1. apply field_Ok_inv in R1. destruct R1 as [R1 ->].
  bind_inv H vn w2 R2. apply field_Ok_inv in R2. destruct R2 as [R2 ->].
  bind_inv H vp w3 R3. apply field_Ok_inv in R3. destruct R3 as [R3 ->].
  bind_inv H vk w4 R4. apply field_Ok_inv in R4. destruct R4 as [R4 ->].
  bind_inv H om w5 R5. apply field_Ok_inv in R5. destruct R5 as [R5 ->].
  bind_inv H vt w6 R6. apply field_Ok_inv in R6. destruct R6 as [R6 ->].
  bind_inv H rain w7 R7. apply field_Ok_inv in R7. destruct R7 as [R7 ->].
  bind_inv H hum w8 R8. apply field_Ok_inv in R8. destruct R8 as [R8 ->].
  bind_inv H sun w9 R9. apply field_Ok_inv in R9. destruct R9 as [R9 ->].
  bind_inv H wind w10 R10. bind_inv H pressure w11 R11.
  bind_inv H month w12 R12.
  bind_inv H crop w13 R13. apply lift_Ok_inv in R13. destruct R13 as [R13 _].
  bind_inv H code w14 R14.
  bind_inv H ph w15 R15. apply num_field_Ok_inv in R15.
  destruct R15 as [R15 _]. bind_inv H ph' w16 R16.
  bind_inv H n w17 R17. apply num_field_Ok_inv in R17.
  destruct R17 as [R17 _]. bind_inv H n' w18 R18.
  bind_inv H p w19 R19. apply num_field_Ok_inv in R19.
  destruct R19 as [R19 _]. bind_inv H p' w20 R20.
  bind_inv H k w21 R21. apply num_field_Ok_inv in R21.
  destruct R21 as [R21 _]. bind_inv H k' w22 R22.
  bind_inv H t w23 R23. apply num_field_Ok_inv in R23.
  destruct R23 as [R23 _].
  apply read_num_Ok_read in R15, R17, R19, R21, R23.
  destruct R15 as (v1 & E1 & A1). rewrite R1 in E1. inversion E1; subst v1.
  destruct R17 as (v2 & E2 & A2). rewrite R2 in E2. inversion E2; subst v2.
  destruct R19 as (v3 & E3 & A3). rewrite R3 in E3. inversion E3; subst v3.
  destruct R21 as (v4 & E4 & A4). rewrite R4 in E4. inversion E4; subst v4.
  destruct R23 as (v5 & E5 & A5). rewrite R6 in E5. inversion E5; subst v5.
  exists vph, vn, vp, vk, om, vt, rain, hum, sun, crop, ph, n, p, k, t.
  repeat split; assumption.
Qed.

(** X10.  [_prepare_features] returns exactly when [cropType] is there;
    pH, nitrogen, phosphorus, potassium and temperature are there, are
    numbers and let the derived features be computed (an int beyond the
    float range raises OverflowError); and organic matter, rainfall,
    humidity and sunlight hours are there and none of them is a list
    (which [np.array] rejects with ValueError).  These four are not
    checked otherwise: the row holds numbers only when they all are
    numbers, and is a coerced row built from them as they were read when
    one of them is text, None or a dict.  When it returns, the row has 17
    columns, three random numbers have been drawn and no file has been
    read. *)
Theorem prepare_features_returns_iff env self input w :
  ((exists v w', _prepare_features env self input w = (Ok v, w'))
   <-> featurable input)
  /\ (forall v w',
        _prepare_features env self input w = (Ok v, w') ->
        columns v = 17%nat
        /\ w' = after_features w
        /\ ((exists cells, v = NumberArray cells)
            <-> exists om rain hum sun,
                  read_num input "soil" "organicMatter" = Ok om
                  /\ read_num input "weather" "rainfall" = Ok rain
                  /\ read_num input "weather" "humidity" = Ok hum
                  /\ read_num input "weather" "sunlightHours" = Ok sun)
        /\ (forall components,
              v = MixedArray components ->
              nth_error components 4
              = present (read input "soil" "organicMatter")
              /\ nth_error components 6
                 = present (read input "weather" "rainfall")
              /\ nth_error components 7
                 = present (read input "weather" "humidity")
              /\ nth_error components 8
                 = present (read input "weather" "sunlightHours"))).
Proof.
  assert (Hinv : forall v w',
             _prepare_features env self input w = (Ok v, w') ->
             exists vph vn vp vk om vt rain hum sun crop ph n p k t,
               read input "soil" "ph" = Ok vph
               /\ read input "soil" "nitrogen" = Ok vn
               /\ read input "soil" "phosphorus" = Ok vp
               /\ read input "soil" "potassium" = Ok vk
               /\ read input "soil" "organicMatter" = Ok om
               /\ read input "weather" "temperature" = Ok vt
               /\ read input "weather" "rainfall" = Ok rain
               /\ read input "weather" "humidity" = Ok hum
               /\ read input "weather" "sunlightHours" = Ok sun
               /\ getitem input "cropType" = Ok crop
               /\ as_num vph = Some ph /\ as_num vn = Some n
               /\ as_num vp = Some p /\ as_num vk = Some k
               /\ as_num vt = Some t
               /\ derivable ph n p k t = true
               /\ w' = after_features w
               /\ np_array_row
                    [ vph; vn; vp; vk; om; vt; rain; hum; sun;
                      VNum (drawn_wind env w); VNum (drawn_pressure env w);
                      VNum 120; VNum (inject_Z (drawn_month env w));
                      VNum (inject_Z
                              (crop_code (label_encoders_crop_type self) crop));
                      VNum (Qabs (ph - 6.5) / 6.5);
                      VNum ((n / 25 + p / 18 + k / 30) / 3);
                      VNum (Qabs (t - 25) / 25) ]
                  = Ok v).
  { intros v w' H.
    destruct (prepare_features_Ok_reads _ _ _ _ _ _ H)
      as (vph & vn & vp & vk & om & vt & rain & hum & sun & crop
          & ph & n & p & k & t
          & R1 & R2 & R3 & R4 & R5 & R6 & R7 & R8 & R9 & Rc
          & A1 & A2 & A3 & A4 & A5).
    rewrite (prepare_features_general env self input w _ _ _ _ _ _ _ _ _ _
               _ _ _ _ _ R1 R2 R3 R4 R5 R6 R7 R8 R9 Rc A1 A2 A3 A4 A5) in H.
    exists vph, vn, vp, vk, om, vt, rain, hum, sun, crop, ph, n, p, k, t.
    destruct (derivable ph n p k t); [| discriminate H].
    inversion H. repeat split; assumption. }
  split.
  - split.
    + intros (v & w' & H).
      destruct (Hinv v w' H)
        as (vph & vn & vp & vk & om & vt & rain & hum & sun & crop
            & ph & n & p & k & t
            & R1 & R2 & R3 & R4 & R5 & R6 & R7 & R8 & R9 & Rc
            & A1 & A2 & A3 & A4 & A5 & Hd & _ & Harr).
      unfold featurable. split; [exists crop; exact Rc |]. split.
      * exists ph, n, p, k, t.
        repeat split;
          try (eapply read_num_of_as_num; eassumption); exact Hd.
      * exists om, rain, hum, sun.
        split; [exact R5 |]. split; [exact R7 |]. split; [exact R8 |].
        split; [exact R9 |].
        unfold np_array_row in Harr.
        match type of Harr with
        | (if ?c then _ else _) = _ => destruct c eqn:Eseq
        end; [discriminate Harr |].
        cbn [existsb] in Eseq. cbn [existsb].
        repeat (apply orb_false_iff in Eseq; destruct Eseq as [? Eseq]).
        repeat (apply orb_false_iff; split); assumption.
    + intros ([crop Rc] & (ph & n & p & k & t & N1 & N2 & N3 & N4 & N5 & Hd)
              & (om & rain & hum & sun & R5 & R7 & R8 & R9 & Hseq)).
      apply read_num_Ok_read in N1, N2, N3, N4, N5.
      destruct N1 as (vph & R1 & A1). destruct N2 as (vn & R2 & A2).
      destruct N3 as (vp & R3 & A3). destruct N4 as (vk & R4 & A4).
      destruct N5 as (vt & R6 & A5).
      rewrite (prepare_features_general env self input w _ _ _ _ _ _ _ _ _ _
                 _ _ _ _ _ R1 R2 R3 R4 R5 R6 R7 R8 R9 Rc A1 A2 A3 A4 A5).
      rewrite Hd. unfold np_array_row.
      assert (Eseq : existsb is_sequence
                [ vph; vn; vp; vk; om; vt; rain; hum; sun;
                  VNum (drawn_wind env w); VNum (drawn_pressure env w);
                  VNum 120; VNum (inject_Z (drawn_month env w));
                  VNum (inject_Z
                          (crop_code (label_encoders_crop_type self) crop));
                  VNum (Qabs (ph - 6.5) / 6.5);
                  VNum ((n / 25 + p / 18 + k / 30) / 3);
                  VNum (Qabs (t - 25) / 25) ] = false).
      { cbn [existsb] in Hseq. cbn [existsb].
        repeat (apply orb_false_iff in Hseq; destruct Hseq as [? Hseq]).
        rewrite (as_num_not_sequence _ _ A1), (as_num_not_sequence _ _ A2),
          (as_num_not_sequence _ _ A3), (as_num_not_sequence _ _ A4),
          (as_num_not_sequence _ _ A5).
        repeat (apply orb_false_iff; split); try assumption; reflexivity. }
      rewrite Eseq.
      destruct (numbers _) as [cells |]; eexists; eexists; reflexivity.
  - intros v w' H.
    destruct (Hinv v w' H)
      as (vph & vn & vp & vk & om & vt & rain & hum & sun & crop
          & ph & n & p & k & t
          & R1 & R2 & R3 & R4 & R5 & R6 & R7 & R8 & R9 & Rc
          & A1 & A2 & A3 & A4 & A5 & Hd & Hw & Harr).
    unfold np_array_row in Harr.
    match type of Harr with
    | (if ?c then _ else _) = _ => destruct c
    end; [discriminate Harr |].
    cbn [numbers] in Harr. rewrite A1, A2, A3, A4, A5 in Harr.
    cbn [as_num] in Harr.
    split; [| split; [exact Hw | split]].
    + destruct (as_num om), (as_num rain), (as_num hum), (as_num sun);
        inversion Harr; reflexivity.
    + split.
      * intros [cells ->].
        destruct (as_num om) as [qom |] eqn:Aom; [| discriminate Harr].
        destruct (as_num rain) as [qrain |] eqn:Arain; [| discriminate Harr].
        destruct (as_num hum) as [qhum |] eqn:Ahum; [| discriminate Harr].
        destruct (as_num sun) as [qsun |] eqn:Asun; [| discriminate Harr].
        exists qom, qrain, qhum, qsun.
        repeat split; eapply read_num_of_as_num; eassumption.
      * intros (qom & qrain & qhum & qsun & N5 & N7 & N8 & N9).
        apply read_num_Ok_read in N5, N7, N8, N9.
        destruct N5 as (v5 & E5 & A5'). rewrite R5 in E5. inversion E5; subst v5.
        destruct N7 as (v7 & E7 & A7'). rewrite R7 in E7. inversion E7; subst v7.
        destruct N8 as (v8 & E8 & A8'). rewrite R8 in E8. inversion E8; subst v8.
        destruct N9 as (v9 & E9 & A9'). rewrite R9 in E9. inversion E9; subst v9.
        rewrite A5', A7', A8', A9' in Harr. inversion Harr.
        eexists. reflexivity.
    + intros components ->.
      destruct (as_num om), (as_num rain), (as_num hum), (as_num sun);
        inversion Harr; rewrite R5, R7, R8, R9; repeat split.
Qed.

Lemma prepare_features_returns_iff_witness :
  (exists v w',
      _prepare_features no_artifacts fallback_predictor
        sample_with_text_humidity fresh = (Ok v, w')
      /\ columns v = 17%nat
      /\ exists components,
           v = MixedArray components
           /\ nth_error components 7 = Some (VStr "damp"))
  /\ ~ (exists v w',
          _prepare_features no_artifacts fallback_predictor
            sample_with_list_humidity fresh = (Ok v, w')).
Proof.
  split.
  - destruct (prepare_features_returns_iff no_artifacts fallback_predictor
                sample_with_text_humidity fresh) as [[_ Hback] Hshape].
    destruct Hback as (v & w' & Hrun).
    + unfold featurable. split; [eexists; reflexivity |]. split.
      * exists 6.5, 20, 15, 25, 25. repeat split.
      * exists (VNum 3.0), (VNum 100), (VStr "damp"), (VNum 8). repeat split.
    + exists v, w'. split; [exact Hrun |].
      destruct (Hshape v w' Hrun) as (Hlen & _ & _ & Hmixed).
      split; [exact Hlen |].
      assert (Hv : exists components, v = MixedArray components).
      { vm_compute in Hrun. inversion Hrun. eexists. reflexivity. }
      destruct Hv as [components Hv]. exists components.
      split; [exact Hv |].
      destruct (Hmixed components Hv) as (_ & _ & Hhum & _). exact Hhum.
  - intros Hret.
    destruct (prepare_features_returns_iff no_artifacts fallback_predictor
                sample_with_list_humidity fresh) as [[Hfwd _] _].
    destruct (Hfwd Hret)
      as (_ & _ & (om & rain & hum & sun & _ & _ & Hhum & _ & Hseq)).
    inversion Hhum; subst hum.
    cbn [existsb is_sequence] in Hseq.
    rewrite !orb_true_r in Hseq. discriminate Hseq.
Defined.

Lemma or_else_num_run input section key q (f g : Q -> bool) w :
  read_num input section key = Ok q ->
  or_else (v <- num_field input section key ;; ret (f v))
          (v <- num_field input section key ;; ret (g v)) w
  = (Ok (f q || g q), w).
Proof.
  intros H. unfold or_else.
  unfold bind at 1. rewrite bind_num_field, H. unfold ret at 1.
  destruct (f q); [reflexivity |].
  rewrite bind_num_field, H. reflexivity.
Qed.

Lemma or_else_num_Ok_inv input section key (f g : Q -> bool) w c w' :
  or_else (v <- num_field input section key ;; ret (f v))
          (v <- num_field input section key ;; ret (g v)) w
  = (Ok c, w') ->
  exists q, read_num input section key = Ok q /\ c = (f q || g q) /\ w' = w.
Proof.
  intros H. destruct (read_num input section key) as [q | e] eqn:E.
  - rewrite (or_else_num_run _ _ _ _ _ _ _ E) in H. inversion H.
    exists q. repeat split.
  - unfold or_else in H. unfold bind at 1 in H.
    rewrite bind_num_field, E in H. discriminate H.
Qed.

(** The record the yield predictor builds when its [try] block returns. *)
Lemma predict_yield_body_factors env self input w r w' :
  predict_yield_body env self input w = (Ok r, w') ->
  exists ph om t rain,
    read_num input "soil" "ph" = Ok ph
    /\ read_num input "soil" "organicMatter" = Ok om
    /\ read_num input "weather" "temperature" = Ok t
    /\ read_num input "weather" "rainfall" = Ok rain
    /\ limitingFactors r = limiting_factors_of ph om t rain.
Proof.
  unfold predict_yield_body. intros H.
  bind_inv H features w1 Hf.
  bind_inv H yield_model w2 Hy.
  bind_inv H increase_model w3 Hi.
  bind_inv H xs w4 Hs.
  bind_inv H y w5 Hpy.
  bind_inv H x w6 Hpx.
  bind_inv H ph w7 Hph. apply num_field_Ok_inv in Hph. destruct Hph as [Hph ->].
  bind_inv H ph' w7 Hph'. apply lift_Ok_inv in Hph'. destruct Hph' as [Hph' ->].
  apply to_float_Ok_inv in Hph'. destruct Hph' as [-> _].
  bind_inv H om w8 Hom. apply num_field_Ok_inv in Hom. destruct Hom as [Hom ->].
  bind_inv H rain w9 Hrain.
  apply num_field_Ok_inv in Hrain. destruct Hrain as [Hrain ->].
  bind_inv H c1 w10 Hc1. apply or_else_num_Ok_inv in Hc1.
  destruct Hc1 as (ph1 & Hph1 & -> & ->).
  bind_inv H om' w11 Hom'. apply num_field_Ok_inv in Hom'.
  destruct Hom' as [Hom' ->].
  bind_inv H c3 w12 Hc3. apply or_else_num_Ok_inv in Hc3.
  destruct Hc3 as (t & Ht & -> & ->).
  bind_inv H rain' w13 Hrain'. apply num_field_Ok_inv in Hrain'.
  destruct Hrain' as [Hrain' ->].
  apply ret_Ok_inv in H. destruct H as [-> _].
  rewrite Hph in Hph1. inversion Hph1; subst ph1.
  rewrite Hom in Hom'. inversion Hom'; subst om'.
  rewrite Hrain in Hrain'. inversion Hrain'; subst rain'.
  exists ph, om, t, rain. repeat split; assumption.
Qed.

Lemma limiting_factors_by_flags (b1 b2 b3 b4 : bool) :
  let l :=
    let limiting_factors :=
      append_if b4 "Water stress"
        (append_if b3 "Temperature stress"
           (append_if b2 "Low organic matter"
              (append_if b1 "Soil pH imbalance" []))) in
    match limiting_factors with
    | [] => ["No major limiting factors detected"]
    | _ :: _ => limiting_factors
    end in
  (In "Soil pH imbalance" l <-> b1 = true)
  /\ (In "Low organic matter" l <-> b2 = true)
  /\ (In "Temperature stress" l <-> b3 = true)
  /\ (In "Water stress" l <-> b4 = true)
  /\ (In "No major limiting factors detected" l
      <-> b1 = false /\ b2 = false /\ b3 = false /\ b4 = false).
Proof.
  destruct b1, b2, b3, b4; simpl;
    repeat split; intros; try reflexivity; try tauto;
    repeat match goal with
           | H : _ \/ _ |- _ => destruct H
           | H : _ /\ _ |- _ => destruct H
           | H : False |- _ => contradiction
           | H : _ = _ |- _ => discriminate H
           end.
Qed.

(** X11.  When the [try] block of [predict_yield] returns, the limiting
    factors it reports are exactly those its four tests find, in the order
    pH, organic matter, temperature, water: pH below 5.5 or above 8.0,
    organic matter below 2, temperature below 10 or above 35, rainfall
    below 50; the sentinel is reported exactly when none applies. *)
Theorem limiting_factors_reported env self input w r w' :
  predict_yield_body env self input w = (Ok r, w') ->
  exists ph om t rain,
    read_num input "soil" "ph" = Ok ph
    /\ read_num input "soil" "organicMatter" = Ok om
    /\ read_num input "weather" "temperature" = Ok t
    /\ read_num input "weather" "rainfall" = Ok rain
    /\ (In "Soil pH imbalance" (limitingFactors r) <-> ph < 5.5 \/ 8.0 < ph)
    /\ (In "Low organic matter" (limitingFactors r) <-> om < 2)
    /\ (In "Temperature stress" (limitingFactors r) <-> t < 10 \/ 35 < t)
    /\ (In "Water stress" (limitingFactors r) <-> rain < 50)
    /\ (In "No major limiting factors detected" (limitingFactors r)
        <-> 5.5 <= ph <= 8.0 /\ 2 <= om /\ 10 <= t <= 35 /\ 50 <= rain)
    /\ limitingFactors r = limiting_factors_of ph om t rain.
Proof.
  intros H. apply predict_yield_body_factors in H.
  destruct H as (ph & om & t & rain & Hph & Hom & Ht & Hrain & Hl).
  exists ph, om, t, rain.
  split; [exact Hph |]. split; [exact Hom |]. split; [exact Ht |].
  split; [exact Hrain |].
  rewrite Hl. unfold limiting_factors_of.
  destruct (limiting_factors_by_flags (Qltb ph 5.5 || Qltb 8.0 ph)
              (Qltb om 2) (Qltb t 10 || Qltb 35 t) (Qltb rain 50))
    as (F1 & F2 & F3 & F4 & F5).
  cbv zeta in F1, F2, F3, F4, F5.
  split; [| split; [| split; [| split; [| split]]]].
  - rewrite F1, orb_true_iff, !Qltb_lt. reflexivity.
  - rewrite F2, Qltb_lt. reflexivity.
  - rewrite F3, orb_true_iff, !Qltb_lt. reflexivity.
  - rewrite F4, Qltb_lt. reflexivity.
  - rewrite F5, !orb_false_iff, !Qltb_ge. tauto.
  - reflexivity.
Qed.

Lemma limiting_factors_reported_witness :
  exists r w',
    predict_yield_body (yield_only 4) fallback_predictor acid_dry_input fresh
    = (Ok r, w')
    /\ limitingFactors r = ["Soil pH imbalance"; "Water stress"].
Proof.
  eexists. eexists. split; [vm_compute; reflexivity |].
  destruct (limiting_factors_reported (yield_only 4) fallback_predictor
              acid_dry_input fresh _ _ eq_refl)
    as (ph & om & t & rain & Hph & Hom & Ht & Hrain & _ & _ & _ & _ & _ & Hl).
  inversion Hph; subst ph. inversion Hom; subst om.
  inversion Ht; subst t. inversion Hrain; subst rain.
  exact Hl.
Defined.

Lemma py_round_ge (a : Z) (x : Q) : inject_Z a <= x -> (a <= py_round x)%Z.
Proof.
  intros Ha.
  apply (py_round_between a (Qfloor x + 1) x Ha).
  apply Qlt_le_weak. apply Qlt_floor.
Qed.

Lemma py_round_le (b : Z) (x : Q) : x <= inject_Z b -> (py_round x <= b)%Z.
Proof.
  intros Hb.
  apply (py_round_between (Qfloor x) b x); [apply Qfloor_le | exact Hb].
Qed.

(** X12.  The categorical and the numeric fields of every irrigation
    result agree: Sprinkler System goes with Daily, efficiency 75 and at
    least 2000 litres; Every 2-3 days goes with Drip Irrigation and 1000
    to 2000 litres; Weekly goes with Drip Irrigation, efficiency 90 and
    100 to 1000 litres.  More than 2000 litres is always Sprinkler
    System. *)
Theorem irrigation_result_coherent env self input w :
  exists r w',
    predict_irrigation env self input w = (Ok r, w')
    /\ ((method r = "Sprinkler System" /\ frequency r = "Daily"
         /\ irrigation_efficiency r = 75%Z /\ (2000 <= litersPerAcre r)%Z)
        \/ (method r = "Drip Irrigation" /\ frequency r = "Every 2-3 days"
            /\ (irrigation_efficiency r = 90%Z \/ irrigation_efficiency r = 85%Z)
            /\ (1000 <= litersPerAcre r <= 2000)%Z)
        \/ (method r = "Drip Irrigation" /\ frequency r = "Weekly"
            /\ irrigation_efficiency r = 90%Z
            /\ (100 <= litersPerAcre r <= 1000)%Z))
    /\ ((2000 < litersPerAcre r)%Z -> method r = "Sprinkler System").
Proof.
  destruct (predict_irrigation_total env self input w)
    as (r & w' & Hrun & [-> | [liters ->]]);
    eexists; eexists; (split; [exact Hrun |]).
  - simpl. split; [| intros H; lia].
    right. left. repeat split; lia.
  - unfold irrigation_record.
    destruct (Qltb 2000 liters) eqn:E1.
    + apply Qltb_lt in E1. simpl.
      assert (H : (2000 <= py_round liters)%Z).
      { apply py_round_ge. unfold inject_Z. lra. }
      split; [| intros _; reflexivity].
      left. repeat split. lia.
    + apply Qltb_ge in E1.
      assert (Hle : (py_round liters <= 2000)%Z).
      { apply py_round_le. unfold inject_Z. lra. }
      destruct (Qltb 1000 liters) eqn:E2.
      * apply Qltb_lt in E2. simpl.
        assert (Hge : (1000 <= py_round liters)%Z).
        { apply py_round_ge. unfold inject_Z. lra. }
        split; [| intros H; lia].
        right. left. repeat split; lia.
      * apply Qltb_ge in E2. simpl.
        assert (Hle' : (py_round liters <= 1000)%Z).
        { apply py_round_le. unfold inject_Z. lra. }
        split; [| intros H; lia].
        right. right. repeat split; lia.
Qed.

(** A raw prediction just above 2000 litres is rounded down to 2000:
    Sprinkler System is then advised although the high-water trigger of
    the risk assessment (more than 2000 litres) stays silent. *)
Example sprinkler_at_2000_litres :
  fst (predict_irrigation (irrigation_only 2000.4) irrigation_predictor
         sample_input fresh)
  = Ok (mkIrrigation 2000 "Daily" "Sprinkler System" 75
          ["Flowering stage"; "Early grain filling"]).
Proof. reflexivity. Qed.

Lemma irrigation_result_coherent_witness :
  exists r w',
    predict_irrigation (irrigation_only 2500) irrigation_predictor
      sample_input fresh = (Ok r, w')
    /\ litersPerAcre r = 2500%Z
    /\ method r = "Sprinkler System".
Proof.
  destruct (irrigation_result_coherent (irrigation_only 2500)
              irrigation_predictor sample_input fresh)
    as (r & w' & Hrun & _ & Hhigh).
  exists r, w'. split; [exact Hrun |].
  assert (Hl : litersPerAcre r = 2500%Z).
  { vm_compute in Hrun. inversion Hrun. reflexivity. }
  split; [exact Hl | apply Hhigh; rewrite Hl; reflexivity].
Defined.

(** X13.  The yield predictor's confidence is below 80 exactly when its
    [try] block raised; when the block returns the confidence lies between
    85 and 97, so the cap at 98 is never reached and the low-confidence
    risk trigger fires only for a fallen-back yield prediction. *)
Theorem low_confidence_iff_fallback env self input w :
  exists r w',
    predict_yield env self input w = (Ok r, w')
    /\ ((confidence r < 80)%Z
        <-> exists e w0, predict_yield_body env self input w = (Raise e, w0))
    /\ ((exists r0 w0, predict_yield_body env self input w = (Ok r0, w0)) ->
        (85 <= confidence r <= 97)%Z /\ (confidence r < 98)%Z).
Proof.
  unfold predict_yield, try_except.
  destruct (predict_yield_body env self input w) as [[r | e] w1] eqn:Hb.
  - exists r, w1. split; [reflexivity |].
    destruct (predict_yield_body_inv _ _ _ _ _ _ Hb)
      as (y & x & ph & om & rain & _ & _ & _ & _ & _ & _ & Hc).
    pose proof (yield_confidence_range ph om rain) as Hr.
    split; [split |].
    + intros Hlt. rewrite Hc in Hlt. lia.
    + intros (e & w0 & H). discriminate H.
    + intros _. rewrite Hc. lia.
  - exists yield_fallback, w1. split; [reflexivity |]. split; [split |].
    + intros _. exists e, w1. reflexivity.
    + intros _. simpl. lia.
    + intros (r0 & w0 & H). discriminate H.
Qed.

Lemma low_confidence_iff_fallback_witness :
  (exists r w',
      predict_yield no_artifacts fallback_predictor sample_input fresh
      = (Ok r, w') /\ (confidence r < 80)%Z)
  /\ (exists r w',
      predict_yield (yield_only 4) fallback_predictor sample_input fresh
      = (Ok r, w') /\ (85 <= confidence r <= 97)%Z).
Proof.
  split.
  - destruct (low_confidence_iff_fallback no_artifacts fallback_predictor
                sample_input fresh) as (r & w' & Hrun & Hlow & _).
    exists r, w'. split; [exact Hrun |]. apply Hlow.
    exists (FileNotFoundError "models/rf_yield_model.pkl"), (mkWorld 3 []).
    reflexivity.
  - destruct (low_confidence_iff_fallback (yield_only 4) fallback_predictor
                sample_input fresh) as (r & w' & Hrun & _ & Hok).
    exists r, w'. split; [exact Hrun |]. apply Hok.
    eexists. eexists. vm_compute. reflexivity.
Defined.

Lemma py_min_lower a b c : c <= a -> c <= b -> c <= py_min a b.
Proof. unfold py_min. destruct (Qltb b a); trivial. Qed.

Lemma risk_score_range x : 0 <= py_min 100 (py_max 0 x) <= 100.
Proof.
  split.
  - apply py_min_lower; [discriminate | apply py_max_lower].
  - apply py_min_upper.
Qed.

(** X14.  Whenever [predict_all] returns, the three risk scores lie
    between 0 and 100 and the overall risk is Low, Medium or High. *)
Theorem risk_scores_in_range env self input w r w' :
  predict_all env self input w = (Ok r, w') ->
  0 <= waterStress (riskAssessment r) <= 100
  /\ 0 <= nutrientDeficiency (riskAssessment r) <= 100
  /\ 0 <= climateRisk (riskAssessment r) <= 100
  /\ In (overallRisk (riskAssessment r)) ["Low"; "Medium"; "High"].
Proof.
  intros H. apply predict_all_Ok_inv in H.
  destruct H as (crop & i & w1 & f & w2 & y & w3 & t & _ & _ & _ & _ & _ & ->).
  simpl riskAssessment. unfold assess_risk. simpl.
  split; [apply risk_score_range |]. split; [apply risk_score_range |].
  split; [apply risk_score_range |].
  rewrite overall_risk_by_count.
  destruct (trigger_count (litersPerAcre i) (nitrogen f) (confidence y))
    as [| [| [| n]]]; tauto.
Qed.

Lemma risk_scores_in_range_witness :
  exists r w',
    predict_all (irrigation_only 9000) irrigation_predictor sample_input fresh
    = (Ok r, w')
    /\ waterStress (riskAssessment r) <= 100.
Proof.
  eexists. eexists. split; [vm_compute; reflexivity |].
  apply (risk_scores_in_range (irrigation_only 9000) irrigation_predictor
           sample_input fresh _ _ eq_refl).
Defined.

Lemma predict_yield_increase_range env self input w y w' :
  predict_yield env self input w = (Ok y, w') ->
  (0 <= yieldIncrease y <= 50)%Z.
Proof.
  intros H.
  destruct (predict_yield_total env self input w)
    as (r & w1 & Hrun & [-> | (x & ph & om & rain & Hi & _ & _)]);
    rewrite H in Hrun; inversion Hrun; subst.
  - simpl. lia.
  - rewrite Hi. apply yield_increase_range.
Qed.

(** X15.  Whenever [predict_all] returns, the cost reduction is one of
    10, 20, 25 and 35 (35 exactly for Drip Irrigation with less than 200
    kg of N+P+K in total), and the profit increase is four fifths of the
    yield increase, between 0 and 40: the [max(0, ...)] around it never
    changes the value. *)
Theorem economic_impact_values env self input w r w' :
  predict_all env self input w = (Ok r, w') ->
  In (costReduction (economicImpact r)) [10; 20; 25; 35]%Z
  /\ (costReduction (economicImpact r) = 35%Z
      <-> (method (irrigation r) = "Drip Irrigation"
           /\ (nitrogen (fertilizer r) + phosphorus (fertilizer r)
               + potassium (fertilizer r) < 200)%Z))
  /\ profitIncrease (economicImpact r)
     == inject_Z (yieldIncrease (yieldPrediction r)) * 0.8
  /\ 0 <= profitIncrease (economicImpact r) <= 40.
Proof.
  intros H. apply predict_all_Ok_inv in H.
  destruct H as (crop & i & w1 & f & w2 & y & w3 & t & _ & _ & _ & Hy & _ & ->).
  apply predict_yield_increase_range in Hy.
  simpl. unfold economic. simpl.
  assert (Hq : 0 <= inject_Z (yieldIncrease y) * 0.8 <= 40).
  { destruct Hy as [H0 H50].
    rewrite Zle_Qle in H0, H50.
    change (inject_Z 0) with 0 in H0. change (inject_Z 50) with 50 in H50.
    lra. }
  assert (Hmax : py_max 0 (inject_Z (yieldIncrease y) * 0.8)
                 == inject_Z (yieldIncrease y) * 0.8).
  { unfold py_max.
    destruct (Qltb 0 (inject_Z (yieldIncrease y) * 0.8)) eqn:E;
      [reflexivity |].
    apply Qltb_ge in E. lra. }
  split; [| split; [| split]].
  - destruct (String.eqb (method i) "Drip Irrigation"),
      (nitrogen f + phosphorus f + potassium f <? 200)%Z; simpl; tauto.
  - destruct (String.eqb (method i) "Drip Irrigation") eqn:Em.
    + apply String.eqb_eq in Em.
      destruct (nitrogen f + phosphorus f + potassium f <? 200)%Z eqn:Es.
      * apply Z.ltb_lt in Es. simpl. tauto.
      * apply Z.ltb_ge in Es. simpl. split; [discriminate |].
        intros [_ Hs]. lia.
    + apply String.eqb_neq in Em.
      destruct (nitrogen f + phosphorus f + potassium f <? 200)%Z;
        simpl; (split; [discriminate | intros [Hm _]; contradiction]).
  - exact Hmax.
  - rewrite Hmax. exact Hq.
Qed.

Lemma economic_impact_values_witness :
  exists r w',
    predict_all (all_regressors 42) fallback_predictor sample_input fresh
    = (Ok r, w')
    /\ costReduction (economicImpact r) = 35%Z
    /\ profitIncrease (economicImpact r) == 33.6.
Proof.
  eexists. eexists. split; [vm_compute; reflexivity |].
  destruct (economic_impact_values (all_regressors 42) fallback_predictor
              sample_input fresh _ _ eq_refl) as (_ & H35 & Hp & _).
  split; [apply H35; split; reflexivity | rewrite Hp; reflexivity].
Defined.

(** X16.  When the irrigation, nitrogen and yield regressor files are
    missing, every well-formed input gets the same advice: the three
    fallback records, water stress 0, nutrient deficiency 2, overall risk
    Medium, cost reduction 25 and profit increase 12.  Only the climate
    risk (from the temperature) and the tip vary. *)
Theorem fallback_advice_is_constant env self input a w :
  parse input = Some a ->
  pickles env (models_dir self ++ "/rf_irrigation_model.pkl") = None ->
  pickles env (models_dir self ++ "/rf_nitrogen_fertilizer_model.pkl") = None ->
  pickles env (models_dir self ++ "/rf_yield_model.pkl") = None ->
  exists r w',
    predict_all env self input w = (Ok r, w')
    /\ irrigation r = irrigation_fallback
    /\ fertilizer r = fertilizer_fallback
    /\ yieldPrediction r = yield_fallback
    /\ waterStress (riskAssessment r) == 0
    /\ nutrientDeficiency (riskAssessment r) == 2
    /\ climateRisk (riskAssessment r)
       == clamp 0 100 (Qabs (in_temperature a - 25) * 2)
    /\ overallRisk (riskAssessment r) = "Medium"
    /\ costReduction (economicImpact r) = 25%Z
    /\ profitIncrease (economicImpact r) == 12.
Proof.
  intros Hp Hi Hn Hy.
  destruct (parse_reads _ _ Hp) as (_ & _ & _ & _ & _ & Ht & _ & _ & _ & Hc).
  destruct (predict_all_run env self input w _ Hc)
    as (i & w1 & f & w2 & y & w3 & Hri & Hrf & Hry & Hall).
  rewrite (read_num_of_read _ _ _ _ Ht) in Hall.
  rewrite (predict_irrigation_missing env self input a w Hp Hi) in Hri.
  rewrite (predict_fertilizer_missing env self input a w1 Hp Hn) in Hrf.
  rewrite (predict_yield_missing env self input a w2 Hp Hy) in Hry.
  inversion Hri; subst i w1. inversion Hrf; subst f w2.
  inversion Hry; subst y w3.
  eexists. eexists. split; [exact Hall |]. simpl.
  repeat split; try reflexivity.
  apply py_min_max_clamp. discriminate.
Qed.

Lemma fallback_advice_is_constant_witness :
  exists r w',
    predict_all no_artifacts fallback_predictor acid_dry_input
      (mkWorld 7 []) = (Ok r, w')
    /\ fertilizer r = fertilizer_fallback
    /\ overallRisk (riskAssessment r) = "Medium".
Proof.
  destruct (fallback_advice_is_constant no_artifacts fallback_predictor
              acid_dry_input
              (mkInput 4.0 20 15 25 3.0 25 20 65 8 (VStr "rice"))
              (mkWorld 7 []) eq_refl eq_refl eq_refl eq_refl)
    as (r & w' & Hrun & _ & Hf & _ & _ & _ & _ & Hrisk & _).
  exists r, w'. split; [exact Hrun |]. split; [exact Hf | exact Hrisk].
Defined.







Lemma preserves_try_except {A} (body : M A) (fallback : A) :
  preserves_world body ->
  preserves_world (try_except body (fun _ => ret fallback)).
Proof.
  intros Hb w. unfold try_except. specialize (Hb w).
  destruct (body w) as [[a | e] w1]; simpl in Hb; subst w1; reflexivity.
Qed.


(** A [try] whose body starts with steps that return and goes on with
    steps that leave the world alone ends in the world the first steps
    left. *)
Lemma try_except_after {A B} (first : M A) (rest : A -> M B) (fallback : B)
    w a w1 :
  first w = (Ok a, w1) ->
  preserves_world (rest a) ->
  exists r,
    try_except (bind first rest) (fun _ => ret fallback) w = (Ok r, w1).
Proof.
  intros Hf Hr. unfold try_except. rewrite (bind_run _ _ _ _ _ Hf).
  specialize (Hr w1). destruct (rest a w1) as [[b | e] w2]; simpl in Hr;
    subst w2; eexists; reflexivity.
Qed.








(** With the six regressors in place, a temperature no float can hold
    makes each predictor fall back before it opens a file: [predict_all]
    still returns, with the three fallback records and the climate risk
    at its cap, and no file has been read. *)
Example huge_temperature_falls_back :
  exists r w',
    predict_all (all_regressors 42) fallback_predictor
      sample_with_huge_temperature fresh = (Ok r, w')
    /\ irrigation r = irrigation_fallback
    /\ fertilizer r = fertilizer_fallback
    /\ yieldPrediction r = yield_fallback
    /\ climateRisk (riskAssessment r) = 100
    /\ reads w' = []
    /\ draws w' = 10%nat.
Proof.
  eexists. eexists. split; [vm_compute; reflexivity |].
  repeat split.
Qed.

(* ------------------------------------------------------------------ *)
(** ** The training targets *)

Lemma np_maximum_ge_l a b : a <= np_maximum a b.
Proof.
  unfold np_maximum. destruct (Qltb a b) eqn:E;
    [apply Qltb_lt in E; lra | lra].
Qed.

Lemma np_maximum_ge_r a b : b <= np_maximum a b.
Proof.
  unfold np_maximum. destruct (Qltb a b) eqn:E;
    [lra | apply Qltb_ge in E; lra].
Qed.

Lemma np_maximum_le a b c : a <= c -> b <= c -> np_maximum a b <= c.
Proof. unfold np_maximum. destruct (Qltb a b); trivial. Qed.

Lemma np_minimum_le_l a b : np_minimum a b <= a.
Proof.
  unfold np_minimum. destruct (Qltb b a) eqn:E;
    [apply Qltb_lt in E; lra | lra].
Qed.

Lemma np_minimum_le_r a b : np_minimum a b <= b.
Proof.
  unfold np_minimum. destruct (Qltb b a) eqn:E;
    [lra | apply Qltb_ge in E; lra].
Qed.

Lemma np_minimum_ge a b c : c <= a -> c <= b -> c <= np_minimum a b.
Proof. unfold np_minimum. destruct (Qltb b a); trivial. Qed.

Lemma np_minimum_pos a b : 0 < a -> 0 < b -> 0 < np_minimum a b.
Proof. unfold np_minimum. destruct (Qltb b a); trivial. Qed.

Lemma clip_range x lower upper :
  lower <= upper -> lower <= clip x lower upper <= upper.
Proof.
  intros H. unfold clip. split.
  - apply np_minimum_ge; [apply np_maximum_ge_r | exact H].
  - apply np_minimum_le_r.
Qed.

Lemma clip_le x lower upper c :
  x <= c -> lower <= c -> clip x lower upper <= c.
Proof.
  intros Hx Hl. unfold clip.
  apply Qle_trans with (np_maximum x lower);
    [apply np_minimum_le_l | apply np_maximum_le; assumption].
Qed.

Lemma assoc_get_In {A} (d : list (string * A)) k v :
  assoc_get d k = Some v -> In (k, v) d.
Proof.
  induction d as [| [k' v'] d IH]; simpl; [discriminate |].
  destruct (String.eqb k' k) eqn:E.
  - apply String.eqb_eq in E. subst k'. intros H. inversion H. left. reflexivity.
  - intros H. right. apply IH. exact H.
Qed.

(** Every crop of the table has positive base requirements. *)
Lemma crop_requirements_positive crop req :
  assoc_get crop_requirements crop = Some req ->
  0 < water_base req /\ 0 < n_base req /\ 0 < p_base req /\ 0 < k_base req
  /\ 0 < yield_base req.
Proof.
  intros H. apply assoc_get_In in H. simpl in H.
  repeat (destruct H as [H | H]; [inversion H; repeat split; reflexivity |]).
  contradiction.
Qed.

Lemma yield_factor_le_1 req row irrigation :
  0 < water_base req -> 0 < irrigation ->
  yield_factor req row irrigation <= 1.
Proof.
  intros Hw Hi. unfold yield_factor.
  set (ws := np_minimum 1.0 (irrigation / water_base req)).
  set (ns := np_minimum 1.0 _).
  assert (Hws : 0 < ws <= 1).
  { split.
    - apply np_minimum_pos; [reflexivity |].
      apply Qlt_shift_div_l; [exact Hw | lra].
    - pose proof (np_minimum_le_l 1.0 (irrigation / water_base req)) as H.
      fold ws in H. lra. }
  assert (Hns : ns <= 1).
  { pose proof (np_minimum_le_l 1.0
                  ((nitrogen_ppm row / n_base req
                    + phosphorus_ppm row / p_base req
                    + potassium_ppm row / k_base req) / 3)) as H.
    fold ns in H. lra. }
  destruct (Qle_bool 15 (temperature_c row) && Qle_bool (temperature_c row) 35);
    nra.
Qed.

Lemma yield_factor_cold req row irrigation :
  0 < water_base req -> 0 < irrigation ->
  Qle_bool 15 (temperature_c row) && Qle_bool (temperature_c row) 35 = false ->
  yield_factor req row irrigation <= 0.7.
Proof.
  intros Hw Hi Ht. unfold yield_factor. rewrite Ht.
  set (ws := np_minimum 1.0 (irrigation / water_base req)).
  set (ns := np_minimum 1.0 _).
  assert (Hws : 0 < ws <= 1).
  { split.
    - apply np_minimum_pos; [reflexivity |].
      apply Qlt_shift_div_l; [exact Hw | lra].
    - pose proof (np_minimum_le_l 1.0 (irrigation / water_base req)) as H.
      fold ws in H. lra. }
  assert (Hns : ns <= 1).
  { pose proof (np_minimum_le_l 1.0
                  ((nitrogen_ppm row / n_base req
                    + phosphorus_ppm row / p_base req
                    + potassium_ppm row / k_base req) / 3)) as H.
    fold ns in H. lra. }
  nra.
Qed.

(** X18.  For a row of any crop of the requirements table the generated
    targets are in range: irrigation between 100 and 3000 litres per
    acre, nitrogen between 0 and 200 kg, phosphorus between 0 and 100,
    potassium between 0 and 150, the expected yield at most the crop's
    base yield, and the yield increase between 0 and 50 percent. *)
Theorem training_targets_in_range row req :
  assoc_get crop_requirements (crop_type row) = Some req ->
  100 <= irrigation_liters_per_acre (_generate_realistic_targets row) <= 3000
  /\ 0 <= nitrogen_fertilizer_kg (_generate_realistic_targets row) <= 200
  /\ 0 <= phosphorus_fertilizer_kg (_generate_realistic_targets row) <= 100
  /\ 0 <= potassium_fertilizer_kg (_generate_realistic_targets row) <= 150
  /\ expected_yield_tons_per_hectare (_generate_realistic_targets row)
     <= yield_base req
  /\ 0 <= yield_increase_percent (_generate_realistic_targets row) <= 50.
Proof.
  intros Hreq.
  destruct (crop_requirements_positive _ _ Hreq) as (Hw & _ & _ & _ & Hy).
  unfold _generate_realistic_targets. rewrite Hreq. simpl.
  set (irr := clip _ 100 3000).
  assert (Hirr : 100 <= irr <= 3000) by (apply clip_range; discriminate).
  assert (Hf : yield_factor req row irr <= 1).
  { apply yield_factor_le_1; [exact Hw | lra]. }
  split; [exact Hirr |].
  split; [apply clip_range; discriminate |].
  split; [apply clip_range; discriminate |].
  split; [apply clip_range; discriminate |].
  split; [nra |].
  apply clip_range. discriminate.
Qed.

Lemma training_targets_in_range_witness :
  irrigation_liters_per_acre (_generate_realistic_targets cold_wheat_row)
  <= 3000
  /\ yield_increase_percent (_generate_realistic_targets cold_wheat_row) <= 50.
Proof.
  destruct (training_targets_in_range cold_wheat_row
              (mkRequirement 450 100 50 30 3.2) eq_refl)
    as ([_ H1] & _ & _ & _ & _ & [_ H2]).
  split; assumption.
Defined.

(** X19.  A row whose temperature lies outside 15 to 35 degrees gets a
    yield increase of exactly 0 and an expected yield of at most 70
    percent of the crop's base yield, whatever its soil and water. *)
Theorem cold_or_hot_rows_gain_nothing row req :
  assoc_get crop_requirements (crop_type row) = Some req ->
  temperature_c row < 15 \/ 35 < temperature_c row ->
  yield_increase_percent (_generate_realistic_targets row) == 0
  /\ expected_yield_tons_per_hectare (_generate_realistic_targets row)
     <= 0.7 * yield_base req.
Proof.
  intros Hreq Ht.
  destruct (crop_requirements_positive _ _ Hreq) as (Hw & _ & _ & _ & Hy).
  assert (Hb : Qle_bool 15 (temperature_c row)
               && Qle_bool (temperature_c row) 35 = false).
  { apply andb_false_iff. destruct Ht as [Ht | Ht].
    - left. destruct (Qle_bool 15 (temperature_c row)) eqn:E; [| reflexivity].
      apply Qle_bool_iff in E. lra.
    - right. destruct (Qle_bool (temperature_c row) 35) eqn:E; [| reflexivity].
      apply Qle_bool_iff in E. lra. }
  unfold _generate_realistic_targets. rewrite Hreq. simpl.
  set (irr := clip _ 100 3000).
  assert (Hirr : 100 <= irr <= 3000) by (apply clip_range; discriminate).
  assert (Hf : yield_factor req row irr <= 0.7).
  { apply yield_factor_cold; [exact Hw | lra | exact Hb]. }
  split; [| nra].
  apply Qle_antisym.
  - apply clip_le; [lra | discriminate].
  - apply clip_range. discriminate.
Qed.

Lemma cold_or_hot_rows_gain_nothing_witness :
  yield_increase_percent (_generate_realistic_targets cold_wheat_row) == 0.
Proof.
  apply (cold_or_hot_rows_gain_nothing cold_wheat_row
           (mkRequirement 450 100 50 30 3.2) eq_refl).
  left. reflexivity.
Defined.

(** X20.  The feature row built at inference agrees with the training
    data: whenever [_prepare_features] returns on a well-formed input,
    the row is a row of numbers whose three derived components are the
    derived columns [create_combined_dataset] computes from the same pH,
    nutrients and temperature, the growing days are 120 and the simulated
    planting month is one of 1 to 12, as in the generated crop dataset. *)
Theorem inference_features_match_training env self input a w v w' :
  parse input = Some a ->
  _prepare_features env self input w = (Ok v, w') ->
  exists cells,
    v = NumberArray cells
    /\ nth_error cells 14 = Some (combined_ph_stress (in_ph a))
    /\ nth_error cells 15
       = Some (combined_nutrient_balance (in_nitrogen a)
                 (in_phosphorus a) (in_potassium a))
    /\ nth_error cells 16 = Some (combined_weather_stress (in_temperature a))
    /\ nth_error cells 11 = Some 120
    /\ exists month,
         nth_error cells 12 = Some (inject_Z month) /\ (1 <= month <= 12)%Z.
Proof.
  intros Hp H. rewrite (prepare_features_run env self input a w Hp) in H.
  destruct (derivable _ _ _ _ _); [| discriminate H].
  inversion H; subst v w'. eexists. split; [reflexivity |]. simpl.
  repeat split.
  exists (drawn_month env w). split; [reflexivity |].
  unfold drawn_month.
  pose proof (Z.mod_pos_bound (Z.of_nat (uniform env (S (S (draws w)))))
                (13 - 1)%Z) as Hm.
  lia.
Qed.

Lemma inference_features_match_training_witness :
  exists cells w',
    _prepare_features no_artifacts fallback_predictor sample_input fresh
    = (Ok (NumberArray cells), w')
    /\ nth_error cells 15 = Some (combined_nutrient_balance 20 15 25).
Proof.
  eexists. eexists. split; [vm_compute; reflexivity |].
  destruct (inference_features_match_training no_artifacts fallback_predictor
              sample_input sample fresh _ _ eq_refl eq_refl)
    as (cells & Hv & _ & Hn & _).
  inversion Hv; subst cells. exact Hn.
Defined.

(* ------------------------------------------------------------------ *)
(** ** Choosing the best model *)

Lemma score_lt_trans a b c :
  score_lt a b = true -> score_lt b c = true -> score_lt a c = true.
Proof.
  destruct a as [x |], b as [y |], c as [z |]; simpl;
    try discriminate; try reflexivity.
  rewrite !Qltb_lt. intros H1 H2. lra.
Qed.

Lemma score_lt_ge_trans a b c :
  score_lt a b = true -> score_lt c b = false -> score_lt a c = true.
Proof.
  destruct a as [x |], b as [y |], c as [z |]; simpl;
    try discriminate; try reflexivity.
  rewrite !Qltb_lt, Qltb_ge. intros H1 H2. lra.
Qed.

Lemma score_ge_trans a b c :
  score_lt b a = false -> score_lt c b = false -> score_lt c a = false.
Proof.
  destruct a as [x |], b as [y |], c as [z |]; simpl;
    try discriminate; try reflexivity.
  rewrite !Qltb_ge. intros H1 H2. lra.
Qed.

(** The running minimum: the winner sits somewhere in the list, beats
    every entry before it strictly and is beaten by none after it. *)
Lemma min_by_mse_spec rest :
  forall best,
  exists pre post,
    (best :: rest = pre ++ min_by_mse best rest :: post)%list
    /\ (forall x, In x pre ->
          score_lt (mse (snd (min_by_mse best rest))) (mse (snd x)) = true)
    /\ (forall x, In x post ->
          score_lt (mse (snd x)) (mse (snd (min_by_mse best rest))) = false).
Proof.
  induction rest as [| x rest IH]; intros best.
  - exists [], []. repeat split; intros y [].
  - simpl min_by_mse.
    destruct (score_lt (mse (snd x)) (mse (snd best))) eqn:E.
    + destruct (IH x) as (pre & post & Heq & Hpre & Hpost).
      exists (best :: pre), post. split; [| split].
      * simpl. rewrite <- Heq. reflexivity.
      * intros y [<- | Hy]; [| apply Hpre; exact Hy].
        destruct pre as [| p pre].
        -- simpl in Heq. injection Heq as Hx Hrest. rewrite <- Hx. exact E.
        -- simpl in Heq. injection Heq as Hx Hrest. subst p.
           apply (score_lt_trans _ (mse (snd x))); [| exact E].
           apply Hpre. left. reflexivity.
      * exact Hpost.
    + destruct (IH best) as (pre & post & Heq & Hpre & Hpost).
      destruct pre as [| p pre].
      * simpl in Heq. injection Heq as Hb Hrest.
        exists [], (x :: post). split; [| split].
        -- simpl. rewrite <- Hb, <- Hrest. reflexivity.
        -- intros y [].
        -- intros y [<- | Hy]; [rewrite <- Hb; exact E | apply Hpost; exact Hy].
      * simpl in Heq. injection Heq as Hb Hrest. subst p.
        exists (best :: x :: pre), post. split; [| split].
        -- simpl. do 2 f_equal. exact Hrest.
        -- intros y [<- | [<- | Hy]].
           ++ apply Hpre. left. reflexivity.
           ++ apply (score_lt_ge_trans _ (mse (snd best))); [| exact E].
              apply Hpre. left. reflexivity.
           ++ apply Hpre. right. exact Hy.
        -- exact Hpost.
Qed.

Lemma best_model_winner first rest :
  exists pre k m post,
    (first :: rest = pre ++ (k, m) :: post)%list
    /\ best_model (first :: rest) = Ok k
    /\ (forall x, In x pre -> score_lt (mse m) (mse (snd x)) = true)
    /\ (forall x, In x post -> score_lt (mse (snd x)) (mse m) = false).
Proof.
  destruct (min_by_mse_spec rest first) as (pre & post & Heq & Hpre & Hpost).
  destruct (min_by_mse first rest) as [k m] eqn:Em.
  exists pre, k, m, post. simpl best_model. rewrite Em.
  repeat split; assumption.
Qed.

(** X21.  [best_model] raises ValueError on an empty results dict;
    otherwise it names an entry whose mean squared error no entry
    undercuts, and among entries of equal error the first one: every
    entry before the winner is strictly worse. *)
Theorem best_model_is_first_minimum results :
  (results = [] -> best_model results = Raise ValueError)
  /\ (results <> [] ->
      exists pre k m post,
        results = (pre ++ (k, m) :: post)%list
        /\ best_model results = Ok k
        /\ (forall x, In x pre -> score_lt (mse m) (mse (snd x)) = true)
        /\ (forall x, In x post -> score_lt (mse (snd x)) (mse m) = false)).
Proof.
  split.
  - intros ->. reflexivity.
  - destruct results as [| first rest]; [congruence |]. intros _.
    apply best_model_winner.
Qed.

Lemma best_model_is_first_minimum_witness :
  best_model
    [ ("random_forest", mkMetrics (Finite 4) 0.9 (Finite 1));
      ("xgboost", mkMetrics (Finite 2) 0.95 (Finite 1));
      ("neural_network", mkMetrics (Finite 2) 0.95 (Finite 1)) ]
  = Ok "xgboost".
Proof.
  destruct (best_model_is_first_minimum
              [ ("random_forest", mkMetrics (Finite 4) 0.9 (Finite 1));
                ("xgboost", mkMetrics (Finite 2) 0.95 (Finite 1));
                ("neural_network", mkMetrics (Finite 2) 0.95 (Finite 1)) ])
    as [_ H].
  destruct H as (pre & k & m & post & _ & Hbest & _); [discriminate |].
  rewrite Hbest. vm_compute in Hbest. symmetry. exact Hbest.
Defined.

Lemma assoc_get_of_In {A} (d : list (string * A)) k v :
  NoDup (map fst d) -> In (k, v) d -> assoc_get d k = Some v.
Proof.
  induction d as [| [k' v'] d IH]; simpl; intros Hnd Hin; [contradiction |].
  inversion Hnd as [| x xs Hnotin Hnd']; subst.
  destruct Hin as [Heq | Hin].
  - inversion Heq; subst. rewrite String.eqb_refl. reflexivity.
  - destruct (String.eqb k' k) eqn:E.
    + apply String.eqb_eq in E. subst k'. exfalso. apply Hnotin.
      apply in_map_iff. exists (k, v). split; [reflexivity | exact Hin].
    + apply IH; assumption.
Qed.

(** X22.  For the three families [evaluate_models] records, the best
    model of a target is random_forest when all three evaluations failed;
    and as soon as one family evaluated with a finite error, the family
    chosen has a finite error no larger than that one: a family whose
    evaluation failed is never preferred to one that succeeded. *)
Theorem best_model_of_evaluation rf xgb nn :
  exists k mk,
    best_model (evaluation_of rf xgb nn) = Ok k
    /\ assoc_get (evaluation_of rf xgb nn) k = Some mk
    /\ (rf = None -> xgb = None -> nn = None -> k = "random_forest")
    /\ (forall m q,
          In (Some m) [rf; xgb; nn] -> mse m = Finite q ->
          exists qk, mse mk = Finite qk /\ qk <= q).
Proof.
  destruct (best_model_winner ("random_forest", family_metrics rf)
              [ ("xgboost", family_metrics xgb);
                ("neural_network", family_metrics nn) ])
    as (pre & k & mk & post & Heq & Hbest & Hpre & Hpost).
  change (("random_forest", family_metrics rf)
          :: [ ("xgboost", family_metrics xgb);
               ("neural_network", family_metrics nn) ])
    with (evaluation_of rf xgb nn) in Heq, Hbest.
  assert (Hin : In (k, mk) (evaluation_of rf xgb nn)).
  { rewrite Heq. apply in_or_app. right. left. reflexivity. }
  assert (Hmin : forall e, In e (evaluation_of rf xgb nn) ->
                           score_lt (mse (snd e)) (mse mk) = false).
  { intros e He. rewrite Heq in He. apply in_app_or in He.
    destruct He as [He | [<- | He]].
    - specialize (Hpre e He).
      destruct (mse (snd e)) as [x |], (mse mk) as [y |]; simpl in *;
        try discriminate; try reflexivity.
      apply Qltb_lt in Hpre. apply Qltb_ge. lra.
    - simpl. destruct (mse mk) as [y |]; simpl; [| reflexivity].
      apply Qltb_ge. lra.
    - apply Hpost. exact He. }
  exists k, mk. split; [exact Hbest |]. split; [| split].
  - apply assoc_get_of_In; [| exact Hin].
    simpl. repeat (constructor; [simpl; intuition discriminate |]). constructor.
  - intros -> -> ->. vm_compute in Hbest. inversion Hbest. reflexivity.
  - intros m q Hm Hq.
    assert (He : exists name, In (name, m) (evaluation_of rf xgb nn)).
    { simpl in Hm. destruct Hm as [-> | [-> | [-> | []]]].
      - exists "random_forest". left. reflexivity.
      - exists "xgboost". right. left. reflexivity.
      - exists "neural_network". right. right. left. reflexivity. }
    destruct He as [name He]. specialize (Hmin _ He). simpl in Hmin.
    rewrite Hq in Hmin. destruct (mse mk) as [qk |]; simpl in Hmin;
      [| discriminate Hmin].
    exists qk. split; [reflexivity |]. apply Qltb_ge in Hmin. exact Hmin.
Qed.

Lemma best_model_of_evaluation_witness :
  best_model
    (evaluation_of None (Some (mkMetrics (Finite 3) 0.8 (Finite 1))) None)
  = Ok "xgboost".
Proof.
  destruct (best_model_of_evaluation None
              (Some (mkMetrics (Finite 3) 0.8 (Finite 1))) None)
    as (k & mk & Hbest & _ & _ & _).
  rewrite Hbest. vm_compute in Hbest. symmetry. exact Hbest.
Defined.

(* ------------------------------------------------------------------ *)
(** ** What the predictions depend on *)

(** X23.  The predictions depend on the predictor only through its models
    directory, its crop list and the scalers of irrigation,
    nitrogen_fertilizer and yield: the scalers cached for
    phosphorus_fertilizer, potassium_fertilizer and yield_increase, the
    metadata, the fallback flag and [models] are never consulted (the
    phosphorus and potassium regressors are fed the nitrogen scaler's
    output). *)
Theorem predictions_ignore_three_scalers env self self' input w :
  models_dir self = models_dir self' ->
  label_encoders_crop_type self = label_encoders_crop_type self' ->
  assoc_get (scalers self) "irrigation"
  = assoc_get (scalers self') "irrigation" ->
  assoc_get (scalers self) "nitrogen_fertilizer"
  = assoc_get (scalers self') "nitrogen_fertilizer" ->
  assoc_get (scalers self) "yield" = assoc_get (scalers self') "yield" ->
  predict_all env self input w = predict_all env self' input w.
Proof.
  intros Hd Hc Hi Hn Hy.
  assert (Hf : _prepare_features env self input
               = _prepare_features env self' input).
  { unfold _prepare_features. rewrite Hc. reflexivity. }
  unfold predict_all, predict_irrigation, predict_fertilizer, predict_yield,
    predict_irrigation_body, predict_fertilizer_body, predict_yield_body.
  rewrite Hf, Hd, Hi, Hn, Hy. reflexivity.
Qed.

Lemma predictions_ignore_three_scalers_witness :
  predict_all (all_regressors 42) fallback_predictor sample_input fresh
  = predict_all (all_regressors 42)
      (mkPredictor "models" false (mkMetadata feature_columns None)
         [("irrigation", constant_model 7)]
         [ ("phosphorus_fertilizer", constant_model 1);
           ("potassium_fertilizer", constant_model 1);
           ("yield_increase", constant_model 1) ]
         default_crop_types)
      sample_input fresh.
Proof.
  apply predictions_ignore_three_scalers; reflexivity.
Defined.
